(** * 10x-cards: the AI generation pipeline, embedded and verified

    A shallow embedding of the TypeScript sources
      - [src/lib/openrouter.service.ts]  (the remote model client),
      - [src/lib/generation.service.ts]  (the generation orchestrator),
      - [src/lib/validation.ts]          (the request schemas),
      - [src/lib/flashcard.service.ts]   (the flashcard batch writer),
      - [src/pages/api/generations.ts], [src/pages/api/flashcards.ts]
        (the two HTTP handlers),
      - [src/components/FlashcardGenerationView.tsx] (the state of the
        generation view and the requests it posts),
      - [src/middleware/index.ts], [src/db/supabase.client.ts]
        (the session guard and the reading of the cookie header),
    followed by the properties the specification states about them and by
    further properties of the code.

    Conventions.
    - Everything that arrives from the network or from [JSON.parse] is a
      [json] value; property reads on it follow JavaScript (reading a
      property of [null] or [undefined] raises a [TypeError]).
    - JavaScript numbers are modelled by [Z] (integral values only, below
      10^21 in absolute value, where [String] prints every digit); strings
      by [string], one character standing for one UTF-16 code unit.
    - [async] code is sequential here: every [await] runs to completion.
      The abort timer of an attempt belongs to the endpoint oracle: a
      [fetch] whose timer fired is one rejected with an 'AbortError'.
      Effects are threaded through a state-and-exception monad [M]; the
      outside world (HTTP endpoint, record store, JSON parser, SHA-256)
      is the record [Env] of oracles.
    - Of the console output only that of the two services and of the
      handlers is recorded; the diagnostic console output of the remote
      model client ([logRequest], the development-mode dumps, the retry
      warnings) is not modelled. *)

From Stdlib Require Import ZArith QArith List String Ascii Bool Lia DecimalString DecimalZ.
Import ListNotations.
Open Scope string_scope.
Open Scope list_scope.
Open Scope Z_scope.
Set Warnings "-register-all".

(** ** Strings and numbers as JavaScript sees them *)

(** [s.length] *)
Definition str_length (s : string) : Z := Z.of_nat (String.length s).

(** [String(n)] for an integral number, also what a template literal
    [`${n}`] produces: all the digits, as JavaScript prints a number below
    10^21 in absolute value. *)
Definition string_of_Z (z : Z) : string := NilZero.string_of_int (Z.to_int z).

(** [parts.join(sep)] *)
Fixpoint join (sep : string) (parts : list string) : string :=
  match parts with
  | [] => ""
  | [p] => p
  | p :: rest => (p ++ sep ++ join sep rest)%string
  end.

(** ** JSON values *)

Inductive json : Type :=
| JNull
| JBool (b : bool)
| JNum (n : Z)
| JStr (s : string)
| JArr (items : list json)
| JObj (props : list (string * json)).

(** Own-property lookup; the keys of an object are pairwise distinct. *)
Fixpoint lookup {V : Type} (k : string) (props : list (string * V)) : option V :=
  match props with
  | [] => None
  | (k', v) :: rest => if (k' =? k)%string then Some v else lookup k rest
  end.

(** A JavaScript value read out of JSON data is a [json] or [undefined]
    ([None]). *)
Definition jsval : Type := option json.

(** Truthiness, as used by [!v], [v || w] and [if (v)]. *)
Definition truthy (v : jsval) : bool :=
  match v with
  | None | Some JNull => false
  | Some (JBool b) => b
  | Some (JNum n) => negb (n =? 0)
  | Some (JStr s) => negb (s =? "")%string
  | Some (JArr _) | Some (JObj _) => true
  end.

(** The name [typeof]-like classification used in messages. *)
Definition parsedType (v : jsval) : string :=
  match v with
  | None => "undefined"
  | Some JNull => "null"
  | Some (JBool _) => "boolean"
  | Some (JNum _) => "number"
  | Some (JStr _) => "string"
  | Some (JArr _) => "array"
  | Some (JObj _) => "object"
  end.

(** ** Thrown values *)

(** [enum OpenRouterErrorCode] *)
Inductive OpenRouterErrorCode : Type :=
| MISSING_API_KEY
| MISSING_USER_MESSAGE
| HTTP_ERROR
| AUTHENTICATION_ERROR
| RATE_LIMIT_ERROR
| TIMEOUT_ERROR
| NETWORK_ERROR
| REQUEST_FAILED
| INVALID_RESPONSE
| EMPTY_RESPONSE
| JSON_PARSE_ERROR
| UNKNOWN_ERROR.

(** The string value of each enum member. *)
Definition code_string (c : OpenRouterErrorCode) : string :=
  match c with
  | MISSING_API_KEY => "MISSING_API_KEY"
  | MISSING_USER_MESSAGE => "MISSING_USER_MESSAGE"
  | HTTP_ERROR => "HTTP_ERROR"
  | AUTHENTICATION_ERROR => "AUTHENTICATION_ERROR"
  | RATE_LIMIT_ERROR => "RATE_LIMIT_ERROR"
  | TIMEOUT_ERROR => "TIMEOUT_ERROR"
  | NETWORK_ERROR => "NETWORK_ERROR"
  | REQUEST_FAILED => "REQUEST_FAILED"
  | INVALID_RESPONSE => "INVALID_RESPONSE"
  | EMPTY_RESPONSE => "EMPTY_RESPONSE"
  | JSON_PARSE_ERROR => "JSON_PARSE_ERROR"
  | UNKNOWN_ERROR => "UNKNOWN_ERROR"
  end.

(** What a [catch (error)] clause can receive (TypeScript's [unknown]):
    - [OpenRouterError message code statusCode originalError retryable],
      the class of the client ([name] is 'OpenRouterError');
    - [TypeError message];
    - [Error name message], any other instance of [Error] ('Error',
      'SyntaxError', the 'AbortError' of an aborted fetch, ...);
    - [Value v], a thrown value that is not an [Error]. *)
Inductive thrown : Type :=
| OpenRouterError (message : string) (code : OpenRouterErrorCode)
    (statusCode : option Z) (originalError : option thrown) (retryable : bool)
| TypeError (message : string)
| Error (name message : string)
| Value (v : json).

(** [error instanceof Error] *)
Definition instanceof_Error (e : thrown) : bool :=
  match e with Value _ => false | _ => true end.

(** [error instanceof TypeError] *)
Definition instanceof_TypeError (e : thrown) : bool :=
  match e with TypeError _ => true | _ => false end.

(** [error instanceof OpenRouterError] *)
Definition instanceof_OpenRouterError (e : thrown) : bool :=
  match e with OpenRouterError _ _ _ _ _ => true | _ => false end.

(** [error.name], for an instance of [Error]. *)
Definition error_name (e : thrown) : string :=
  match e with
  | OpenRouterError _ _ _ _ _ => "OpenRouterError"
  | TypeError _ => "TypeError"
  | Error name _ => name
  | Value _ => ""
  end.

(** [error.message], for an instance of [Error]. *)
Definition error_message (e : thrown) : string :=
  match e with
  | OpenRouterError message _ _ _ _ => message
  | TypeError message => message
  | Error _ message => message
  | Value _ => ""
  end.

(** [error.retryable], for an [OpenRouterError]. *)
Definition error_retryable (e : thrown) : bool :=
  match e with
  | OpenRouterError _ _ _ _ retryable => retryable
  | _ => false
  end.

(** [error.code], for an [OpenRouterError]. *)
Definition error_code (e : thrown) : option OpenRouterErrorCode :=
  match e with
  | OpenRouterError _ code _ _ _ => Some code
  | _ => None
  end.

(** ** The state-and-exception monad *)

Inductive Outcome (A : Type) : Type :=
| Ok (a : A)
| Throw (e : thrown).
Arguments Ok {A} a.
Arguments Throw {A} e.

(** [String(v)]: the conversion [new Error(v)] and [JSON.parse(v)] apply to
    their argument. An object that carries a property [toString] of its own
    (never a function, in a value read from JSON) cannot be converted: the
    conversion raises a [TypeError]. An array is the join of its elements,
    [null] counting for the empty string. *)
Fixpoint js_String (v : json) : Outcome string :=
  match v with
  | JNull => Ok "null"
  | JBool true => Ok "true"
  | JBool false => Ok "false"
  | JNum n => Ok (string_of_Z n)
  | JStr s => Ok s
  | JArr items =>
      match
        (fix elements (l : list json) : Outcome (list string) :=
           match l with
           | [] => Ok []
           | i :: rest =>
               match (match i with JNull => Ok "" | _ => js_String i end) with
               | Throw e => Throw e
               | Ok s =>
                   match elements rest with
                   | Throw e => Throw e
                   | Ok ss => Ok (s :: ss)
                   end
               end
           end) items
      with
      | Throw e => Throw e
      | Ok parts => Ok (join "," parts)
      end
  | JObj props =>
      match lookup "toString" props with
      | Some _ => Throw (TypeError "Cannot convert object to primitive value")
      | None => Ok "[object Object]"
      end
  end.

Definition M (S A : Type) : Type := S -> Outcome A * S.

Definition ret {S A : Type} (a : A) : M S A := fun s => (Ok a, s).

Definition throw {S A : Type} (e : thrown) : M S A := fun s => (Throw e, s).

Definition bind {S A B : Type} (c : M S A) (k : A -> M S B) : M S B :=
  fun s =>
    match c s with
    | (Ok a, s') => k a s'
    | (Throw e, s') => (Throw e, s')
    end.

(** [try { c } catch (error) { h error }] *)
Definition try_catch {S A : Type} (c : M S A) (h : thrown -> M S A) : M S A :=
  fun s =>
    match c s with
    | (Ok a, s') => (Ok a, s')
    | (Throw e, s') => h e s'
    end.

Definition gets {S A : Type} (f : S -> A) : M S A := fun s => (Ok (f s), s).

Definition modify {S : Type} (f : S -> S) : M S unit := fun s => (Ok tt, f s).

Definition lift {S A : Type} (o : Outcome A) : M S A := fun s => (o, s).

Declare Scope monad_scope.
Delimit Scope monad_scope with monad.
Notation "x <- c ;; k" := (bind c (fun x => k))
  (at level 61, c at next level, right associativity) : monad_scope.
Notation "c ;; k" := (bind c (fun _ => k))
  (at level 61, right associativity) : monad_scope.
Open Scope monad_scope.

(** ** Property reads on JSON data *)

(** [v.k] for a key [k] that no prototype defines: a [TypeError] when [v] is
    [null] or [undefined], the own property of an object, [undefined] on
    anything else. *)
Definition get_prop (v : jsval) (k : string) : Outcome jsval :=
  match v with
  | None =>
      Throw (TypeError ("Cannot read properties of undefined (reading '" ++ k ++ "')")%string)
  | Some JNull =>
      Throw (TypeError ("Cannot read properties of null (reading '" ++ k ++ "')")%string)
  | Some (JObj props) => Ok (lookup k props)
  | Some _ => Ok None
  end.

(** [v?.k] *)
Definition get_prop_opt (v : jsval) (k : string) : jsval :=
  match v with
  | Some (JObj props) => lookup k props
  | _ => None
  end.

(** [v.length === 0] for a truthy [v]. *)
Definition length_is_zero (v : jsval) : bool :=
  match v with
  | Some (JArr items) => match items with [] => true | _ => false end
  | Some (JObj props) =>
      match lookup "length" props with Some (JNum 0) => true | _ => false end
  | _ => false
  end.

(** [v[0]] for a truthy [v]. *)
Definition index0 (v : jsval) : jsval :=
  match v with
  | Some (JArr items) => nth_error items 0
  | Some (JStr s) =>
      match s with EmptyString => None | String c _ => Some (JStr (String c "")) end
  | Some (JObj props) => lookup "0" props
  | _ => None
  end.

(** ** Records crossing the boundaries *)

(** [interface ModelParameters] *)
Record ModelParameters : Type := mkModelParameters {
  temperature : option Q;
  top_p : option Q;
  frequency_penalty : option Q;
  presence_penalty : option Q;
  max_tokens : option Q
}.

Inductive Role : Type := system | user | assistant.

(** [interface ChatMessage] *)
Record ChatMessage : Type := mkChatMessage {
  role : Role;
  content : string
}.

(** [interface ResponseFormat]: the only value is [{ type: 'json_object' }]. *)
Inductive ResponseFormat : Type := json_object.

(** [interface RequestPayload] *)
Record RequestPayload : Type := mkRequestPayload {
  payload_model : string;
  payload_messages : list ChatMessage;
  payload_parameters : ModelParameters;
  payload_response_format : option ResponseFormat
}.

(** [interface RequestMetadata] *)
Record RequestMetadata : Type := mkRequestMetadata {
  model : string;
  requestStartTime : Z;
  requestEndTime : option Z;
  duration : option Z;
  promptTokens : jsval;
  completionTokens : jsval;
  totalTokens : jsval;
  attempt : Z;
  success : bool;
  errorCode : option OpenRouterErrorCode;
  errorMessage : option string
}.

(** The [Response] of [fetch]: status line and what [response.json()]
    settles to. *)
Inductive JsonBody : Type :=
| Resolves (v : json)
| Rejects (e : thrown).

Record Response : Type := mkResponse {
  status : Z;
  statusText : string;
  body : JsonBody
}.

(** [response.ok] *)
Definition ok (r : Response) : bool := (200 <=? status r) && (status r <=? 299).

(** What one call of [fetch] does: it takes [took] milliseconds and is then
    fulfilled with a response or rejected (an 'AbortError' when the abort
    timer fired, a [TypeError] on a transport failure). *)
Inductive FetchResult : Type :=
| Fulfilled (r : Response)
| Rejected (e : thrown).

Record FetchOutcome : Type := mkFetchOutcome {
  took : Z;
  result : FetchResult
}.

(** The three flashcard sources. *)
Inductive Source : Type := ai_full | ai_edited | manual.

Definition source_string (s : Source) : string :=
  match s with
  | ai_full => "ai-full"
  | ai_edited => "ai-edited"
  | manual => "manual"
  end.

(** The row inserted into [generations]. *)
Module GenerationInsert.
Record t : Type := mk {
  user_id : string;
  model : string;
  generated_count : Z;
  source_text_hash : string;
  source_text_length : Z;
  generation_duration : Z
}.
End GenerationInsert.

(** The row inserted into [generation_error_logs]. *)
Module ErrorLogInsert.
Record t : Type := mk {
  user_id : string;
  error_code : string;
  error_message : string;
  model : string;
  source_text_hash : string;
  source_text_length : Z
}.
End ErrorLogInsert.

(** A row inserted into [flashcards]. *)
Module FlashcardInsert.
Record t : Type := mk {
  front : string;
  back : string;
  source : Source;
  generation_id : option Z;
  user_id : string
}.
End FlashcardInsert.

(** [FlashcardDto]: a row the store returns from the flashcard insert. *)
Module FlashcardDto.
Record t : Type := mk {
  id : Z;
  front : string;
  back : string;
  source : Source;
  generation_id : option Z;
  created_at : string;
  updated_at : string
}.
End FlashcardDto.

(** The error object of a record-store reply. *)
Record PostgrestError : Type := mkPostgrestError {
  pg_message : string
}.

(** A record-store call either settles to a reply [{ data, error }] or
    throws. *)
Inductive StoreReply (D : Type) : Type :=
| Reply (data : option D) (error : option PostgrestError)
| Throws (e : thrown).
Arguments Reply {D} data error.
Arguments Throws {D} e.

(** ** The outside world *)

Inductive ParseJson : Type :=
| Parsed (v : json)
| SyntaxError (message : string).

(** The oracles: environment variable, the HTTP endpoint (the outcome of the
    n-th [fetch]), [JSON.parse], SHA-256 in hexadecimal
    ([createHash('sha256').update(text).digest('hex')]) and the three
    record-store operations. *)
Record Env : Type := mkEnv {
  OPENROUTER_API_KEY : option string;
  fetch_outcome : nat -> FetchOutcome;
  JSON_parse : string -> ParseJson;
  sha256_hex : string -> string;
  insert_generation : GenerationInsert.t -> StoreReply Z;
  insert_generation_error_log : ErrorLogInsert.t -> StoreReply unit;
  insert_flashcards : list FlashcardInsert.t -> StoreReply (list FlashcardDto.t)
}.

(** Observable effects, in the order they happen. *)
Inductive Event : Type :=
| EvFetch (url : string) (bearer : string) (payload : RequestPayload)
| EvSleep (delay : Z)
| EvInsertGeneration (row : GenerationInsert.t)
| EvInsertErrorLog (row : ErrorLogInsert.t)
| EvInsertFlashcards (rows : list FlashcardInsert.t).

Inductive ConsoleLevel : Type := console_warn | console_error.

Inductive ConsoleArg : Type :=
| Text (s : string)
| Caught (e : thrown)
| StoreError (e : PostgrestError).

Record ConsoleEntry : Type := mkConsoleEntry {
  level : ConsoleLevel;
  args : list ConsoleArg
}.

(** The world: the clock ([Date.now()], in milliseconds), the number of
    [fetch] calls issued so far, the effects and the console, oldest first. *)
Record World : Type := mkWorld {
  now : Z;
  fetched : nat;
  trace : list Event;
  console : list ConsoleEntry
}.

Definition emit (ev : Event) (w : World) : World :=
  mkWorld (now w) (fetched w) (trace w ++ [ev]) (console w).

Definition advance (ms : Z) (w : World) : World :=
  mkWorld (now w + ms) (fetched w) (trace w) (console w).

Definition count_fetch (w : World) : World :=
  mkWorld (now w) (S (fetched w)) (trace w) (console w).

Definition print (l : ConsoleLevel) (a : list ConsoleArg) (w : World) : World :=
  mkWorld (now w) (fetched w) (trace w) (console w ++ [mkConsoleEntry l a]).

(** The console is an effect on the [World]. *)
Definition console_log (l : ConsoleLevel) (a : list ConsoleArg) : M World unit :=
  modify (print l a).

(** * The remote model client: [src/lib/openrouter.service.ts] *)

(** [interface OpenRouterConfig]; an absent field is [None]. *)
Module OpenRouterConfig.
Record t : Type := mk {
  apiKey : option string;
  baseUrl : option string;
  timeout : option Z;
  maxRetries : option Z;
  retryDelay : option Z
}.
End OpenRouterConfig.

(** The fields of [class OpenRouterService]. *)
Record OpenRouterService : Type := mkOpenRouterService {
  apiKey : string;
  baseUrl : string;
  timeout : Z;
  maxRetries : Z;
  retryDelay : Z;
  currentSystemMessage : string;
  currentUserMessage : string;
  currentResponseFormat : option ResponseFormat;
  currentModelName : string;
  currentModelParameters : ModelParameters;
  lastRequestMetadata : option RequestMetadata
}.

(** A running client: the object and the world it acts on. *)
Record State : Type := mkState {
  openRouter : OpenRouterService;
  world : World
}.

(** Run a world effect from a method of the client. *)
Definition in_world {A : Type} (c : M World A) : M State A :=
  fun st => let '(r, w) := c (world st) in (r, mkState (openRouter st) w).

Definition update_service (f : OpenRouterService -> OpenRouterService) : M State unit :=
  modify (fun st => mkState (f (openRouter st)) (world st)).

(** [Date.now()] *)
Definition Date_now : M State Z := gets (fun st => now (world st)).

(** [a || b] on an optional string: the empty string is falsy. *)
Definition or_string (a : option string) (b : option string) : option string :=
  match a with
  | Some s => if (s =? "")%string then b else Some s
  | None => b
  end.

(** [a || d] on an optional number: zero is falsy. *)
Definition or_number (a : option Z) (d : Z) : Z :=
  match a with
  | Some n => if n =? 0 then d else n
  | None => d
  end.

(** The assignments the setters of the client make to its fields. *)
Definition with_systemMessage (message : string) (s : OpenRouterService) : OpenRouterService :=
  mkOpenRouterService (apiKey s) (baseUrl s) (timeout s) (maxRetries s) (retryDelay s)
    message (currentUserMessage s) (currentResponseFormat s)
    (currentModelName s) (currentModelParameters s) (lastRequestMetadata s).

Definition with_userMessage (message : string) (s : OpenRouterService) : OpenRouterService :=
  mkOpenRouterService (apiKey s) (baseUrl s) (timeout s) (maxRetries s) (retryDelay s)
    (currentSystemMessage s) message (currentResponseFormat s)
    (currentModelName s) (currentModelParameters s) (lastRequestMetadata s).

Definition with_responseFormat (f : option ResponseFormat) (s : OpenRouterService) : OpenRouterService :=
  mkOpenRouterService (apiKey s) (baseUrl s) (timeout s) (maxRetries s) (retryDelay s)
    (currentSystemMessage s) (currentUserMessage s) f
    (currentModelName s) (currentModelParameters s) (lastRequestMetadata s).

(** [{ ...a, ...b }] on one optional field. *)
Definition spread {A : Type} (a b : option A) : option A :=
  match b with Some _ => b | None => a end.

Definition with_model (name : string) (parameters : ModelParameters) (s : OpenRouterService)
    : OpenRouterService :=
  let cur := currentModelParameters s in
  mkOpenRouterService (apiKey s) (baseUrl s) (timeout s) (maxRetries s) (retryDelay s)
    (currentSystemMessage s) (currentUserMessage s) (currentResponseFormat s)
    name
    (mkModelParameters
       (spread (temperature cur) (temperature parameters))
       (spread (top_p cur) (top_p parameters))
       (spread (frequency_penalty cur) (frequency_penalty parameters))
       (spread (presence_penalty cur) (presence_penalty parameters))
       (spread (max_tokens cur) (max_tokens parameters)))
    (lastRequestMetadata s).

Definition with_lastRequestMetadata (m : RequestMetadata) (s : OpenRouterService) : OpenRouterService :=
  mkOpenRouterService (apiKey s) (baseUrl s) (timeout s) (maxRetries s) (retryDelay s)
    (currentSystemMessage s) (currentUserMessage s) (currentResponseFormat s)
    (currentModelName s) (currentModelParameters s) (Some m).

Definition default_parameters : ModelParameters :=
  mkModelParameters (Some (7 # 10)%Q) (Some (1 # 1)%Q) (Some (0 # 1)%Q)
    (Some (0 # 1)%Q) (Some (4096 # 1)%Q).

Section Client.

Variable env : Env.

(** [constructor(config: OpenRouterConfig = {})] *)
Definition new_OpenRouterService (config : OpenRouterConfig.t) : Outcome OpenRouterService :=
  match or_string (OpenRouterConfig.apiKey config) (OPENROUTER_API_KEY env) with
  | None | Some EmptyString =>
      Throw (OpenRouterError
        "OpenRouter API key is required. Provide it via config or OPENROUTER_API_KEY environment variable."
        MISSING_API_KEY None None false)
  | Some key =>
      Ok (mkOpenRouterService
            key
            (match or_string (OpenRouterConfig.baseUrl config) None with
             | Some u => u
             | None => "https://openrouter.ai/api/v1"
             end)
            (or_number (OpenRouterConfig.timeout config) 60000)
            (or_number (OpenRouterConfig.maxRetries config) 3)
            (or_number (OpenRouterConfig.retryDelay config) 1000)
            "" "" None "gpt-4o-mini" default_parameters None)
  end.

Definition setSystemMessage (message : string) : M State unit :=
  update_service (with_systemMessage message).

Definition setUserMessage (message : string) : M State unit :=
  update_service (with_userMessage message).

Definition enableJsonMode : M State unit :=
  update_service (with_responseFormat (Some json_object)).

Definition disableJsonMode : M State unit :=
  update_service (with_responseFormat None).

Definition setModel (name : string) (parameters : ModelParameters) : M State unit :=
  update_service (with_model name parameters).

Definition getLastRequestMetadata : M State (option RequestMetadata) :=
  gets (fun st => lastRequestMetadata (openRouter st)).

Definition setLastRequestMetadata (m : RequestMetadata) : M State unit :=
  update_service (with_lastRequestMetadata m).

(** [buildRequestPayload(userMessage)] *)
Definition buildRequestPayload (s : OpenRouterService) (userMessage : string) : RequestPayload :=
  let messages :=
    (if (currentSystemMessage s =? "")%string then []
     else [mkChatMessage system (currentSystemMessage s)])
    ++ [mkChatMessage user userMessage] in
  mkRequestPayload (currentModelName s) messages (currentModelParameters s)
    (currentResponseFormat s).

(** [fetch(`${this.baseUrl}/chat/completions`, ...)]: the call is
    recorded, the clock advances, and the oracle settles the promise. *)
Definition fetch (payload : RequestPayload) : M State Response :=
  fun st =>
    let s := openRouter st in
    let w := world st in
    let o := fetch_outcome env (fetched w) in
    let w' :=
      advance (took o)
        (count_fetch (emit (EvFetch (baseUrl s ++ "/chat/completions")%string (apiKey s) payload) w)) in
    match result o with
    | Fulfilled r => (Ok r, mkState s w')
    | Rejected e => (Throw e, mkState s w')
    end.

(** [await new Promise((resolve) => setTimeout(resolve, delay))] *)
Definition sleep (delay : Z) : M State unit :=
  in_world (modify (fun w => advance (Z.max 0 delay) (emit (EvSleep delay) w))).

(** Lines 410-421 of [executeRequest]: error code and retryable flag of a
    response that is not ok. *)
Definition classify_status (st : Z) : OpenRouterErrorCode * bool :=
  if (st =? 401) || (st =? 403) then (AUTHENTICATION_ERROR, false)
  else if st =? 429 then (RATE_LIMIT_ERROR, true)
  else if st >=? 500 then (HTTP_ERROR, true)
  else (HTTP_ERROR, false).

(** The [try] block of one iteration of [executeRequest], after the
    [fetch] promise is fulfilled: the statements that follow have no effect
    on the world. *)
Definition handle_response (response : Response) : Outcome json :=
  if negb (ok response) then
    let errorData :=
      match body response with Resolves v => v | Rejects _ => JObj [] end in
    let '(errorCode, retryable) := classify_status (status response) in
    match get_prop (Some errorData) "error" with
    | Throw e => Throw e
    | Ok err =>
        let m := get_prop_opt err "message" in
        let message :=
          match m with
          | Some v =>
              if truthy m then js_String v
              else Ok ("HTTP " ++ string_of_Z (status response) ++ ": "
                       ++ statusText response)%string
          | None =>
              Ok ("HTTP " ++ string_of_Z (status response) ++ ": "
                  ++ statusText response)%string
          end in
        match message with
        | Throw e => Throw e
        | Ok text =>
            Throw (OpenRouterError text errorCode (Some (status response))
                     (Some (Value errorData)) retryable)
        end
    end
  else
    match body response with
    | Resolves data => Ok data
    | Rejects e => Throw e
    end.

(** The [try] block of one iteration of [executeRequest]. *)
Definition try_attempt (payload : RequestPayload) : M State json :=
  response <- fetch payload ;;
  lift (handle_response response).

(** How an iteration of the attempt loop ends when it does not throw. *)
Inductive LoopStep : Type :=
| Return (data : json)
| Continue (lastError : thrown).

(** [this.retryDelay * Math.pow(2, attempt)] *)
Definition backoff (s : OpenRouterService) (attempt : Z) : Z :=
  retryDelay s * 2 ^ attempt.

(** The [catch (error)] block of one iteration of [executeRequest]. *)
Definition catch_attempt (s : OpenRouterService) (attempt : Z) (error : thrown) : M State LoopStep :=
  if instanceof_Error error && (error_name error =? "AbortError")%string then
    let timeoutError :=
      OpenRouterError ("Request timed out after " ++ string_of_Z (timeout s) ++ "ms")%string
        TIMEOUT_ERROR None (Some error) true in
    if attempt <? maxRetries s then
      sleep (backoff s attempt) ;; ret (Continue timeoutError)
    else throw timeoutError
  else if instanceof_TypeError error then
    let networkError :=
      OpenRouterError ("Network error: " ++ error_message error)%string
        NETWORK_ERROR None (Some error) true in
    if attempt <? maxRetries s then
      sleep (backoff s attempt) ;; ret (Continue networkError)
    else throw networkError
  else if instanceof_OpenRouterError error && negb (error_retryable error) then
    throw error
  else if (attempt <? maxRetries s) && instanceof_OpenRouterError error && error_retryable error then
    sleep (backoff s attempt) ;; ret (Continue error)
  else if instanceof_OpenRouterError error then
    throw error
  else
    throw (OpenRouterError
             ("Request failed after " ++ string_of_Z (maxRetries s + 1) ++ " attempts: "
              ++ (if instanceof_Error error then error_message error else "Unknown error"))%string
             REQUEST_FAILED None (Some error) false).

(** The body of the [for] loop. *)
Definition attempt_body (s : OpenRouterService) (payload : RequestPayload) (attempt : Z) : M State LoopStep :=
  try_catch (data <- try_attempt payload ;; ret (Return data))
            (catch_attempt s attempt).

(** The values [attempt] takes in
    [for (let attempt = 0; attempt <= this.maxRetries; attempt++)]. *)
Definition attempts (s : OpenRouterService) : list Z :=
  map Z.of_nat (seq 0 (Z.to_nat (maxRetries s + 1))).

(** The loop over the remaining values of [attempt], then the statement
    after the loop. *)
Fixpoint for_attempts (s : OpenRouterService) (payload : RequestPayload)
    (lastError : option thrown) (todo : list Z) : M State json :=
  match todo with
  | [] =>
      throw (OpenRouterError "Request failed: Unknown error" UNKNOWN_ERROR None lastError false)
  | attempt :: rest =>
      step <- attempt_body s payload attempt ;;
      match step with
      | Return data => ret data
      | Continue e => for_attempts s payload (Some e) rest
      end
  end.

(** [executeRequest(payload)] *)
Definition executeRequest (payload : RequestPayload) : M State json :=
  s <- gets openRouter ;;
  for_attempts s payload None (attempts s).

(** [parseResponse<T>(response)] *)
Definition parseResponse (s : OpenRouterService) (response : json) : Outcome json :=
  match get_prop (Some response) "choices" with
  | Throw e => Throw e
  | Ok choices =>
      if negb (truthy choices) || length_is_zero choices then
        Throw (OpenRouterError "Invalid API response: no choices returned"
                 INVALID_RESPONSE None None false)
      else
        match get_prop (index0 choices) "message" with
        | Throw e => Throw e
        | Ok message =>
            match get_prop message "content" with
            | Throw e => Throw e
            | Ok None => 
                Throw (OpenRouterError "Invalid API response: empty content"
                         EMPTY_RESPONSE None None false)
            | Ok (Some c) =>
                if negb (truthy (Some c)) then
                  Throw (OpenRouterError "Invalid API response: empty content"
                           EMPTY_RESPONSE None None false)
                else
                  match currentResponseFormat s with
                  | Some _ =>
                      match js_String c with
                      | Throw e =>
                          Throw (OpenRouterError
                                   ("Failed to parse JSON response: "
                                    ++ (if instanceof_Error e then error_message e
                                        else "Unknown error"))%string
                                   JSON_PARSE_ERROR None (Some e) false)
                      | Ok text =>
                          match JSON_parse env text with
                          | Parsed v => Ok v
                          | SyntaxError m =>
                              Throw (OpenRouterError
                                       ("Failed to parse JSON response: " ++ m)%string
                                       JSON_PARSE_ERROR None (Some (Error "SyntaxError" m))
                                       false)
                          end
                      end
                  | None => Ok c
                  end
            end
        end
  end.

(** [sendChatMessage<T>(userMessage?)] *)
Definition sendChatMessage (userMessage : option string) : M State json :=
  startTime <- Date_now ;;
  try_catch
    (s <- gets openRouter ;;
     match or_string userMessage (Some (currentUserMessage s)) with
     | None | Some EmptyString =>
         throw (OpenRouterError
                  "User message is required. Provide it via parameter or setUserMessage()."
                  MISSING_USER_MESSAGE None None false)
     | Some messageToSend =>
         let payload := buildRequestPayload s messageToSend in
         response <- executeRequest payload ;;
         result <- lift (parseResponse s response) ;;
         endTime <- Date_now ;;
         let usage := get_prop_opt (Some response) "usage" in
         setLastRequestMetadata
           (mkRequestMetadata (currentModelName s) startTime (Some endTime)
              (Some (endTime - startTime))
              (get_prop_opt usage "prompt_tokens")
              (get_prop_opt usage "completion_tokens")
              (get_prop_opt usage "total_tokens")
              1 true None None) ;;
         ret result
     end)
    (fun error =>
       s <- gets openRouter ;;
       let errorCode :=
         match error_code error with Some c => c | None => UNKNOWN_ERROR end in
       let errorMessage :=
         if instanceof_Error error then error_message error else "Unknown error" in
       endTime <- Date_now ;;
       setLastRequestMetadata
         (mkRequestMetadata (currentModelName s) startTime (Some endTime)
            (Some (endTime - startTime)) None None None
            1 false (Some errorCode) (Some errorMessage)) ;;
       throw error).

End Client.

(** * The generation orchestrator: [src/lib/generation.service.ts] *)

(** [FlashcardProposalDto] *)
Record FlashcardProposalDto : Type := mkFlashcardProposalDto {
  proposal_front : string;
  proposal_back : string;
  proposal_source : Source
}.

(** [GenerationCreateResponseDto] *)
Record GenerationCreateResponseDto : Type := mkGenerationCreateResponseDto {
  generation_id : Z;
  flashcards_proposals : list FlashcardProposalDto;
  generated_count : Z
}.

Definition MODEL_NAME : string := "openai/gpt-4o-mini".

Definition nl : string := String (ascii_of_nat 10) "".
Definition dq : string := String (ascii_of_nat 34) "".

(** The system prompt of [configureOpenRouter]. *)
Definition systemMessage : string :=
  join nl [
    "You are an expert educational AI assistant specialized in creating high-quality flashcards for learning.";
    "";
    "Your task is to generate exactly 5 flashcards from the provided text. Each flashcard should:";
    "1. Have a clear, focused question on the front (max 200 characters)";
    "2. Have a comprehensive, accurate answer on the back (max 500 characters)";
    "3. Cover different aspects or key concepts from the source text";
    "4. Be educationally valuable and promote active recall";
    "5. Use clear, concise language";
    "";
    "Guidelines:";
    "- Focus on important concepts, facts, definitions, or relationships";
    "- Avoid trivial or overly complex questions";
    "- Make questions specific and answerable";
    "- Ensure answers are complete and self-contained";
    "- Vary the question types (what, why, how, when, define, etc.)";
    "";
    "IMPORTANT: You must respond with valid JSON in the following format:";
    "{";
    ("  " ++ dq ++ "flashcards" ++ dq ++ ": [")%string;
    "    {";
    ("      " ++ dq ++ "front" ++ dq ++ ": " ++ dq ++ "Question text here (max 200 chars)" ++ dq ++ ",")%string;
    ("      " ++ dq ++ "back" ++ dq ++ ": " ++ dq ++ "Answer text here (max 500 chars)" ++ dq)%string;
    "    }";
    "  ]";
    "}";
    "";
    "Generate exactly 5 flashcards in this JSON format."
  ].

(** The [userMessage] of [callAIService]. *)
Definition userMessage_for (sourceText : string) : string :=
  ("Generate 5 educational flashcards from the following text:" ++ nl ++ nl
   ++ sourceText)%string.

(** [v.substring(0, n)] where [v] was read from JSON data and [what] is the
    expression it was read by. *)
Definition substring_to (n : nat) (what : string) (v : jsval) : Outcome string :=
  match v with
  | Some (JStr s) => Ok (String.substring 0 n s)
  | None =>
      Throw (TypeError "Cannot read properties of undefined (reading 'substring')")
  | Some JNull =>
      Throw (TypeError "Cannot read properties of null (reading 'substring')")
  | Some _ => Throw (TypeError (what ++ ".substring is not a function")%string)
  end.

(** The arrow function mapped over [response.flashcards]. *)
Definition to_proposal (card : json) : Outcome FlashcardProposalDto :=
  match get_prop (Some card) "front" with
  | Throw e => Throw e
  | Ok front =>
      match substring_to 200 "card.front" front with
      | Throw e => Throw e
      | Ok f =>
          match get_prop (Some card) "back" with
          | Throw e => Throw e
          | Ok back =>
              match substring_to 500 "card.back" back with
              | Throw e => Throw e
              | Ok b => Ok (mkFlashcardProposalDto f b ai_full)
              end
          end
      end
  end.

(** [cards.map(to_proposal)]: the first card that throws ends the map. *)
Fixpoint map_proposals (cards : list json) : Outcome (list FlashcardProposalDto) :=
  match cards with
  | [] => Ok []
  | card :: rest =>
      match to_proposal card with
      | Throw e => Throw e
      | Ok p =>
          match map_proposals rest with
          | Throw e => Throw e
          | Ok ps => Ok (p :: ps)
          end
      end
  end.

(** A record-store call from a service: the call is recorded, then it
    settles to [{ data, error }] or throws. *)
Definition store_call {D : Type} (ev : Event) (reply : StoreReply D)
    : M World (option D * option PostgrestError) :=
  fun w =>
    match reply with
    | Reply data error => (Ok (data, error), emit ev w)
    | Throws e => (Throw e, emit ev w)
    end.

Section Generation.

Variable env : Env.

(** [constructor(supabase)] with [configureOpenRouter()]: the service owns
    a client built with a 90 s timeout and 3 retries, set up for the
    flashcard prompt in JSON mode. *)
Definition new_GenerationService : Outcome OpenRouterService :=
  match new_OpenRouterService env
          (OpenRouterConfig.mk None None (Some 90000) (Some 3) None) with
  | Throw e => Throw e
  | Ok client =>
      Ok (with_responseFormat (Some json_object)
            (with_systemMessage systemMessage
               (with_model MODEL_NAME
                  (mkModelParameters (Some (7 # 10)%Q) None None None (Some (2000 # 1)%Q))
                  client)))
  end.

(** [calculateHash(text)] *)
Definition calculateHash (text : string) : string := sha256_hex env text.

(** The user-facing message [callAIService] substitutes for a failure of
    the client. *)
Definition friendly_message (code : OpenRouterErrorCode) (message : string) : string :=
  match code with
  | AUTHENTICATION_ERROR => "AI service authentication failed. Please check your API key."
  | RATE_LIMIT_ERROR => "AI service rate limit exceeded. Please try again later."
  | TIMEOUT_ERROR => "AI service request timed out. Please try again."
  | NETWORK_ERROR =>
      "Network error while connecting to AI service. Please check your connection."
  | _ => ("AI service error: " ++ message)%string
  end.

(** [callAIService(sourceText)] *)
Definition callAIService (sourceText : string) : M State (list FlashcardProposalDto) :=
  try_catch
    (response <- sendChatMessage env (Some (userMessage_for sourceText)) ;;
     flashcards <- lift (get_prop (Some response) "flashcards") ;;
     match flashcards with
     | Some (JArr cards) =>
         (if Z.of_nat (List.length cards) =? 5 then ret tt
          else in_world (console_log console_warn
                 [Text ("Expected 5 flashcards, got "
                        ++ string_of_Z (Z.of_nat (List.length cards))
                        ++ ". Using available flashcards.")%string])) ;;
         lift (map_proposals cards)
     | _ => throw (Error "Error" "Invalid response format from AI service")
     end)
    (fun error =>
       match error with
       | OpenRouterError message code _ _ _ =>
           in_world (console_log console_error
             [Text ("[GenerationService] OpenRouter error [" ++ code_string code ++ "]:")%string;
              Text message]) ;;
           throw (Error "Error" (friendly_message code message))
       | _ => throw error
       end).

(** [logGenerationError(error, sourceText, model, userId, duration)] *)
Definition logGenerationError (error : thrown) (sourceText model userId : string)
    (duration : Z) : M State unit :=
  let errorMessage :=
    if instanceof_Error error then error_message error else "Unknown error" in
  let errorCode :=
    if instanceof_Error error then error_name error else "UNKNOWN_ERROR" in
  let sourceTextHash := calculateHash sourceText in
  let sourceTextLength := str_length sourceText in
  let row :=
    ErrorLogInsert.mk userId errorCode errorMessage model sourceTextHash sourceTextLength in
  try_catch
    (in_world (store_call (EvInsertErrorLog row) (insert_generation_error_log env row)) ;;
     ret tt)
    (fun logError =>
       in_world (console_log console_error
                   [Text "Failed to log generation error:"; Caught logError]) ;;
       in_world (console_log console_error [Text "Original error:"; Caught error])).

(** The [try] block of [generateFlashcards]. *)
Definition try_generate (sourceText userId : string) (startTime : Z)
    : M State GenerationCreateResponseDto :=
  flashcardsProposals <- callAIService sourceText ;;
  let generatedCount := Z.of_nat (List.length flashcardsProposals) in
  metadata <- getLastRequestMetadata ;;
  t <- Date_now ;;
  let generationDuration :=
    or_number (match metadata with Some m => duration m | None => None end)
              (t - startTime) in
  let sourceTextHash := calculateHash sourceText in
  let sourceTextLength := str_length sourceText in
  let row :=
    GenerationInsert.mk userId MODEL_NAME generatedCount sourceTextHash
      sourceTextLength generationDuration in
  reply <- in_world (store_call (EvInsertGeneration row) (insert_generation env row)) ;;
  match reply with
  | (_, Some generationError) =>
      in_world (console_log console_error
                  [Text "Failed to save generation metadata:"; StoreError generationError]) ;;
      throw (Error "Error" "Failed to save generation metadata")
  | (None, None) =>
      throw (TypeError "Cannot read properties of null (reading 'id')")
  | (Some id, None) =>
      ret (mkGenerationCreateResponseDto id flashcardsProposals generatedCount)
  end.

(** [generateFlashcards(sourceText, userId)] *)
Definition generateFlashcards (sourceText userId : string)
    : M State GenerationCreateResponseDto :=
  startTime <- Date_now ;;
  try_catch
    (try_generate sourceText userId startTime)
    (fun error =>
       t <- Date_now ;;
       logGenerationError error sourceText MODEL_NAME userId (t - startTime) ;;
       throw error).

End Generation.

(** * The request schemas: [src/lib/validation.ts]

    The schemas are built from the combinators of the validation library
    (zod 3), modelled here by what they do to a value: a parse is [Valid],
    [Dirty] (a value with issues: later checks still run) or [Invalid]
    (aborted: a type mismatch). *)

Inductive PathSegment : Type :=
| Key (k : string)
| Index (i : nat).

Record ZodIssue : Type := mkZodIssue {
  path : list PathSegment;
  issue_message : string
}.

Inductive ParseReturn (A : Type) : Type :=
| Valid (value : A)
| Dirty (value : A) (issues : list ZodIssue)
| Invalid (issues : list ZodIssue).
Arguments Valid {A} value.
Arguments Dirty {A} value issues.
Arguments Invalid {A} issues.

Definition Schema (A : Type) : Type := list PathSegment -> jsval -> ParseReturn A.

Definition issues_of {A : Type} (r : ParseReturn A) : list ZodIssue :=
  match r with
  | Valid _ => []
  | Dirty _ issues => issues
  | Invalid issues => issues
  end.

(** A value with the issues found so far: [Valid] when there are none. *)
Definition checked {A : Type} (value : A) (issues : list ZodIssue) : ParseReturn A :=
  match issues with
  | [] => Valid value
  | _ => Dirty value issues
  end.

(** Merging the parse of a further field (or element) into an object (or
    array) under construction: issues accumulate in order, and one aborted
    part aborts the whole. *)
Definition merge {A B C : Type} (f : A -> B -> C) (ra : ParseReturn A) (rb : ParseReturn B)
    : ParseReturn C :=
  match ra, rb with
  | Valid a, Valid b => Valid (f a b)
  | Invalid ia, _ => Invalid (ia ++ issues_of rb)
  | _, Invalid ib => Invalid (issues_of ra ++ ib)
  | Valid a, Dirty b ib => Dirty (f a b) ib
  | Dirty a ia, Valid b => Dirty (f a b) ia
  | Dirty a ia, Dirty b ib => Dirty (f a b) (ia ++ ib)
  end.

(** The issue of a value of the wrong type. *)
Definition invalid_type (p : list PathSegment) (expected : string) (v : jsval) : ZodIssue :=
  mkZodIssue p
    (match v with
     | None => "Required"
     | Some _ => ("Expected " ++ expected ++ ", received " ++ parsedType v)%string
     end).

(** [z.string().min(lo, tooShort).max(hi, tooLong)] *)
Definition z_string_min_max (lo : Z) (tooShort : string) (hi : Z) (tooLong : string)
    : Schema string :=
  fun p v =>
    match v with
    | Some (JStr s) =>
        checked s
          ((if str_length s <? lo then [mkZodIssue p tooShort] else [])
           ++ (if str_length s >? hi then [mkZodIssue p tooLong] else []))
    | _ => Invalid [invalid_type p "string" v]
    end.

Definition source_options : string := "'ai-full' | 'ai-edited' | 'manual'".

(** [z.enum(['ai-full', 'ai-edited', 'manual'])] *)
Definition z_enum_source : Schema Source :=
  fun p v =>
    match v with
    | Some (JStr s) =>
        if (s =? "ai-full")%string then Valid ai_full
        else if (s =? "ai-edited")%string then Valid ai_edited
        else if (s =? "manual")%string then Valid manual
        else Invalid [mkZodIssue p
               ("Invalid enum value. Expected " ++ source_options ++ ", received '" ++ s ++ "'")%string]
    | _ => Invalid [invalid_type p source_options v]
    end.

(** [z.number().nullable()] *)
Definition z_number_nullable : Schema (option Z) :=
  fun p v =>
    match v with
    | Some JNull => Valid None
    | Some (JNum n) => Valid (Some n)
    | _ => Invalid [invalid_type p "number" v]
    end.

(** [schema.refine(check, { message, path })]: the check runs on every
    value that was not aborted. *)
Definition refine {A : Type} (schema : Schema A) (check : A -> bool) (message : string)
    (sub : list PathSegment) : Schema A :=
  fun p v =>
    match schema p v with
    | Invalid issues => Invalid issues
    | Valid a => if check a then Valid a else Dirty a [mkZodIssue (p ++ sub) message]
    | Dirty a issues =>
        if check a then Dirty a issues
        else Dirty a (issues ++ [mkZodIssue (p ++ sub) message])
    end.

(** The elements of [z.array(item)], parsed in order from index [i]. *)
Fixpoint z_items {A : Type} (item : Schema A) (p : list PathSegment) (i : nat)
    (elements : list json) : ParseReturn (list A) :=
  match elements with
  | [] => Valid []
  | e :: rest => merge cons (item (p ++ [Index i]) (Some e)) (z_items item p (S i) rest)
  end.

(** [z.array(item).min(1, tooFew)] *)
Definition z_array_min1 {A : Type} (item : Schema A) (tooFew : string) : Schema (list A) :=
  fun p v =>
    match v with
    | Some (JArr elements) =>
        merge (fun _ l => l)
          (checked tt (match elements with [] => [mkZodIssue p tooFew] | _ => [] end))
          (z_items item p 0 elements)
    | _ => Invalid [invalid_type p "array" v]
    end.

(** [schema.safeParse(input)] *)
Inductive SafeParseReturn (A : Type) : Type :=
| ParseSuccess (data : A)
| ParseFailure (errors : list ZodIssue).
Arguments ParseSuccess {A} data.
Arguments ParseFailure {A} errors.

Definition safeParse {A : Type} (schema : Schema A) (input : json) : SafeParseReturn A :=
  match schema [] (Some input) with
  | Valid a => ParseSuccess a
  | Dirty _ issues => ParseFailure issues
  | Invalid issues => ParseFailure issues
  end.

(** [GenerateFlashcardsCommand] *)
Record GenerateFlashcardsCommand : Type := mkGenerateFlashcardsCommand {
  source_text : string
}.

(** [generateFlashcardsCommandSchema] *)
Definition generateFlashcardsCommandSchema : Schema GenerateFlashcardsCommand :=
  fun p v =>
    match v with
    | Some (JObj props) =>
        merge (fun (_ : unit) s => mkGenerateFlashcardsCommand s) (Valid tt)
          (z_string_min_max
             1000 "Source text must be at least 1000 characters long"
             10000 "Source text cannot exceed 10000 characters"
             (p ++ [Key "source_text"]) (lookup "source_text" props))
    | _ => Invalid [invalid_type p "object" v]
    end.

(** [FlashcardCreateDto]. The declared type has the first four fields;
    [user_id] stands for a property of that name the object may carry at run
    time besides them. *)
Module FlashcardCreateDto.
Record t : Type := mk {
  front : string;
  back : string;
  source : Source;
  generation_id : option Z;
  user_id : option string
}.
End FlashcardCreateDto.

(** The predicate given to [refine] in [flashcardCreateDtoSchema]. *)
Definition generation_id_consistent (data : FlashcardCreateDto.t) : bool :=
  match FlashcardCreateDto.source data with
  | manual =>
      match FlashcardCreateDto.generation_id data with None => true | Some _ => false end
  | ai_full | ai_edited =>
      match FlashcardCreateDto.generation_id data with None => false | Some _ => true end
  end.

(** The [z.object({ front, back, source, generation_id })] under the
    refinement; unknown keys are stripped. *)
Definition flashcardCreateDtoObject : Schema FlashcardCreateDto.t :=
  fun p v =>
    match v with
    | Some (JObj props) =>
        merge (fun (k : option Z -> FlashcardCreateDto.t) g => k g)
          (merge (fun (k : Source -> option Z -> FlashcardCreateDto.t) s => k s)
             (merge (fun (k : string -> Source -> option Z -> FlashcardCreateDto.t) b => k b)
                (merge (fun (_ : unit) f => fun b s g => FlashcardCreateDto.mk f b s g None)
                   (Valid tt)
                   (z_string_min_max 1 "Front text is required"
                      200 "Front text cannot exceed 200 characters"
                      (p ++ [Key "front"]) (lookup "front" props)))
                (z_string_min_max 1 "Back text is required"
                   500 "Back text cannot exceed 500 characters"
                   (p ++ [Key "back"]) (lookup "back" props)))
             (z_enum_source (p ++ [Key "source"]) (lookup "source" props)))
          (z_number_nullable (p ++ [Key "generation_id"]) (lookup "generation_id" props))
    | _ => Invalid [invalid_type p "object" v]
    end.

(** [flashcardCreateDtoSchema] *)
Definition flashcardCreateDtoSchema : Schema FlashcardCreateDto.t :=
  refine flashcardCreateDtoObject generation_id_consistent
    "generation_id must be null for manual source and required for ai-full/ai-edited sources"
    [Key "generation_id"].

(** [FlashcardsCreateCommand] *)
Record FlashcardsCreateCommand : Type := mkFlashcardsCreateCommand {
  flashcards : list FlashcardCreateDto.t
}.

(** [flashcardsCreateCommandSchema] *)
Definition flashcardsCreateCommandSchema : Schema FlashcardsCreateCommand :=
  fun p v =>
    match v with
    | Some (JObj props) =>
        merge (fun (_ : unit) l => mkFlashcardsCreateCommand l) (Valid tt)
          (z_array_min1 flashcardCreateDtoSchema "At least one flashcard is required"
             (p ++ [Key "flashcards"]) (lookup "flashcards" props))
    | _ => Invalid [invalid_type p "object" v]
    end.

(** * The flashcard batch writer: [src/lib/flashcard.service.ts] *)

(** The object literal built for each flashcard of the batch. *)
Definition to_insert (userId : string) (flashcard : FlashcardCreateDto.t) : FlashcardInsert.t :=
  FlashcardInsert.mk
    (FlashcardCreateDto.front flashcard)
    (FlashcardCreateDto.back flashcard)
    (FlashcardCreateDto.source flashcard)
    (FlashcardCreateDto.generation_id flashcard)
    userId.

Section Flashcards.

Variable env : Env.

(** [createFlashcards(flashcards, userId)] *)
Definition createFlashcards (flashcards : list FlashcardCreateDto.t) (userId : string)
    : M World (list FlashcardDto.t) :=
  match flashcards with
  | [] => throw (Error "Error" "At least one flashcard is required")
  | _ =>
      let flashcardsToInsert := map (to_insert userId) flashcards in
      reply <- store_call (EvInsertFlashcards flashcardsToInsert)
                 (insert_flashcards env flashcardsToInsert) ;;
      match reply with
      | (_, Some error) =>
          console_log console_error
            [Text "Database error while creating flashcards:"; StoreError error] ;;
          throw (Error "Error" ("Failed to create flashcards: " ++ pg_message error)%string)
      | (None, None) | (Some [], None) =>
          throw (Error "Error" "No flashcards were created")
      | (Some data, None) => ret data
      end
  end.

End Flashcards.

(** * The HTTP handlers: [src/pages/api/flashcards.ts], [src/pages/api/generations.ts] *)

(** [App.Locals.user] *)
Record User : Type := mkUser {
  id : string;
  email : option string
}.

(** [new Response(JSON.stringify(body), { status })] *)
Record HttpResponse : Type := mkHttpResponse {
  response_status : Z;
  response_body : json
}.

Definition error_response (st : Z) (error message : string) : HttpResponse :=
  mkHttpResponse st (JObj [("error", JStr error); ("message", JStr message)]).

Definition segment_string (seg : PathSegment) : string :=
  match seg with
  | Key k => k
  | Index i => string_of_Z (Z.of_nat i)
  end.

(** [{ field: err.path.join('.'), message: err.message }] *)
Definition error_detail (err : ZodIssue) : json :=
  JObj [("field", JStr (join "." (map segment_string (path err))));
        ("message", JStr (issue_message err))].

Definition validation_error_response (errors : list ZodIssue) : HttpResponse :=
  mkHttpResponse 400
    (JObj [("error", JStr "Validation Error");
           ("message", JStr "Invalid request data");
           ("details", JArr (map error_detail errors))]).

Definition json_of_option_number (n : option Z) : json :=
  match n with Some z => JNum z | None => JNull end.

Definition json_of_FlashcardDto (f : FlashcardDto.t) : json :=
  JObj [("id", JNum (FlashcardDto.id f));
        ("front", JStr (FlashcardDto.front f));
        ("back", JStr (FlashcardDto.back f));
        ("source", JStr (source_string (FlashcardDto.source f)));
        ("generation_id", json_of_option_number (FlashcardDto.generation_id f));
        ("created_at", JStr (FlashcardDto.created_at f));
        ("updated_at", JStr (FlashcardDto.updated_at f))].

Definition json_of_proposal (p : FlashcardProposalDto) : json :=
  JObj [("front", JStr (proposal_front p));
        ("back", JStr (proposal_back p));
        ("source", JStr (source_string (proposal_source p)))].

Definition json_of_generation (r : GenerationCreateResponseDto) : json :=
  JObj [("generation_id", JNum (generation_id r));
        ("flashcards_proposals", JArr (map json_of_proposal (flashcards_proposals r)));
        ("generated_count", JNum (generated_count r))].

(** What the handlers print in their outer [catch]. *)
Definition handler_error_entry (label : string) (u : option User) (error : thrown)
    : list ConsoleArg :=
  [Text label;
   Text (match u with Some x => id x | None => "" end);
   (if instanceof_Error error then Text (error_message error) else Caught error)].

Section Handlers.

Variable env : Env.

(** [POST /api/flashcards]; [requestJson] is what [request.json()]
    settles to. *)
Definition POST_flashcards (locals_user : option User) (requestJson : JsonBody)
    : World -> HttpResponse * World :=
  fun w =>
    match locals_user with
    | None =>
        (error_response 401 "Unauthorized" "Authentication required. Please log in.", w)
    | Some u =>
        match requestJson with
        | Rejects _ => (error_response 400 "Bad Request" "Invalid JSON in request body", w)
        | Resolves requestBody =>
            match safeParse flashcardsCreateCommandSchema requestBody with
            | ParseFailure errors => (validation_error_response errors, w)
            | ParseSuccess data =>
                match createFlashcards env (flashcards data) (id u) w with
                | (Ok createdFlashcards, w') =>
                    (mkHttpResponse 201
                       (JObj [("flashcards", JArr (map json_of_FlashcardDto createdFlashcards))]),
                     w')
                | (Throw error, w') =>
                    (error_response 500 "Internal Server Error"
                       "An error occurred while creating flashcards. Please try again later.",
                     print console_error
                       (handler_error_entry "[POST /api/flashcards] Error:" locals_user error) w')
                end
            end
        end
    end.

(** [POST /api/generations]; [requestJson] is what [request.json()]
    settles to. *)
Definition POST_generations (locals_user : option User) (requestJson : JsonBody)
    : World -> HttpResponse * World :=
  fun w =>
    let failed (error : thrown) (w' : World) :=
      (error_response 500 "Internal Server Error"
         "An error occurred while generating flashcards. Please try again later.",
       print console_error
         (handler_error_entry "[POST /api/generations] Error:" locals_user error) w') in
    match locals_user with
    | None =>
        (error_response 401 "Unauthorized" "Authentication required. Please log in.", w)
    | Some u =>
        match requestJson with
        | Rejects _ => (error_response 400 "Bad Request" "Invalid JSON in request body", w)
        | Resolves requestBody =>
            match safeParse generateFlashcardsCommandSchema requestBody with
            | ParseFailure errors => (validation_error_response errors, w)
            | ParseSuccess data =>
                match new_GenerationService env with
                | Throw error => failed error w
                | Ok client =>
                    match generateFlashcards env (source_text data) (id u) (mkState client w) with
                    | (Ok result, st) => (mkHttpResponse 201 (json_of_generation result), world st)
                    | (Throw error, st) => failed error (world st)
                    end
                end
            end
        end
    end.

End Handlers.

(** * Vocabulary of the statements *)

(** [error instanceof Error && error.name === 'AbortError'] *)
Definition is_AbortError (e : thrown) : bool :=
  instanceof_Error e && (error_name e =? "AbortError")%string.

(** The failures of an attempt the client retries: a timeout, a transport
    failure, or an [OpenRouterError] flagged retryable. *)
Definition retryable_failure (e : thrown) : bool :=
  is_AbortError e || instanceof_TypeError e
  || (instanceof_OpenRouterError e && error_retryable e).

(** The classified error the [catch] block of an attempt holds for what the
    [try] block threw. *)
Definition classified (s : OpenRouterService) (e : thrown) : thrown :=
  if is_AbortError e then
    OpenRouterError ("Request timed out after " ++ string_of_Z (timeout s) ++ "ms")%string
      TIMEOUT_ERROR None (Some e) true
  else if instanceof_TypeError e then
    OpenRouterError ("Network error: " ++ error_message e)%string
      NETWORK_ERROR None (Some e) true
  else if instanceof_OpenRouterError e then e
  else
    OpenRouterError
      ("Request failed after " ++ string_of_Z (maxRetries s + 1) ++ " attempts: "
       ++ (if instanceof_Error e then error_message e else "Unknown error"))%string
      REQUEST_FAILED None (Some e) false.

(** What the [try] block of an attempt yields for an outcome of its
    [fetch]. *)
Definition attempt_outcome (o : FetchOutcome) : Outcome json :=
  match result o with
  | Fulfilled r => handle_response r
  | Rejected e => Throw e
  end.

(** The events the client causes: HTTP calls and sleeps. *)
Definition client_event (ev : Event) : Prop :=
  match ev with
  | EvFetch _ _ _ | EvSleep _ => True
  | _ => False
  end.

(** The same world with another reply of the error-log table. *)
Definition with_error_log (env : Env) (log : ErrorLogInsert.t -> StoreReply unit) : Env :=
  mkEnv (OPENROUTER_API_KEY env) (fetch_outcome env) (JSON_parse env) (sha256_hex env)
    (insert_generation env) log (insert_flashcards env).

(** The front and back of a card of a decoded payload, when both are
    strings (the shape [AIResponse] declares). *)
Definition card_strings (c : json) : option (string * string) :=
  match c with
  | JObj props =>
      match lookup "front" props, lookup "back" props with
      | Some (JStr f), Some (JStr b) => Some (f, b)
      | _, _ => None
      end
  | _ => None
  end.

(** The codes [callAIService] maps to a message of their own. *)
Definition remapped_codes : list OpenRouterErrorCode :=
  [AUTHENTICATION_ERROR; RATE_LIMIT_ERROR; TIMEOUT_ERROR; NETWORK_ERROR].

(** The invariant of flashcards: a manual card has no generation, an AI
    card has one. *)
Definition source_matches_generation (src : Source) (gid : option Z) : Prop :=
  (src = manual -> gid = None) /\
  (src = ai_full \/ src = ai_edited -> gid <> None).

(** A flashcard of a request as the JSON object the handler receives. *)
Definition json_of_flashcard (f : FlashcardCreateDto.t) : json :=
  JObj ([("front", JStr (FlashcardCreateDto.front f));
         ("back", JStr (FlashcardCreateDto.back f));
         ("source", JStr (source_string (FlashcardCreateDto.source f)));
         ("generation_id", json_of_option_number (FlashcardCreateDto.generation_id f))]
        ++ match FlashcardCreateDto.user_id f with
           | Some u => [("user_id", JStr u)]
           | None => []
           end).

(** The body of a flashcard-create request for a batch. *)
Definition json_of_command (batch : list FlashcardCreateDto.t) : json :=
  JObj [("flashcards", JArr (map json_of_flashcard batch))].

(** A flashcard without the [user_id] it may carry. *)
Definition erase_user_id (f : FlashcardCreateDto.t) : FlashcardCreateDto.t :=
  FlashcardCreateDto.mk (FlashcardCreateDto.front f) (FlashcardCreateDto.back f)
    (FlashcardCreateDto.source f) (FlashcardCreateDto.generation_id f) None.

(** The issue the refinement of [flashcardCreateDtoSchema] reports for the
    flashcard at [index] of the batch. *)
Definition refinement_message : string :=
  "generation_id must be null for manual source and required for ai-full/ai-edited sources".

Definition generation_id_issue (index : nat) : ZodIssue :=
  mkZodIssue [Key "flashcards"; Index index; Key "generation_id"] refinement_message.

(** The invariant on a row of the flashcards table. *)
Definition row_invariant (r : FlashcardInsert.t) : Prop :=
  source_matches_generation (FlashcardInsert.source r) (FlashcardInsert.generation_id r).

(** The events that [trace] gained from world [w] to world [w']. *)
Definition gained (w w' : World) (evs : list Event) : Prop :=
  trace w' = trace w ++ evs.

(** The event of one HTTP call of client [s]. *)
Definition fetch_event (s : OpenRouterService) (payload : RequestPayload) : Event :=
  EvFetch (baseUrl s ++ "/chat/completions")%string (apiKey s) payload.

(** Attempts [a], [a+1], ..., [a+k-1], each followed by its backoff sleep. *)
Definition schedule_from (s : OpenRouterService) (payload : RequestPayload) (a k : nat)
    : list Event :=
  flat_map (fun i => [fetch_event s payload; EvSleep (retryDelay s * 2 ^ Z.of_nat i)])
           (seq a k).

Definition is_fetch (ev : Event) : bool :=
  match ev with EvFetch _ _ _ => true | _ => false end.

(** The number of HTTP calls among some events. *)
Definition fetch_count (evs : list Event) : nat := List.length (filter is_fetch evs).

(** The world after the [fetch] of an attempt has settled. *)
Definition after_fetch (env : Env) (s : OpenRouterService) (payload : RequestPayload)
    (w : World) : World :=
  advance (took (fetch_outcome env (fetched w)))
    (count_fetch (emit (fetch_event s payload) w)).

(** The world after a backoff sleep. *)
Definition after_sleep (delay : Z) (w : World) : World :=
  advance (Z.max 0 delay) (emit (EvSleep delay) w).

(** * The generation view: [src/components/FlashcardGenerationView.tsx]

    The state of the React component and the functions its handlers apply
    to it; the requests are the bodies the handlers give to [fetch]. *)

(** [interface FlashcardProposalViewModel] *)
Record FlashcardProposalViewModel : Type := mkViewModel {
  view_front : string;
  view_back : string;
  view_source : Source;
  accepted : bool;
  edited : bool;
  view_id : string
}.

(** [isTextValid] *)
Definition isTextValid (textValue : string) : bool :=
  (str_length textValue >=? 1000) && (str_length textValue <=? 10000).

(** [canGenerate] *)
Definition canGenerate (textValue : string) (isLoading : bool) : bool :=
  isTextValid textValue && negb isLoading.

(** The body [handleGenerate] posts to [/api/generations], if it posts. *)
Definition generate_request (textValue : string) (isLoading : bool) : option json :=
  if negb (canGenerate textValue isLoading) then None
  else Some (JObj [("source_text", JStr textValue)]).

(** [data.flashcards_proposals.map((proposal, index) => ...)], from
    [index]. *)
Fixpoint view_models_from (generation : Z) (index : nat)
    (proposals : list FlashcardProposalDto) : list FlashcardProposalViewModel :=
  match proposals with
  | [] => []
  | proposal :: rest =>
      mkViewModel (proposal_front proposal) (proposal_back proposal)
        (proposal_source proposal) false false
        (string_of_Z generation ++ "-" ++ string_of_Z (Z.of_nat index))%string
      :: view_models_from generation (S index) rest
  end.

(** The update of [handleAccept]. *)
Definition handleAccept (id' : string) (prev : list FlashcardProposalViewModel)
    : list FlashcardProposalViewModel :=
  map (fun card =>
         if (view_id card =? id')%string
         then mkViewModel (view_front card) (view_back card) (view_source card)
                (negb (accepted card)) (edited card) (view_id card)
         else card)
      prev.

(** The update of [handleEdit]. *)
Definition handleEdit (id' front back : string) (prev : list FlashcardProposalViewModel)
    : list FlashcardProposalViewModel :=
  map (fun card =>
         if (view_id card =? id')%string
         then mkViewModel front back ai_edited (accepted card) true (view_id card)
         else card)
      prev.

(** The update of [handleReject]. *)
Definition handleReject (id' : string) (prev : list FlashcardProposalViewModel)
    : list FlashcardProposalViewModel :=
  filter (fun card => negb (view_id card =? id')%string) prev.

(** The flashcard the save handlers make of a card. *)
Definition save_flashcard (generationId : Z) (card : FlashcardProposalViewModel)
    : FlashcardCreateDto.t :=
  FlashcardCreateDto.mk (view_front card) (view_back card)
    (if edited card then ai_edited else ai_full) (Some generationId) None.

(** The body [handleSaveAll] posts to [/api/flashcards], if it posts
    ([!generationId] holds for [null] and for 0). *)
Definition save_all_request (generationId : option Z)
    (cards : list FlashcardProposalViewModel) : option json :=
  match generationId with
  | None => None
  | Some g =>
      if g =? 0 then None
      else Some (json_of_command (map (save_flashcard g) cards))
  end.

(** The body [handleSaveAccepted] posts, if it posts. *)
Definition save_accepted_request (generationId : option Z)
    (cards : list FlashcardProposalViewModel) : option json :=
  match generationId with
  | None => None
  | Some g =>
      if g =? 0 then None
      else
        match filter accepted cards with
        | [] => None
        | acceptedCards => Some (json_of_command (map (save_flashcard g) acceptedCards))
        end
  end.

(** * The middleware: [src/middleware/index.ts] *)

Definition PUBLIC_PATHS : list string :=
  ["/";
   "/auth/login";
   "/auth/register";
   "/auth/forgot-password";
   "/auth/reset-password";
   "/api/auth/login";
   "/api/auth/register";
   "/api/auth/logout";
   "/api/auth/forgot-password";
   "/api/auth/reset-password"].

(** [list.includes(x)] on strings. *)
Definition includes (l : list string) (x : string) : bool :=
  existsb (fun y => (y =? x)%string) l.

(** The user of a session, as [supabase.auth.getUser()] gives it. *)
Record SessionUser : Type := mkSessionUser {
  session_id : string;
  session_email : option string
}.

(** How [onRequest] ends: with what [next()] returns, or with a redirect. *)
Inductive MiddlewareResult (A : Type) : Type :=
| Passed (response : A)
| Redirected (location : string).
Arguments Passed {A} response.
Arguments Redirected {A} location.

(** [onRequest]: [session] is the user [getUser()] finds, asked for on a
    path that is not public only; [next] is the rest of the chain, run with
    the [locals.user] the middleware leaves. *)
Definition onRequest {A : Type} (pathname : string) (session : option SessionUser)
    (next : option User -> A) : MiddlewareResult A :=
  if includes PUBLIC_PATHS pathname then Passed (next None)
  else
    match session with
    | Some u => Passed (next (Some (mkUser (session_id u) (session_email u))))
    | None => Redirected "/auth/login"
    end.

(** * The cookie header: [src/db/supabase.client.ts] *)

(** [s.split(sep)] for a separator of one character. *)
Fixpoint split_on (sep : ascii) (s : string) : list string :=
  match s with
  | EmptyString => [EmptyString]
  | String c rest =>
      if Ascii.eqb c sep then EmptyString :: split_on sep rest
      else
        match split_on sep rest with
        | first :: others => String c first :: others
        | [] => [String c EmptyString]
        end
  end.

(** White space and line terminators among the code units below 256. *)
Definition is_space (c : ascii) : bool :=
  let n := nat_of_ascii c in
  ((9 <=? n)%nat && (n <=? 13)%nat) || (n =? 32)%nat || (n =? 160)%nat.

Fixpoint trim_start (s : string) : string :=
  match s with
  | EmptyString => EmptyString
  | String c rest => if is_space c then trim_start rest else s
  end.

Fixpoint trim_end (s : string) : string :=
  match s with
  | EmptyString => EmptyString
  | String c rest =>
      match trim_end rest with
      | EmptyString => if is_space c then EmptyString else String c EmptyString
      | kept => String c kept
      end
  end.

(** [s.trim()] *)
Definition trim (s : string) : string := trim_end (trim_start s).

(** [parseCookieHeader(cookieHeader)]: name and value of each cookie. *)
Definition parseCookieHeader (cookieHeader : string) : list (string * string) :=
  map (fun cookie =>
         match split_on "=" (trim cookie) with
         | name :: rest => (name, join "=" rest)
         | [] => (EmptyString, EmptyString)
         end)
      (split_on ";" cookieHeader).

(** * Sample worlds *)

Definition world0 : World := mkWorld 0 0 [] [].

(** A string of [n] copies of a character. *)
Fixpoint repeat_string (c : ascii) (n : nat) : string :=
  match n with
  | O => EmptyString
  | S n' => String c (repeat_string c n')
  end.

(** A response of the endpoint with a JSON body. *)
Definition respond (st : Z) (text : string) (v : json) : FetchOutcome :=
  mkFetchOutcome 120 (Fulfilled (mkResponse st text (Resolves v))).

(** A chat completion whose first choice carries [text]. *)
Definition completion (text : string) : json :=
  JObj [("id", JStr "gen-1");
        ("choices",
         JArr [JObj [("message", JObj [("role", JStr "assistant"); ("content", JStr text)]);
                     ("finish_reason", JStr "stop")]]);
        ("model", JStr "openai/gpt-4o-mini")].

(** The text of a structured reply with three cards, and its decoding. *)
Definition three_cards_text : string :=
  ("{" ++ dq ++ "flashcards" ++ dq ++ ":[three cards]}")%string.

Definition card (f b : string) : json := JObj [("front", JStr f); ("back", JStr b)].

Definition sample_cards : list json :=
  [card "What is a cell?" "The basic unit of life.";
   card (repeat_string "q" 250) (repeat_string "a" 600);
   card "Who proposed it?" "Schleiden and Schwann."].

Definition three_cards : json := JObj [("flashcards", JArr sample_cards)].

(** Store replies used below. *)
Definition stored (gid : Z) : StoreReply Z := Reply (Some gid) None.

Definition store_down {D : Type} : StoreReply D :=
  Reply None (Some (mkPostgrestError "connection refused")).

Definition store_throws {D : Type} : StoreReply D :=
  Throws (Error "Error" "fetch failed").

Definition logged : StoreReply unit := Reply None None.

Definition sample_JSON_parse (text : string) : ParseJson :=
  if (text =? three_cards_text)%string then Parsed three_cards
  else SyntaxError "Unexpected token".

(** A stand-in digest: any function of the text serves as the oracle. *)
Definition sample_hash (text : string) : string :=
  ("digest-of-" ++ string_of_Z (str_length text) ++ "-" ++ String.substring 0 8 text)%string.

Definition sample_env (endpoint : nat -> FetchOutcome)
    (generations : StoreReply Z) (error_logs : StoreReply unit) : Env :=
  mkEnv (Some "sk-test") endpoint sample_JSON_parse sample_hash
    (fun _ => generations) (fun _ => error_logs)
    (fun rows => Reply (Some []) None).

(** An endpoint that answers 429 twice and then completes with "hello". *)
Definition flaky_endpoint (n : nat) : FetchOutcome :=
  if (n <? 2)%nat then respond 429 "Too Many Requests" (JObj [])
  else respond 200 "OK" (completion "hello").

(** An endpoint that always answers 401 with the given body. *)
Definition unauthorized_endpoint (v : json) (n : nat) : FetchOutcome :=
  respond 401 "Unauthorized" v.

(** An endpoint that always answers 429. *)
Definition busy_endpoint (n : nat) : FetchOutcome :=
  respond 429 "Too Many Requests" (JObj []).

(** An endpoint that completes with the three cards. *)
Definition three_cards_endpoint (n : nat) : FetchOutcome :=
  respond 200 "OK" (completion three_cards_text).

(** A client built with the given [maxRetries] and otherwise by default. *)
Definition sample_client (retries : option Z) : OpenRouterService :=
  mkOpenRouterService "sk-test" "https://openrouter.ai/api/v1" 60000
    (or_number retries 3) 1000 "" "" None "gpt-4o-mini" default_parameters None.

Definition sample_payload : RequestPayload :=
  buildRequestPayload (sample_client None) "hello?".

(** The client of the generation service, as [new_GenerationService] builds
    it from the sample key. *)
Definition generation_client : OpenRouterService :=
  with_responseFormat (Some json_object)
    (with_systemMessage systemMessage
       (with_model MODEL_NAME
          (mkModelParameters (Some (7 # 10)%Q) None None None (Some (2000 # 1)%Q))
          (mkOpenRouterService "sk-test" "https://openrouter.ai/api/v1" 90000 3 1000
             "" "" None "gpt-4o-mini" default_parameters None))).

(** * Further vocabulary *)

(** The message of the error that the body of a response carries, if any:
    [errorData.error?.message]. *)
Definition body_message (b : JsonBody) : jsval :=
  match b with
  | Resolves v =>
      match get_prop (Some v) "error" with
      | Ok err => get_prop_opt err "message"
      | Throw _ => None
      end
  | Rejects _ => None
  end.

(** A value that [String] converts. *)
Definition convertible (v : jsval) : Prop :=
  forall j, v = Some j -> exists text, js_String j = Ok text.

(** The message [sendChatMessage] sends: its argument unless that is absent
    or empty, else the message set on the client. *)
Definition messageToSend (userMessage : option string) (s : OpenRouterService) : string :=
  match or_string userMessage (Some (currentUserMessage s)) with
  | Some m => m
  | None => ""
  end.

(** The milliseconds of sleep requested among some events. *)
Fixpoint total_sleep (evs : list Event) : Z :=
  match evs with
  | [] => 0
  | EvSleep d :: rest => d + total_sleep rest
  | _ :: rest => total_sleep rest
  end.

(** A chat completion with at least one choice whose message content is the
    string [text]. *)
Definition completion_with (response : json) (text : string) : Prop :=
  exists props first rest mprops,
    response = JObj props /\
    lookup "choices" props = Some (JArr (JObj first :: rest)) /\
    lookup "message" first = Some (JObj mprops) /\
    lookup "content" mprops = Some (JStr text).

(** The limits of a flashcard text. *)
Definition within_limits (front back : string) : Prop :=
  1 <= str_length front <= 200 /\ 1 <= str_length back <= 500.

(** A JSON object that spells out a flashcard. *)
Definition spells (item : json) (f : FlashcardCreateDto.t) : Prop :=
  exists props,
    item = JObj props /\
    lookup "front" props = Some (JStr (FlashcardCreateDto.front f)) /\
    lookup "back" props = Some (JStr (FlashcardCreateDto.back f)) /\
    lookup "source" props = Some (JStr (source_string (FlashcardCreateDto.source f))) /\
    lookup "generation_id" props
      = Some (json_of_option_number (FlashcardCreateDto.generation_id f)).

(** The generation row of a request: owner, model, hash and length of the
    source text. *)
Definition generation_row_of (env : Env) (sourceText userId : string)
    (row : GenerationInsert.t) : Prop :=
  GenerationInsert.user_id row = userId /\
  GenerationInsert.model row = MODEL_NAME /\
  GenerationInsert.source_text_hash row = sha256_hex env sourceText /\
  GenerationInsert.source_text_length row = str_length sourceText.

(** The error-log row of a request that failed with [e]. *)
Definition error_row_of (env : Env) (sourceText userId : string) (e : thrown)
    : ErrorLogInsert.t :=
  ErrorLogInsert.mk userId
    (if instanceof_Error e then error_name e else "UNKNOWN_ERROR")
    (if instanceof_Error e then error_message e else "Unknown error")
    MODEL_NAME (sha256_hex env sourceText) (str_length sourceText).

(** The proposal made of a card with front [f] and back [b]. *)
Definition proposal_of (f b : string) : FlashcardProposalDto :=
  mkFlashcardProposalDto (String.substring 0 200 f) (String.substring 0 500 b) ai_full.

(** The issues [flashcardCreateDtoSchema] reports, at path [p], for a
    flashcard of the declared type. *)
Definition flashcard_issues (p : list PathSegment) (f : FlashcardCreateDto.t)
    : list ZodIssue :=
  (if str_length (FlashcardCreateDto.front f) <? 1
   then [mkZodIssue (p ++ [Key "front"]) "Front text is required"] else [])
  ++ (if str_length (FlashcardCreateDto.front f) >? 200
      then [mkZodIssue (p ++ [Key "front"]) "Front text cannot exceed 200 characters"]
      else [])
  ++ (if str_length (FlashcardCreateDto.back f) <? 1
      then [mkZodIssue (p ++ [Key "back"]) "Back text is required"] else [])
  ++ (if str_length (FlashcardCreateDto.back f) >? 500
      then [mkZodIssue (p ++ [Key "back"]) "Back text cannot exceed 500 characters"]
      else [])
  ++ (if generation_id_consistent f then []
      else [mkZodIssue (p ++ [Key "generation_id"]) refinement_message]).

(** The issues of the flashcards of a batch, the first at index [i]. *)
Fixpoint batch_issues (p : list PathSegment) (i : nat) (batch : list FlashcardCreateDto.t)
    : list ZodIssue :=
  match batch with
  | [] => []
  | f :: rest => flashcard_issues (p ++ [Index i]) f ++ batch_issues p (S i) rest
  end.

(** The issue of an empty batch. *)
Definition empty_batch_issue : ZodIssue :=
  mkZodIssue [Key "flashcards"] "At least one flashcard is required".

(** The events of a generation attempt for [sourceText] by [userId]: calls
    of the endpoint, sleeps, and inserts of the rows of that request. *)
Definition generation_event (env : Env) (sourceText userId : string) (ev : Event) : Prop :=
  match ev with
  | EvFetch _ _ _ | EvSleep _ => True
  | EvInsertGeneration g => generation_row_of env sourceText userId g
  | EvInsertErrorLog l => exists e, l = error_row_of env sourceText userId e
  | EvInsertFlashcards _ => False
  end.

(** The answers of the handlers to a failure. *)
Definition flashcards_failed : HttpResponse :=
  error_response 500 "Internal Server Error"
    "An error occurred while creating flashcards. Please try again later.".

Definition generations_failed : HttpResponse :=
  error_response 500 "Internal Server Error"
    "An error occurred while generating flashcards. Please try again later.".

Definition unauthorized : HttpResponse :=
  error_response 401 "Unauthorized" "Authentication required. Please log in.".

Definition invalid_json : HttpResponse :=
  error_response 400 "Bad Request" "Invalid JSON in request body".

(** What a user does to the cards of the view. *)
Inductive ViewAction : Type :=
| Accept (id' : string)
| Edit (id' front back : string)
| Reject (id' : string).

Definition view_step (cards : list FlashcardProposalViewModel) (action : ViewAction)
    : list FlashcardProposalViewModel :=
  match action with
  | Accept i => handleAccept i cards
  | Edit i front back => handleEdit i front back cards
  | Reject i => handleReject i cards
  end.

Definition view_run (actions : list ViewAction) (cards : list FlashcardProposalViewModel)
    : list FlashcardProposalViewModel :=
  fold_left view_step actions cards.

(** A card whose source is in line with its [edited] flag. *)
Definition source_tracks_edits (card : FlashcardProposalViewModel) : Prop :=
  view_source card = if edited card then ai_edited else ai_full.

(** The cards a handler given [id'] acts on. *)
Definition cards_with_id (id' : string) (cards : list FlashcardProposalViewModel)
    : list FlashcardProposalViewModel :=
  filter (fun card => (view_id card =? id')%string) cards.

(** What a save request [body] made of the cards [sent] for the generation
    [g] is, and what the validation of the server makes of it. *)
Definition save_verdict (g : Z) (sent : list FlashcardProposalViewModel) (body : json)
    : Prop :=
  body = json_of_command (map (save_flashcard g) sent) /\
  (forall errors,
     safeParse flashcardsCreateCommandSchema body = ParseFailure errors ->
     forall i, ~ In (generation_id_issue i) errors) /\
  ((exists data, safeParse flashcardsCreateCommandSchema body = ParseSuccess data) <->
   sent <> [] /\
   Forall (fun card => within_limits (view_front card) (view_back card)) sent).

(** The [Cookie] header of a list of cookies. *)
Definition cookie_pair (c : string * string) : string :=
  (fst c ++ "=" ++ snd c)%string.

Definition cookie_header (cookies : list (string * string)) : string :=
  join "; " (map cookie_pair cookies).

(** [s.includes(c)] for one character. *)
Fixpoint has_char (c : ascii) (s : string) : bool :=
  match s with
  | EmptyString => false
  | String d rest => Ascii.eqb d c || has_char c rest
  end.

(** A cookie a browser can send: no separator in the name or the value, no
    equals sign in the name, no white space around the pair. *)
Definition sendable (c : string * string) : Prop :=
  has_char ";" (fst c) = false /\
  has_char "=" (fst c) = false /\
  has_char ";" (snd c) = false /\
  trim (cookie_pair c) = cookie_pair c.

(** ** Further sample worlds *)

(** An endpoint whose calls all run into the abort timer. *)
Definition aborting_endpoint (n : nat) : FetchOutcome :=
  mkFetchOutcome 60000 (Rejected (Error "AbortError" "This operation was aborted")).


(** A world whose model replies with JSON that carries no flashcards. *)
Definition shapeless_env : Env :=
  mkEnv (Some "sk-test") three_cards_endpoint
    (fun _ => Parsed (JObj [("cards", JArr [])])) sample_hash
    (fun _ => stored 7) (fun _ => logged) (fun rows => Reply (Some []) None).

(** A world whose model replies with a card that has no back. *)
Definition untyped_cards : list json := [JObj [("front", JStr "q")]].

Definition untyped_env : Env :=
  mkEnv (Some "sk-test") three_cards_endpoint
    (fun _ => Parsed (JObj [("flashcards", JArr untyped_cards)])) sample_hash
    (fun _ => stored 7) (fun _ => logged) (fun rows => Reply (Some []) None).

(** A world without an API key. *)
Definition keyless_env : Env :=
  mkEnv None three_cards_endpoint sample_JSON_parse sample_hash
    (fun _ => stored 7) (fun _ => logged) (fun rows => Reply (Some []) None).

(** The proposals made of the three sample cards. *)
Definition sample_proposals : list FlashcardProposalDto :=
  [proposal_of "What is a cell?" "The basic unit of life.";
   proposal_of (repeat_string "q" 250) (repeat_string "a" 600);
   proposal_of "Who proposed it?" "Schleiden and Schwann."].

Definition sample_user : User := mkUser "user-1" (Some "user@example.com").

(** A generation request with a source text of 1000 characters. *)
Definition sample_generation_request : json :=
  JObj [("source_text", JStr (repeat_string "x" 1000))].

(** A batch with one manual flashcard. *)
Definition sample_batch : list FlashcardCreateDto.t :=
  [FlashcardCreateDto.mk "front" "back" manual None None].

(** The cards of the view after the sample generation, and a session. *)
Definition sample_view : list FlashcardProposalViewModel :=
  view_models_from 7 0 sample_proposals.

Definition sample_actions : list ViewAction :=
  [Accept "7-0"; Edit "7-1" "What is mitosis?" "Cell division."; Reject "7-2"; Accept "7-1"].

Definition sample_session : SessionUser := mkSessionUser "user-1" (Some "user@example.com").

Definition sample_cookies : list (string * string) :=
  [("sb-access-token", "eyJhbGciOi=="); ("theme", "dark"); ("sb-refresh-token", "v1.token")].

(** * Properties of the remote model client *)

Section ClientFacts.

Variable env : Env.

Lemma attempt_body_spec s payload a st :
  openRouter st = s ->
  attempt_body env s payload a st =
    let w1 := after_fetch env s payload (world st) in
    match attempt_outcome (fetch_outcome env (fetched (world st))) with
    | Ok data => (Ok (Return data), mkState s w1)
    | Throw e =>
        if retryable_failure e && (a <? maxRetries s)
        then (Ok (Continue (classified s e)), mkState s (after_sleep (backoff s a) w1))
        else (Throw (classified s e), mkState s w1)
    end.
Proof.
  intros Hs. destruct st as [s0 w]. simpl in Hs. subst s0.
  unfold attempt_body, try_catch, try_attempt, bind, fetch, attempt_outcome, after_fetch.
  simpl.
  destruct (result (fetch_outcome env (fetched w))) as [r | e]; simpl.
  - unfold lift. destruct (handle_response r) as [data | e]; simpl; [reflexivity |].
    unfold catch_attempt, retryable_failure, classified, is_AbortError.
    destruct e as [m c sc oe rt | m | n m | v]; simpl.
    + destruct rt; simpl; destruct (a <? maxRetries s); reflexivity.
    + destruct (a <? maxRetries s); reflexivity.
    + destruct (n =? "AbortError")%string; simpl;
        destruct (a <? maxRetries s); reflexivity.
    + destruct (a <? maxRetries s); reflexivity.
  - unfold catch_attempt, retryable_failure, classified, is_AbortError.
    destruct e as [m c sc oe rt | m | n m | v]; simpl.
    + destruct rt; simpl; destruct (a <? maxRetries s); reflexivity.
    + destruct (a <? maxRetries s); reflexivity.
    + destruct (n =? "AbortError")%string; simpl;
        destruct (a <? maxRetries s); reflexivity.
    + destruct (a <? maxRetries s); reflexivity.
Qed.

(** The attempt loop from attempt [a] to attempt [maxRetries]: it makes
    attempts [a .. a+j], sleeps the backoff delay after each of the first
    [j], which all failed with a retryable error, and ends with the
    outcome of attempt [a+j]. *)
Lemma for_attempts_run s payload :
  forall n a le st,
    openRouter st = s ->
    Z.of_nat (a + n) = maxRetries s ->
    exists j res st',
      for_attempts env s payload le (map Z.of_nat (seq a (S n))) st = (res, st') /\
      (j <= n)%nat /\
      openRouter st' = s /\
      console (world st') = console (world st) /\
      trace (world st') =
        trace (world st) ++ schedule_from s payload a j ++ [fetch_event s payload] /\
      fetched (world st') = (fetched (world st) + j + 1)%nat /\
      (forall i, (i < j)%nat ->
         exists e,
           attempt_outcome (fetch_outcome env (fetched (world st) + i)) = Throw e /\
           retryable_failure e = true) /\
      match attempt_outcome (fetch_outcome env (fetched (world st) + j)) with
      | Ok data => res = Ok data
      | Throw e =>
          res = Throw (classified s e) /\
          (retryable_failure e = true -> Z.of_nat (a + j) = maxRetries s)
      end.
Proof.
  induction n as [| n IH]; intros a le st Hs Hlast.
  - cbn [seq map for_attempts]. unfold bind.
    rewrite (attempt_body_spec s payload (Z.of_nat a) st Hs). cbv zeta.
    replace (Z.of_nat a <? maxRetries s) with false by (symmetry; apply Z.ltb_ge; lia).
    exists 0%nat.
    destruct (attempt_outcome (fetch_outcome env (fetched (world st)))) as [data | e] eqn:Ho.
    + exists (Ok data), (mkState s (after_fetch env s payload (world st))).
      rewrite Nat.add_0_r, Ho. simpl.
      repeat split; try reflexivity; try lia.
    + rewrite andb_false_r.
      exists (Throw (classified s e)), (mkState s (after_fetch env s payload (world st))).
      rewrite Nat.add_0_r, Ho. simpl.
      repeat split; try reflexivity; try lia.
  - cbn [seq map for_attempts]. unfold bind.
    rewrite (attempt_body_spec s payload (Z.of_nat a) st Hs). cbv zeta.
    replace (Z.of_nat a <? maxRetries s) with true by (symmetry; apply Z.ltb_lt; lia).
    destruct (attempt_outcome (fetch_outcome env (fetched (world st)))) as [data | e] eqn:Ho.
    + exists 0%nat, (Ok data), (mkState s (after_fetch env s payload (world st))).
      rewrite Nat.add_0_r, Ho. simpl.
      repeat split; try reflexivity; try lia.
    + rewrite andb_true_r.
      destruct (retryable_failure e) eqn:Hr.
      * set (st2 := mkState s (after_sleep (backoff s (Z.of_nat a))
                                 (after_fetch env s payload (world st)))).
        destruct (IH (S a) (Some (classified s e)) st2 eq_refl ltac:(lia))
          as (j & res & st' & Hrun & Hj & Hs' & Hc & Ht & Hf & Hall & Hend).
        exists (S j), res, st'.
        split; [exact Hrun |].
        split; [lia |].
        split; [exact Hs' |].
        split; [rewrite Hc; reflexivity |].
        split.
        { rewrite Ht. unfold st2, schedule_from, backoff. simpl.
          rewrite <- !app_assoc. reflexivity. }
        split.
        { rewrite Hf. unfold st2. simpl. lia. }
        split.
        { intros i Hi. destruct i as [| i].
          - exists e. rewrite Nat.add_0_r. split; assumption.
          - destruct (Hall i ltac:(lia)) as (e' & He' & Hr').
            exists e'. split; [| exact Hr'].
            rewrite <- He'. f_equal. f_equal. unfold st2. simpl. lia. }
        { replace (fetched (world st) + S j)%nat with (fetched (world st2) + j)%nat
            by (unfold st2; simpl; lia).
          destruct (attempt_outcome (fetch_outcome env (fetched (world st2) + j)));
            [exact Hend |].
          destruct Hend as [Hres Hk]. split; [exact Hres |].
          intros Hre. rewrite <- (Hk Hre). f_equal. lia. }
      * exists 0%nat, (Throw (classified s e)),
          (mkState s (after_fetch env s payload (world st))).
        rewrite Nat.add_0_r, Ho. simpl.
        repeat split; try reflexivity; try lia.
        intros Hre. congruence.
Qed.

Lemma fetch_count_schedule s payload :
  forall k a rest,
    fetch_count (schedule_from s payload a k ++ rest) = (k + fetch_count rest)%nat.
Proof.
  unfold fetch_count, schedule_from.
  induction k as [| k IH]; intros a rest; simpl; [reflexivity |].
  rewrite IH. reflexivity.
Qed.



(** One call of [executeRequest] by a client whose [maxRetries] is not
    negative. *)
Lemma executeRequest_run payload st :
  let s := openRouter st in
  0 <= maxRetries s ->
  exists j res st',
    executeRequest env payload st = (res, st') /\
    Z.of_nat j <= maxRetries s /\
    openRouter st' = s /\
    console (world st') = console (world st) /\
    trace (world st') =
      trace (world st) ++ schedule_from s payload 0 j ++ [fetch_event s payload] /\
    fetched (world st') = (fetched (world st) + j + 1)%nat /\
    (forall i, (i < j)%nat ->
       exists e,
         attempt_outcome (fetch_outcome env (fetched (world st) + i)) = Throw e /\
         retryable_failure e = true) /\
    match attempt_outcome (fetch_outcome env (fetched (world st) + j)) with
    | Ok data => res = Ok data
    | Throw e =>
        res = Throw (classified s e) /\
        (retryable_failure e = true -> Z.of_nat j = maxRetries s)
    end.
Proof.
  intros s Hmax.
  unfold executeRequest, bind, gets, attempts. fold s.
  replace (Z.to_nat (maxRetries s + 1)) with (S (Z.to_nat (maxRetries s)))
    by (rewrite Z2Nat.inj_add by lia; simpl; lia).
  destruct (for_attempts_run s payload (Z.to_nat (maxRetries s)) 0%nat None st eq_refl
              ltac:(simpl; lia))
    as (j & res & st' & Hrun & Hj & Hs' & Hc & Ht & Hf & Hall & Hend).
  exists j, res, st'. simpl in Hend.
  repeat split; try assumption; try lia.
Qed.


(** With a negative [maxRetries] the loop body never runs: no call of the
    endpoint, and the statement after the loop raises UNKNOWN_ERROR. *)
Lemma executeRequest_no_attempt payload st :
  maxRetries (openRouter st) < 0 ->
  executeRequest env payload st =
    (Throw (OpenRouterError "Request failed: Unknown error" UNKNOWN_ERROR None None false), st).
Proof.
  intros Hneg. unfold executeRequest, bind, gets, attempts.
  replace (Z.to_nat (maxRetries (openRouter st) + 1)) with 0%nat by lia.
  reflexivity.
Qed.


(** Whatever a call of [sendChatMessage] does, the metadata it leaves
    records attempt 1. *)
Lemma sendChatMessage_records_attempt_1 userMessage st res st' :
  sendChatMessage env userMessage st = (res, st') ->
  exists m, lastRequestMetadata (openRouter st') = Some m /\ attempt m = 1.
Proof.
  unfold sendChatMessage, bind, try_catch, Date_now, gets, throw, ret, lift,
    setLastRequestMetadata, update_service, modify.
  simpl.
  destruct (or_string userMessage (Some (currentUserMessage (openRouter st))))
    as [[| c msg] |]; simpl.
  - intros H. inversion H. simpl. eexists. split; reflexivity.
  - destruct (executeRequest env _ st) as [[response | e] st1]; simpl.
    + destruct (parseResponse env (openRouter st) response) as [v | e]; simpl;
        intros H; inversion H; simpl; eexists; split; reflexivity.
    + intros H; inversion H; simpl; eexists; split; reflexivity.
  - intros H. inversion H. simpl. eexists. split; reflexivity.
Qed.

(** C10. A configuration that gives zero for [timeout], [maxRetries] or
    [retryDelay] yields a client with the default (60000, 3, 1000) there;
    in particular a client configured with [maxRetries = 0] still makes up
    to 4 attempts: never more, and exactly 4 when every attempt fails with
    a retryable error. *)
Theorem zero_config_falls_back_to_defaults config s :
  new_OpenRouterService env config = Ok s ->
  (OpenRouterConfig.timeout config = Some 0 -> timeout s = 60000) /\
  (OpenRouterConfig.maxRetries config = Some 0 -> maxRetries s = 3) /\
  (OpenRouterConfig.retryDelay config = Some 0 -> retryDelay s = 1000) /\
  (OpenRouterConfig.maxRetries config = Some 0 ->
   forall payload w,
   exists res st' evs,
     executeRequest env payload (mkState s w) = (res, st') /\
     trace (world st') = trace w ++ evs /\
     (fetch_count evs <= 4)%nat /\
     ((forall i, exists e,
          attempt_outcome (fetch_outcome env i) = Throw e /\
          retryable_failure e = true) ->
      fetch_count evs = 4%nat)).
Proof.
  intros Hnew.
  assert (Hfields :
    timeout s = or_number (OpenRouterConfig.timeout config) 60000 /\
    maxRetries s = or_number (OpenRouterConfig.maxRetries config) 3 /\
    retryDelay s = or_number (OpenRouterConfig.retryDelay config) 1000).
  { unfold new_OpenRouterService in Hnew.
    destruct (or_string (OpenRouterConfig.apiKey config) (OPENROUTER_API_KEY env))
      as [[| c key] |]; inversion Hnew; subst; simpl; auto. }
  destruct Hfields as (Ht & Hm & Hd).
  split; [intros H; rewrite Ht, H; reflexivity |].
  split; [intros H; rewrite Hm, H; reflexivity |].
  split; [intros H; rewrite Hd, H; reflexivity |].
  intros H payload w.
  assert (Hm3 : maxRetries s = 3) by (rewrite Hm, H; reflexivity).
  destruct (executeRequest_run payload (mkState s w) ltac:(simpl; lia))
    as (j & res & st' & Hrun & Hj & _ & _ & Htr & _ & _ & Hend).
  simpl in Hj, Htr, Hend.
  exists res, st', (schedule_from s payload 0 j ++ [fetch_event s payload]).
  split; [exact Hrun |].
  split; [exact Htr |].
  rewrite fetch_count_schedule.
  change (fetch_count [fetch_event s payload]) with 1%nat.
  split; [lia |].
  intros Hbusy.
  destruct (Hbusy (fetched w + j)%nat) as (e & He & Hr).
  rewrite He in Hend. destruct Hend as [_ Hlast]. specialize (Hlast Hr). lia.
Qed.

(** The classification of a status by lines 410-421. *)
Lemma classify_status_cases st :
  (st = 401 \/ st = 403 -> classify_status st = (AUTHENTICATION_ERROR, false)) /\
  (st = 429 -> classify_status st = (RATE_LIMIT_ERROR, true)) /\
  (500 <= st -> classify_status st = (HTTP_ERROR, true)) /\
  (st < 500 -> st <> 401 -> st <> 403 -> st <> 429 ->
   classify_status st = (HTTP_ERROR, false)).
Proof.
  unfold classify_status.
  repeat split.
  - intros [-> | ->]; reflexivity.
  - intros ->; reflexivity.
  - intros H.
    destruct (st =? 401) eqn:H1; [apply Z.eqb_eq in H1; lia |].
    destruct (st =? 403) eqn:H2; [apply Z.eqb_eq in H2; lia |].
    destruct (st =? 429) eqn:H3; [apply Z.eqb_eq in H3; lia |].
    simpl. replace (st >=? 500) with true; [reflexivity |].
    symmetry. rewrite Z.geb_leb. apply Z.leb_le. lia.
  - intros H N1 N2 N3.
    apply Z.eqb_neq in N1, N2, N3. rewrite N1, N2, N3. simpl.
    replace (st >=? 500) with false; [reflexivity |].
    symmetry. rewrite Z.geb_leb. apply Z.leb_gt. lia.
Qed.

(** A response that is not ok and whose body is not the JSON value [null]
    becomes an [OpenRouterError] classified by its status, provided the
    message it carries, if any, converts to a string. *)
Lemma handle_response_not_ok r :
  ok r = false ->
  body r <> Resolves JNull ->
  convertible (body_message (body r)) ->
  exists message orig,
    handle_response r =
      Throw (OpenRouterError message (fst (classify_status (status r)))
               (Some (status r)) orig (snd (classify_status (status r)))).
Proof.
  intros Hok Hbody Hconv. unfold handle_response. rewrite Hok. simpl.
  destruct (classify_status (status r)) as [c rt]. simpl.
  assert (Hgen : forall errorData err,
            get_prop (Some errorData) "error" = Ok err ->
            convertible (get_prop_opt err "message") ->
            exists message orig,
              match get_prop (Some errorData) "error" with
              | Throw e => Throw e
              | Ok err =>
                  match
                    match get_prop_opt err "message" with
                    | Some v =>
                        if truthy (get_prop_opt err "message") then js_String v
                        else Ok ("HTTP " ++ string_of_Z (status r) ++ ": "
                                 ++ statusText r)%string
                    | None =>
                        Ok ("HTTP " ++ string_of_Z (status r) ++ ": "
                            ++ statusText r)%string
                    end
                  with
                  | Throw e => Throw e
                  | Ok text =>
                      Throw (OpenRouterError text c (Some (status r))
                               (Some (Value errorData)) rt)
                  end
              end = Throw (OpenRouterError message c (Some (status r)) orig rt) :> Outcome json).
  { intros errorData err Hget Hc. rewrite Hget.
    destruct (get_prop_opt err "message") as [v |] eqn:Hm;
      [| eexists; eexists; reflexivity].
    destruct (truthy (Some v)); [| eexists; eexists; reflexivity].
    destruct (Hc v eq_refl) as (text & ->). eexists; eexists; reflexivity. }
  destruct (body r) as [v | e] eqn:Hb.
  - destruct (get_prop (Some v) "error") as [err | e] eqn:Hget.
    + apply (Hgen v err Hget). unfold body_message in Hconv. rewrite Hget in Hconv.
      exact Hconv.
    + destruct v; try congruence; discriminate.
  - apply (Hgen (JObj []) None eq_refl). intros j Hj. discriminate.
Qed.

(** An error of the first attempt that is not retryable is raised at once:
    one call of the endpoint, no sleep. *)
Lemma executeRequest_raises_at_once payload st e :
  let s := openRouter st in
  0 <= maxRetries s ->
  attempt_outcome (fetch_outcome env (fetched (world st))) = Throw e ->
  retryable_failure e = false ->
  exists st',
    executeRequest env payload st = (Throw (classified s e), st') /\
    trace (world st') = trace (world st) ++ [fetch_event s payload].
Proof.
  intros s Hmax Ho Hr.
  destruct (executeRequest_run payload st Hmax)
    as (j & res & st' & Hrun & _ & _ & _ & Ht & _ & Hall & Hend).
  destruct j as [| j].
  - rewrite Nat.add_0_r, Ho in Hend. destruct Hend as [-> _].
    exists st'. split; [exact Hrun | exact Ht].
  - destruct (Hall 0%nat ltac:(lia)) as (e' & He' & Hr').
    rewrite Nat.add_0_r, Ho in He'. inversion He'; subst. congruence.
Qed.

(** Facing an endpoint that answers 401 with any body but [null], whose
    message, if any, converts to a string, the client makes one attempt and
    raises AUTHENTICATION_ERROR. *)
Lemma executeRequest_unauthorized_once payload st :
  let s := openRouter st in
  0 <= maxRetries s ->
  (forall n, exists ms text b,
      fetch_outcome env n = mkFetchOutcome ms (Fulfilled (mkResponse 401 text b)) /\
      b <> Resolves JNull /\
      convertible (body_message b)) ->
  exists message orig st',
    executeRequest env payload st
      = (Throw (OpenRouterError message AUTHENTICATION_ERROR (Some 401) orig false), st') /\
    fetch_count (trace (world st')) = S (fetch_count (trace (world st))).
Proof.
  intros s Hmax Hall.
  destruct (Hall (fetched (world st))) as (ms & text & b & Hf & Hb & Hc).
  destruct (handle_response_not_ok (mkResponse 401 text b) eq_refl Hb Hc)
    as (message & orig & Hh).
  simpl in Hh.
  destruct (executeRequest_raises_at_once payload st
              (OpenRouterError message AUTHENTICATION_ERROR (Some 401) orig false) Hmax)
    as (st' & Hrun & Ht).
  - unfold attempt_outcome. rewrite Hf. simpl. exact Hh.
  - reflexivity.
  - exists message, orig, st'. split; [exact Hrun |].
    rewrite Ht. unfold fetch_count. rewrite filter_app, length_app. simpl. lia.
Qed.

End ClientFacts.


(** C10, at a configuration of zeros facing the busy endpoint. *)
Lemma zero_config_falls_back_to_defaults_witness :
  new_OpenRouterService (sample_env busy_endpoint (stored 1) logged)
    (OpenRouterConfig.mk (Some "sk-test") None (Some 0) (Some 0) (Some 0))
  = Ok (sample_client (Some 0)) /\
  maxRetries (sample_client (Some 0)) = 3.
Proof.
  assert (H : new_OpenRouterService
                (sample_env busy_endpoint (stored 1) logged)
                (OpenRouterConfig.mk (Some "sk-test") None (Some 0) (Some 0) (Some 0))
              = Ok (sample_client (Some 0))) by reflexivity.
  split; [exact H |].
  exact (proj1 (proj2 (zero_config_falls_back_to_defaults _ _ _ H)) eq_refl).
Defined.

(** * Properties of the generation orchestrator *)

Section GenerationFacts.

Variable env : Env.

(** The attempt loop causes only client events and leaves the client
    object and the console as they are. *)
Lemma for_attempts_events s payload :
  forall todo le st res st',
    openRouter st = s ->
    for_attempts env s payload le todo st = (res, st') ->
    openRouter st' = s /\
    console (world st') = console (world st) /\
    exists evs, trace (world st') = trace (world st) ++ evs /\ Forall client_event evs.
Proof.
  induction todo as [| a todo IH]; intros le st res st' Hs Hrun.
  - cbn [for_attempts] in Hrun. unfold throw in Hrun. inversion Hrun; subst.
    repeat split. exists []. rewrite app_nil_r. split; [reflexivity | constructor].
  - cbn [for_attempts] in Hrun. unfold bind in Hrun.
    rewrite (attempt_body_spec env s payload a st Hs) in Hrun. cbv zeta in Hrun.
    destruct (attempt_outcome (fetch_outcome env (fetched (world st)))) as [data | e].
    + unfold ret in Hrun. inversion Hrun; subst. simpl.
      repeat split. exists [fetch_event (openRouter st) payload].
      split; [reflexivity | repeat constructor].
    + destruct (retryable_failure e && (a <? maxRetries s)).
      * apply IH in Hrun; [| reflexivity].
        destruct Hrun as (Hs' & Hc & evs & Ht & Hev).
        split; [exact Hs' |]. split; [exact Hc |].
        exists ([fetch_event s payload; EvSleep (backoff s a)] ++ evs).
        split.
        -- rewrite Ht. simpl. rewrite <- !app_assoc. reflexivity.
        -- repeat constructor. exact Hev.
      * inversion Hrun; subst. simpl.
        repeat split. exists [fetch_event (openRouter st) payload].
        split; [reflexivity | repeat constructor].
Qed.

Lemma sendChatMessage_events userMessage st res st' :
  sendChatMessage env userMessage st = (res, st') ->
  console (world st') = console (world st) /\
  exists evs, trace (world st') = trace (world st) ++ evs /\ Forall client_event evs.
Proof.
  unfold sendChatMessage, bind, try_catch, Date_now, gets, throw, ret, lift,
    setLastRequestMetadata, update_service, modify.
  simpl.
  assert (Hnil : forall w : World, exists evs,
             trace w = trace w ++ evs /\ Forall client_event evs).
  { intros w. exists []. rewrite app_nil_r. split; [reflexivity | constructor]. }
  destruct (or_string userMessage (Some (currentUserMessage (openRouter st))))
    as [[| c msg] |]; simpl.
  - intros H. inversion H; subst. simpl. split; [reflexivity | apply Hnil].
  - destruct (executeRequest env _ st) as [[response | e] st1] eqn:Hexec.
    + unfold executeRequest, bind, gets in Hexec.
      apply (for_attempts_events (openRouter st)) in Hexec; [| reflexivity].
      destruct Hexec as (Hs1 & Hc1 & evs & Ht & Hev). simpl.
      destruct (parseResponse env (openRouter st) response) as [v | e]; simpl;
        intros H; inversion H; subst; simpl; (split; [exact Hc1 | exists evs; split; assumption]).
    + unfold executeRequest, bind, gets in Hexec.
      apply (for_attempts_events (openRouter st)) in Hexec; [| reflexivity].
      destruct Hexec as (Hs1 & Hc1 & evs & Ht & Hev). simpl.
      intros H; inversion H; subst; simpl; (split; [exact Hc1 | exists evs; split; assumption]).
  - intros H. inversion H; subst. simpl. split; [reflexivity | apply Hnil].
Qed.

Lemma client_event_not_insert evs g :
  Forall client_event evs -> ~ In (EvInsertGeneration g) evs.
Proof.
  intros Hall Hin. rewrite Forall_forall in Hall. exact (Hall _ Hin).
Qed.

Lemma callAIService_events sourceText st res st' :
  callAIService env sourceText st = (res, st') ->
  exists evs, trace (world st') = trace (world st) ++ evs /\ Forall client_event evs.
Proof.
  unfold callAIService, try_catch, bind.
  destruct (sendChatMessage env (Some (userMessage_for sourceText)) st)
    as [[response | e] st1] eqn:Hsend;
    apply sendChatMessage_events in Hsend; destruct Hsend as (_ & evs & Ht & Hev).
  - unfold lift, throw, ret, in_world, console_log, modify.
    destruct (get_prop (Some response) "flashcards") as [[[| | | | cards |] |] | e].
    1-4, 6-7:
      (intros H; inversion H; subst; simpl; exists evs; split; assumption).
    + destruct (Z.of_nat (List.length cards) =? 5); simpl;
        destruct (map_proposals cards) as [ps | e];
        try destruct e;
        intros H; inversion H; subst; simpl; exists evs; split; assumption.
    + destruct e;
        intros H; inversion H; subst; simpl; exists evs; split; assumption.
  - unfold throw, in_world, console_log, modify, bind.
    destruct e; simpl;
      intros H; inversion H; subst; simpl; exists evs; split; assumption.
Qed.

(** The only record-store call of the [try] block of [generateFlashcards]
    is the insert of a generation row that carries the hash of the source
    text. *)
Lemma try_generate_events sourceText userId t st res st1 :
  try_generate env sourceText userId t st = (res, st1) ->
  exists evs,
    trace (world st1) = trace (world st) ++ evs /\
    forall g, In (EvInsertGeneration g) evs ->
              GenerationInsert.source_text_hash g = calculateHash env sourceText.
Proof.
  unfold try_generate, bind.
  destruct (callAIService env sourceText st) as [[ps | e] st0] eqn:Hcall;
    apply callAIService_events in Hcall; destruct Hcall as (evs & Ht & Hev).
  - unfold getLastRequestMetadata, Date_now, gets, in_world, store_call, throw, ret,
      console_log, modify.
    simpl.
    match goal with
    | |- context [insert_generation env ?r] =>
        set (row := r); destruct (insert_generation env row) as [data err | e]
    end.
    + intros H.
      exists (evs ++ [EvInsertGeneration row]).
      split.
      * destruct data, err; simpl in H; inversion H; subst; simpl;
          rewrite Ht, <- app_assoc; reflexivity.
      * intros g Hin. apply in_app_or in Hin. destruct Hin as [Hin | [Hin | []]].
        -- exfalso. exact (client_event_not_insert _ _ Hev Hin).
        -- inversion Hin. reflexivity.
    + intros H. inversion H; subst. simpl.
      exists (evs ++ [EvInsertGeneration row]).
      split; [rewrite Ht, <- app_assoc; reflexivity |].
      intros g Hin. apply in_app_or in Hin. destruct Hin as [Hin | [Hin | []]].
      * exfalso. exact (client_event_not_insert _ _ Hev Hin).
      * inversion Hin. reflexivity.
  - intros H. inversion H; subst. exists evs. split; [exact Ht |].
    intros g Hin. exfalso. exact (client_event_not_insert _ _ Hev Hin).
Qed.

(** What [logGenerationError] does: one insert into the error-log table,
    whose failure (a reply with an error, or an exception) it swallows. *)
Lemma logGenerationError_spec log error sourceText model userId d st :
  exists st',
    logGenerationError (with_error_log env log) error sourceText model userId d st
      = (Ok tt, st') /\
    openRouter st' = openRouter st /\
    trace (world st') =
      trace (world st) ++
      [EvInsertErrorLog
         (ErrorLogInsert.mk userId
            (if instanceof_Error error then error_name error else "UNKNOWN_ERROR")
            (if instanceof_Error error then error_message error else "Unknown error")
            model (calculateHash env sourceText) (str_length sourceText))].
Proof.
  unfold logGenerationError, try_catch, bind, in_world, store_call, ret, console_log, modify.
  simpl.
  match goal with
  | |- context [log ?r] => destruct (log r) as [data err | e]
  end; simpl; eexists; repeat split; reflexivity.
Qed.

(** [generateFlashcards] fails only with an error of its [try] block. *)
Lemma generateFlashcards_fails_through_try sourceText userId st e st' :
  generateFlashcards env sourceText userId st = (Throw e, st') ->
  exists st1, try_generate env sourceText userId (now (world st)) st = (Throw e, st1).
Proof.
  unfold generateFlashcards, bind, try_catch, Date_now, gets, throw.
  destruct (try_generate env sourceText userId (now (world st)) st) as [[r | e1] st1].
  - discriminate.
  - destruct (logGenerationError_spec (insert_generation_error_log env) e1 sourceText
                MODEL_NAME userId (now (world st1) - now (world st)) st1)
      as (st2 & Hlog & _).
    change (logGenerationError (with_error_log env (insert_generation_error_log env)))
      with (logGenerationError env) in Hlog.
    rewrite Hlog. intros H. inversion H; subst. exists st1. reflexivity.
Qed.

(** C1. Whenever the [try] block of [generateFlashcards] fails with an
    error [e] (a failed model call, a malformed reply or a failed insert of
    the generation row), then, whatever the error-log table does with the
    insert ([log] may reply with an error or throw), [generateFlashcards]
    raises that same [e], after attempting the insert of an error-log row
    whose [source_text_hash] is the hash of the source text: the hash of
    the generation row, if that insert was attempted. *)
Theorem generateFlashcards_logs_then_rethrows log sourceText userId st e st1 :
  try_generate env sourceText userId (now (world st)) st = (Throw e, st1) ->
  exists st' evs row,
    generateFlashcards (with_error_log env log) sourceText userId st = (Throw e, st') /\
    trace (world st1) = trace (world st) ++ evs /\
    trace (world st') = trace (world st) ++ evs ++ [EvInsertErrorLog row] /\
    ErrorLogInsert.source_text_hash row = calculateHash env sourceText /\
    (forall g, In (EvInsertGeneration g) evs ->
               GenerationInsert.source_text_hash g =
               ErrorLogInsert.source_text_hash row).
Proof.
  intros Htry.
  destruct (try_generate_events _ _ _ _ _ _ Htry) as (evs & Ht & Hgen).
  destruct (logGenerationError_spec log e sourceText MODEL_NAME userId
              (now (world st1) - now (world st)) st1)
    as (st' & Hlog & _ & Htl).
  exists st', evs. eexists.
  split.
  - unfold generateFlashcards, bind, try_catch, Date_now, gets, throw.
    change (try_generate (with_error_log env log) sourceText userId (now (world st)) st)
      with (try_generate env sourceText userId (now (world st)) st).
    rewrite Htry. rewrite Hlog. reflexivity.
  - split; [exact Ht |].
    split; [rewrite Htl, Ht, <- app_assoc; reflexivity |].
    split; [reflexivity |].
    intros g Hin. simpl. apply Hgen. exact Hin.
Qed.

Lemma substring_length :
  forall (n : nat) (s : string), (String.length (String.substring 0 n s) <= n)%nat.
Proof.
  induction n as [| n IH]; intros s; destruct s as [| c s]; simpl; try lia.
  specialize (IH s). lia.
Qed.

Lemma to_proposal_typed c f b :
  card_strings c = Some (f, b) ->
  to_proposal c =
    Ok (mkFlashcardProposalDto (String.substring 0 200 f) (String.substring 0 500 b) ai_full).
Proof.
  unfold card_strings, to_proposal.
  destruct c as [| | | | | props]; try discriminate. simpl.
  destruct (lookup "front" props) as [[| | | sf | |] |]; try discriminate.
  destruct (lookup "back" props) as [[| | | sb | |] |]; try discriminate.
  intros H. inversion H; subst. reflexivity.
Qed.

Lemma map_proposals_typed :
  forall cards,
    Forall (fun c => card_strings c <> None) cards ->
    exists ps,
      map_proposals cards = Ok ps /\
      Forall2 (fun c p =>
                 exists f b,
                   card_strings c = Some (f, b) /\
                   p = mkFlashcardProposalDto (String.substring 0 200 f)
                         (String.substring 0 500 b) ai_full)
              cards ps.
Proof.
  induction cards as [| c cards IH]; intros Hall.
  - exists []. split; [reflexivity | constructor].
  - inversion Hall as [| ? ? Hc Hrest]; subst.
    destruct (IH Hrest) as (ps & Hps & Hrel).
    destruct (card_strings c) as [[f b] |] eqn:Hcs; [| congruence].
    exists (mkFlashcardProposalDto (String.substring 0 200 f)
              (String.substring 0 500 b) ai_full :: ps).
    cbn [map_proposals]. rewrite (to_proposal_typed c f b Hcs), Hps.
    split; [reflexivity |].
    constructor; [| exact Hrel].
    exists f, b. split; [exact Hcs | reflexivity].
Qed.

(** C4, as the code has it. When the model call succeeds and the decoded
    payload has an array [flashcards] of cards with string [front] and
    [back], of whatever length [n] (5 or not), [callAIService] does not fail: it returns [n]
    proposals, the i-th with the front of the i-th card cut to 200
    characters, its back cut to 500, and source 'ai-full'; and when the
    generation row is then stored, [generateFlashcards] returns these
    proposals with [generated_count = n]. *)
Theorem callAIService_accepts_any_count sourceText userId st payload st1 props cards :
  sendChatMessage env (Some (userMessage_for sourceText)) st = (Ok payload, st1) ->
  payload = JObj props ->
  lookup "flashcards" props = Some (JArr cards) ->
  Forall (fun c => card_strings c <> None) cards ->
  exists proposals st2,
    callAIService env sourceText st = (Ok proposals, st2) /\
    List.length proposals = List.length cards /\
    Forall2 (fun c p =>
               exists f b,
                 card_strings c = Some (f, b) /\
                 proposal_front p = String.substring 0 200 f /\
                 proposal_back p = String.substring 0 500 b /\
                 proposal_source p = ai_full /\
                 str_length (proposal_front p) <= 200 /\
                 str_length (proposal_back p) <= 500)
            cards proposals /\
    (forall gid,
       (forall row, insert_generation env row = Reply (Some gid) None) ->
       exists st3,
         generateFlashcards env sourceText userId st =
           (Ok (mkGenerationCreateResponseDto gid proposals (Z.of_nat (List.length cards))),
            st3)).
Proof.
  intros Hsend -> Hcards Htyped.
  destruct (map_proposals_typed cards Htyped) as (ps & Hps & Hrel).
  assert (Hlen : List.length ps = List.length cards).
  { symmetry. exact (Forall2_length Hrel). }
  assert (Hcall : exists st2, callAIService env sourceText st = (Ok ps, st2)).
  { unfold callAIService, try_catch, bind. rewrite Hsend.
    unfold lift, get_prop. rewrite Hcards.
    destruct (Z.of_nat (List.length cards) =? 5);
      unfold ret, in_world, console_log, modify; simpl; rewrite Hps;
      eexists; reflexivity. }
  destruct Hcall as (st2 & Hcall).
  exists ps, st2.
  split; [exact Hcall |].
  split; [exact Hlen |].
  split.
  - eapply Forall2_impl; [| exact Hrel].
    intros c p (f & b & Hcs & ->). exists f, b. simpl.
    repeat split; try assumption; unfold str_length.
    + pose proof (substring_length 200 f). lia.
    + pose proof (substring_length 500 b). lia.
  - intros gid Hstore.
    unfold generateFlashcards, try_catch, bind, Date_now, gets, try_generate, bind.
    simpl. rewrite Hcall.
    unfold getLastRequestMetadata, gets, in_world, store_call. simpl.
    rewrite Hstore. unfold ret. rewrite Hlen. eexists. reflexivity.
Qed.

(** When the client fails with an authentication, rate-limit, timeout or
    network error, the orchestrator raises a plain [Error] whose message is
    the user-facing text, distinct from the code; the code is written to
    the console before the translation; the error-log row records the name
    and the message of the raised error, so that its [error_code] is
    'Error' for each of the four classifications. *)
Theorem remapped_failure_is_logged_by_name
    sourceText userId st message code sc oe rt st1 :
  sendChatMessage env (Some (userMessage_for sourceText)) st
    = (Throw (OpenRouterError message code sc oe rt), st1) ->
  In code remapped_codes ->
  exists st' row,
    generateFlashcards env sourceText userId st
      = (Throw (Error "Error" (friendly_message code message)), st') /\
    friendly_message code message <> code_string code /\
    In (mkConsoleEntry console_error
          [Text ("[GenerationService] OpenRouter error [" ++ code_string code ++ "]:")%string;
           Text message])
       (console (world st')) /\
    trace (world st') = trace (world st1) ++ [EvInsertErrorLog row] /\
    ErrorLogInsert.error_code row = "Error" /\
    ErrorLogInsert.error_message row = friendly_message code message /\
    ErrorLogInsert.source_text_hash row = calculateHash env sourceText.
Proof.
  intros Hsend Hcode.
  assert (Hcall :
    callAIService env sourceText st =
      (Throw (Error "Error" (friendly_message code message)),
       mkState (openRouter st1)
         (print console_error
            [Text ("[GenerationService] OpenRouter error [" ++ code_string code ++ "]:")%string;
             Text message] (world st1)))).
  { unfold callAIService, try_catch, bind. rewrite Hsend. reflexivity. }
  set (st2 := mkState (openRouter st1)
                (print console_error
                   [Text ("[GenerationService] OpenRouter error ["
                          ++ code_string code ++ "]:")%string;
                    Text message] (world st1))) in Hcall.
  assert (Htry : try_generate env sourceText userId (now (world st)) st
                 = (Throw (Error "Error" (friendly_message code message)), st2)).
  { unfold try_generate, bind. rewrite Hcall. reflexivity. }
  destruct (logGenerationError_spec (insert_generation_error_log env)
              (Error "Error" (friendly_message code message)) sourceText MODEL_NAME userId
              (now (world st2) - now (world st)) st2)
    as (st' & Hlog & _ & Htl).
  assert (Hcons : console (world st') =
                  console (world st2) \/ exists more, console (world st') = console (world st2) ++ more).
  { right. revert Hlog.
    unfold logGenerationError, try_catch, bind, in_world, store_call, ret, console_log,
      modify, print. simpl.
    match goal with
    | |- context [insert_generation_error_log env ?r] =>
        destruct (insert_generation_error_log env r) as [data err | e]
    end; simpl; intros H; inversion H; subst; simpl.
    - exists []. rewrite app_nil_r. reflexivity.
    - eexists. rewrite <- app_assoc. reflexivity. }
  exists st'. eexists.
  split.
  - unfold generateFlashcards, bind, try_catch, Date_now, gets, throw.
    rewrite Htry.
    change (logGenerationError env) with
      (logGenerationError (with_error_log env (insert_generation_error_log env))).
    rewrite Hlog. reflexivity.
  - split.
    { unfold remapped_codes in Hcode. simpl in Hcode.
      destruct Hcode as [<- | [<- | [<- | [<- | []]]]]; simpl; discriminate. }
    split.
    { assert (Hin2 : In (mkConsoleEntry console_error
                           [Text ("[GenerationService] OpenRouter error ["
                                  ++ code_string code ++ "]:")%string;
                            Text message]) (console (world st2))).
      { unfold st2. simpl. apply in_or_app. right. left. reflexivity. }
      destruct Hcons as [-> | (more & ->)]; [exact Hin2 |].
      apply in_or_app. left. exact Hin2. }
    split; [exact Htl |].
    repeat split.
Qed.

End GenerationFacts.

(** C1, at a run where the model call succeeds, the insert of the generation
    row is refused, and the insert of the error-log row throws. *)
Lemma generateFlashcards_logs_then_rethrows_witness :
  let E := sample_env three_cards_endpoint store_down logged in
  let S0 := mkState generation_client world0 in
  try_generate E "source text" "user-1" (now (world S0)) S0
    = (Throw (Error "Error" "Failed to save generation metadata"),
       snd (try_generate E "source text" "user-1" (now (world S0)) S0)) /\
  exists st',
    generateFlashcards (with_error_log E (fun _ => store_throws)) "source text" "user-1" S0
      = (Throw (Error "Error" "Failed to save generation metadata"), st').
Proof.
  intros E S0.
  assert (H : try_generate E "source text" "user-1" (now (world S0)) S0
              = (Throw (Error "Error" "Failed to save generation metadata"),
                 snd (try_generate E "source text" "user-1" (now (world S0)) S0)))
    by (vm_compute; reflexivity).
  split; [exact H |].
  destruct (generateFlashcards_logs_then_rethrows E (fun _ => store_throws)
              "source text" "user-1" S0 _ _ H) as (st' & evs & row & Hrun & _).
  exists st'. exact Hrun.
Defined.

(** C4, at a reply of three cards. *)
Lemma callAIService_accepts_any_count_witness :
  let E := sample_env three_cards_endpoint (stored 7) logged in
  let S0 := mkState generation_client world0 in
  sendChatMessage E (Some (userMessage_for "source text")) S0
    = (Ok three_cards, snd (sendChatMessage E (Some (userMessage_for "source text")) S0)) /\
  Forall (fun c => card_strings c <> None) sample_cards /\
  exists proposals st2,
    callAIService E "source text" S0 = (Ok proposals, st2) /\
    List.length proposals = 3%nat.
Proof.
  intros E S0.
  assert (H : sendChatMessage E (Some (userMessage_for "source text")) S0
              = (Ok three_cards,
                 snd (sendChatMessage E (Some (userMessage_for "source text")) S0)))
    by (vm_compute; reflexivity).
  assert (Hc : Forall (fun c => card_strings c <> None) sample_cards)
    by (repeat constructor; discriminate).
  split; [exact H |]. split; [exact Hc |].
  destruct (callAIService_accepts_any_count E "source text" "user-1" S0 three_cards _
              [("flashcards", JArr sample_cards)] sample_cards H eq_refl eq_refl Hc)
    as (ps & st2 & Hcall & Hlen & _).
  exists ps, st2. split; [exact Hcall | exact Hlen].
Defined.

(** C4, as the claim has it, fails: when the decoded payload has an array
    [flashcards] whose one card has no back, reading [card.back.substring]
    raises a [TypeError]; [callAIService] returns no proposals and
    [generateFlashcards] fails, although the store would take the row. *)
Lemma callAIService_fails_on_untyped_card :
  let S0 := mkState generation_client world0 in
  let props := [("flashcards", JArr untyped_cards)] in
  let failure := TypeError "Cannot read properties of undefined (reading 'substring')" in
  sendChatMessage untyped_env (Some (userMessage_for "source text")) S0
    = (Ok (JObj props),
       snd (sendChatMessage untyped_env (Some (userMessage_for "source text")) S0)) /\
  lookup "flashcards" props = Some (JArr untyped_cards) /\
  (forall row, insert_generation untyped_env row = Reply (Some 7) None) /\
  fst (callAIService untyped_env "source text" S0) = Throw failure /\
  fst (generateFlashcards untyped_env "source text" "user-1" S0) = Throw failure /\
  ~ (exists proposals st2,
       callAIService untyped_env "source text" S0 = (Ok proposals, st2) /\
       List.length proposals = List.length untyped_cards).
Proof.
  intros S0 props failure.
  assert (Hcall : fst (callAIService untyped_env "source text" S0) = Throw failure)
    by (vm_compute; reflexivity).
  split; [vm_compute; reflexivity |].
  split; [reflexivity |].
  split; [intros row; reflexivity |].
  split; [exact Hcall |].
  split; [vm_compute; reflexivity |].
  intros (proposals & st2 & Hok & _). rewrite Hok in Hcall. discriminate Hcall.
Qed.

(** C8, where the code departs from it. Facing an endpoint that answers
    401, the client fails with AUTHENTICATION_ERROR and keeps that code in
    its metadata; the orchestrator raises the user-facing text; the only
    store call is the insert of an error-log row whose [error_code] is
    'Error': the classification does not reach the row. *)
Theorem error_log_row_loses_the_classification :
  let E := sample_env (unauthorized_endpoint (JObj [])) (stored 7) logged in
  let S0 := mkState generation_client world0 in
  let run := generateFlashcards E "source text" "user-1" S0 in
  let text := "AI service authentication failed. Please check your API key." in
  fst (sendChatMessage E (Some (userMessage_for "source text")) S0)
    = Throw (OpenRouterError "HTTP 401: Unauthorized" AUTHENTICATION_ERROR (Some 401)
               (Some (Value (JObj []))) false) /\
  fst run = Throw (Error "Error" text) /\
  filter (fun ev => negb (is_fetch ev)) (trace (world (snd run)))
    = [EvInsertErrorLog
         (ErrorLogInsert.mk "user-1" "Error" text MODEL_NAME (sample_hash "source text") 11)] /\
  code_string AUTHENTICATION_ERROR = "AUTHENTICATION_ERROR" /\
  option_map errorCode (lastRequestMetadata (openRouter (snd run)))
    = Some (Some AUTHENTICATION_ERROR).
Proof.
  vm_compute. repeat split.
Qed.

(** The remapping of a client failure, at the endpoint that answers 401. *)
Lemma remapped_failure_is_logged_by_name_witness :
  let E := sample_env (unauthorized_endpoint (JObj [])) (stored 7) logged in
  let S0 := mkState generation_client world0 in
  sendChatMessage E (Some (userMessage_for "source text")) S0
    = (Throw (OpenRouterError "HTTP 401: Unauthorized" AUTHENTICATION_ERROR (Some 401)
                (Some (Value (JObj []))) false),
       snd (sendChatMessage E (Some (userMessage_for "source text")) S0)) /\
  In AUTHENTICATION_ERROR remapped_codes /\
  exists st',
    generateFlashcards E "source text" "user-1" S0
      = (Throw (Error "Error" "AI service authentication failed. Please check your API key."),
         st').
Proof.
  intros E S0.
  assert (H : sendChatMessage E (Some (userMessage_for "source text")) S0
    = (Throw (OpenRouterError "HTTP 401: Unauthorized" AUTHENTICATION_ERROR (Some 401)
                (Some (Value (JObj []))) false),
       snd (sendChatMessage E (Some (userMessage_for "source text")) S0)))
    by (vm_compute; reflexivity).
  assert (Hin : In AUTHENTICATION_ERROR remapped_codes) by (simpl; auto).
  split; [exact H |]. split; [exact Hin |].
  destruct (remapped_failure_is_logged_by_name E "source text" "user-1" S0 _ _ _ _ _ _ H Hin)
    as (st' & row & Hrun & _).
  exists st'. exact Hrun.
Defined.

(** * Properties of the request schemas and of the flashcard writer *)

Section ValidationFacts.

Lemma generation_id_consistent_iff f :
  generation_id_consistent f = true <->
  source_matches_generation (FlashcardCreateDto.source f)
    (FlashcardCreateDto.generation_id f).
Proof.
  unfold generation_id_consistent, source_matches_generation.
  destruct (FlashcardCreateDto.source f), (FlashcardCreateDto.generation_id f);
    split; intros H; try reflexivity; try discriminate;
    try (split; [intros; congruence | intros [|]; congruence]).
  - destruct H as [_ H]. exfalso. apply H; auto.
  - destruct H as [_ H]. exfalso. apply H; auto.
  - destruct H as [H _]. discriminate (H eq_refl).
Qed.

Lemma merge_Valid_inv {A B C : Type} (f : A -> B -> C) ra rb c :
  merge f ra rb = Valid c ->
  exists a b, ra = Valid a /\ rb = Valid b /\ c = f a b.
Proof.
  destruct ra, rb; simpl; intros H; inversion H. eauto.
Qed.

Lemma merge_checked {A B C : Type} (f : A -> B -> C) a ia b ib :
  merge f (checked a ia) (checked b ib) = checked (f a b) (ia ++ ib).
Proof.
  destruct ia, ib; simpl; try reflexivity.
  rewrite app_nil_r. reflexivity.
Qed.

(** A flashcard that passes [flashcardCreateDtoSchema] satisfies the
    refinement. *)
Lemma flashcardCreateDtoSchema_Valid p v f :
  flashcardCreateDtoSchema p v = Valid f -> generation_id_consistent f = true.
Proof.
  unfold flashcardCreateDtoSchema, refine.
  destruct (flashcardCreateDtoObject p v) as [a | a issues | issues]; try discriminate.
  - destruct (generation_id_consistent a) eqn:Hc; intros H; inversion H; subst; exact Hc.
  - destruct (generation_id_consistent a); discriminate.
Qed.

Lemma z_items_Valid p :
  forall elements i l,
    z_items flashcardCreateDtoSchema p i elements = Valid l ->
    Forall (fun f => generation_id_consistent f = true) l.
Proof.
  induction elements as [| e rest IH]; intros i l H.
  - simpl in H. inversion H. constructor.
  - cbn [z_items] in H. apply merge_Valid_inv in H.
    destruct H as (a & b & Ha & Hb & ->).
    constructor.
    + exact (flashcardCreateDtoSchema_Valid _ _ _ Ha).
    + exact (IH _ _ Hb).
Qed.

(** Only batches of consistent flashcards pass
    [flashcardsCreateCommandSchema]. *)
Lemma safeParse_flashcards_success requestBody data :
  safeParse flashcardsCreateCommandSchema requestBody = ParseSuccess data ->
  flashcards data <> [] /\
  Forall (fun f => generation_id_consistent f = true) (flashcards data).
Proof.
  unfold safeParse, flashcardsCreateCommandSchema.
  destruct requestBody as [| | | | | props]; try discriminate.
  destruct (merge _ (Valid tt) _) as [a | |] eqn:Hm; try discriminate.
  intros H. inversion H; subst. clear H.
  apply merge_Valid_inv in Hm. destruct Hm as (u & l & _ & Hl & ->). simpl.
  unfold z_array_min1 in Hl.
  destruct (lookup "flashcards" props) as [[| | | | elements |] |]; try discriminate.
  apply merge_Valid_inv in Hl. destruct Hl as (u' & l' & Hmin & Hitems & ->).
  split.
  - destruct elements; [discriminate |].
    cbn [z_items] in Hitems. apply merge_Valid_inv in Hitems.
    destruct Hitems as (a & b & _ & _ & ->). discriminate.
  - exact (z_items_Valid _ _ _ _ Hitems).
Qed.

(** The parse of a flashcard of the declared type: never aborted, so that
    the refinement runs, whatever the lengths of front and back. *)
Lemma flashcardCreateDtoSchema_typed p f :
  exists issues,
    flashcardCreateDtoSchema p (Some (json_of_flashcard f))
      = checked (erase_user_id f) issues /\
    (generation_id_consistent f = false ->
     In (mkZodIssue (p ++ [Key "generation_id"]) refinement_message) issues).
Proof.
  destruct f as [front back src gid uid].
  exists ((if str_length front <? 1 then [mkZodIssue (p ++ [Key "front"]) "Front text is required"] else [])
          ++ (if str_length front >? 200
              then [mkZodIssue (p ++ [Key "front"]) "Front text cannot exceed 200 characters"]
              else [])
          ++ (if str_length back <? 1 then [mkZodIssue (p ++ [Key "back"]) "Back text is required"] else [])
          ++ (if str_length back >? 500
              then [mkZodIssue (p ++ [Key "back"]) "Back text cannot exceed 500 characters"]
              else [])
          ++ (if generation_id_consistent (FlashcardCreateDto.mk front back src gid uid)
              then []
              else [mkZodIssue (p ++ [Key "generation_id"]) refinement_message])).
  split.
  - unfold flashcardCreateDtoSchema, refine, flashcardCreateDtoObject, json_of_flashcard,
      z_string_min_max, erase_user_id, refinement_message.
    simpl.
    destruct (str_length front <? 1), (str_length front >? 200),
      (str_length back <? 1), (str_length back >? 500);
      destruct src, gid; reflexivity.
  - intros Hc. rewrite Hc. repeat (apply in_or_app; right). left. reflexivity.
Qed.

Lemma z_items_typed p :
  forall batch i0,
    exists issues,
      z_items flashcardCreateDtoSchema p i0 (map json_of_flashcard batch)
        = checked (map erase_user_id batch) issues /\
      forall i f,
        nth_error batch i = Some f ->
        generation_id_consistent f = false ->
        In (mkZodIssue ((p ++ [Index (i0 + i)]) ++ [Key "generation_id"]) refinement_message)
           issues.
Proof.
  induction batch as [| f batch IH]; intros i0.
  - exists []. split; [reflexivity |]. intros [| i] g H; discriminate.
  - destruct (flashcardCreateDtoSchema_typed (p ++ [Index i0]) f) as (is1 & H1 & Hin1).
    destruct (IH (S i0)) as (is2 & H2 & Hin2).
    exists (is1 ++ is2). split.
    + cbn [map z_items]. rewrite H1, H2. apply merge_checked.
    + intros [| i] g Hnth Hc; simpl in Hnth.
      * inversion Hnth; subst. rewrite Nat.add_0_r.
        apply in_or_app. left. exact (Hin1 Hc).
      * apply in_or_app. right.
        replace (i0 + S i)%nat with (S i0 + i)%nat by lia.
        exact (Hin2 i g Hnth Hc).
Qed.

(** A batch of typed flashcards with an inconsistent one at index [i] is
    rejected with the issue of the refinement at that flashcard's
    [generation_id]. *)
Lemma safeParse_flashcards_inconsistent batch i f :
  nth_error batch i = Some f ->
  generation_id_consistent f = false ->
  exists errors,
    safeParse flashcardsCreateCommandSchema (json_of_command batch) = ParseFailure errors /\
    In (generation_id_issue i) errors.
Proof.
  intros Hnth Hc.
  destruct (z_items_typed ([] ++ [Key "flashcards"]) batch 0) as (issues & Hitems & Hin).
  specialize (Hin i f Hnth Hc). simpl in Hin.
  exists ((match map json_of_flashcard batch with
           | [] => [mkZodIssue [Key "flashcards"] "At least one flashcard is required"]
           | _ => []
           end) ++ issues).
  assert (Hin' : In (generation_id_issue i)
                   ((match map json_of_flashcard batch with
                     | [] => [mkZodIssue [Key "flashcards"] "At least one flashcard is required"]
                     | _ => []
                     end) ++ issues)).
  { apply in_or_app. right. exact Hin. }
  split; [| exact Hin'].
  unfold safeParse, flashcardsCreateCommandSchema, json_of_command, z_array_min1.
  cbn [lookup String.eqb Ascii.eqb Bool.eqb].
  simpl lookup. rewrite Hitems.
  rewrite merge_checked.
  change (Valid tt) with (checked tt (@nil ZodIssue)).
  rewrite merge_checked. simpl app at 1.
  destruct ((match map json_of_flashcard batch with
             | [] => [mkZodIssue ([] ++ [Key "flashcards"]) "At least one flashcard is required"]
             | _ => []
             end) ++ issues) eqn:Hiss.
  - simpl in Hin'. simpl in Hiss. rewrite Hiss in Hin'. destruct Hin'.
  - simpl. simpl in Hiss. rewrite Hiss. reflexivity.
Qed.

End ValidationFacts.

Section WriterFacts.

Variable env : Env.

(** [createFlashcards] makes at most one store call: the insert of the
    batch with [user_id] set to [userId] on every row. *)
Lemma createFlashcards_events batch userId w res w' :
  createFlashcards env batch userId w = (res, w') ->
  gained w w' [] \/
  gained w w' [EvInsertFlashcards (map (to_insert userId) batch)].
Proof.
  unfold createFlashcards, gained.
  destruct batch as [| f batch].
  - unfold throw. intros H. inversion H; subst. left. rewrite app_nil_r. reflexivity.
  - unfold bind, store_call, throw, ret, console_log, modify.
    destruct (insert_flashcards env (map (to_insert userId) (f :: batch)))
      as [[[| d data] |] [err |] | e];
      simpl; intros H; inversion H; subst; right; reflexivity.
Qed.

Lemma to_insert_erase userId f :
  to_insert userId (erase_user_id f) = to_insert userId f.
Proof. reflexivity. Qed.

Lemma map_to_insert_erase userId batch :
  map (to_insert userId) (map erase_user_id batch) = map (to_insert userId) batch.
Proof.
  rewrite map_map. apply map_ext. intros f. apply to_insert_erase.
Qed.

(** C7. Every row [createFlashcards] inserts has [user_id] equal to the
    [userId] of the caller, whatever [user_id] the flashcards of the input
    carry; and two batches that differ only in the [user_id] their
    flashcards carry lead to the same insert and the same result. *)
Theorem createFlashcards_forces_user_id batch userId w :
  (forall res w',
     createFlashcards env batch userId w = (res, w') ->
     exists evs,
       gained w w' evs /\
       forall rows, In (EvInsertFlashcards rows) evs ->
                    rows = map (to_insert userId) batch /\
                    Forall (fun r => FlashcardInsert.user_id r = userId) rows) /\
  (forall batch',
     map erase_user_id batch' = map erase_user_id batch ->
     createFlashcards env batch' userId w = createFlashcards env batch userId w).
Proof.
  split.
  - intros res w' Hrun.
    assert (Hrows : Forall (fun r => FlashcardInsert.user_id r = userId)
                      (map (to_insert userId) batch)).
    { apply Forall_forall. intros r Hin. apply in_map_iff in Hin.
      destruct Hin as (f & <- & _). reflexivity. }
    destruct (createFlashcards_events _ _ _ _ _ Hrun) as [Hg | Hg].
    + exists []. split; [exact Hg |]. intros rows [].
    + eexists. split; [exact Hg |].
      intros rows [Hin | []]. inversion Hin; subst. split; [reflexivity | exact Hrows].
  - intros batch' Hsame.
    assert (Hrows : map (to_insert userId) batch' = map (to_insert userId) batch).
    { rewrite <- (map_to_insert_erase userId batch'), <- (map_to_insert_erase userId batch).
      rewrite Hsame. reflexivity. }
    unfold createFlashcards.
    destruct batch' as [| f' batch'], batch as [| f batch]; try discriminate.
    + reflexivity.
    + rewrite Hrows. reflexivity.
Qed.

(** The handler of flashcard creation touches the store only after the
    request passed validation, and then with rows built from the validated
    flashcards. *)
Lemma POST_flashcards_events locals_user requestJson w resp w' :
  POST_flashcards env locals_user requestJson w = (resp, w') ->
  gained w w' [] \/
  exists requestBody data u,
    requestJson = Resolves requestBody /\
    safeParse flashcardsCreateCommandSchema requestBody = ParseSuccess data /\
    gained w w' [EvInsertFlashcards (map (to_insert u) (flashcards data))].
Proof.
  unfold POST_flashcards.
  assert (Hnil : gained w w []) by (unfold gained; rewrite app_nil_r; reflexivity).
  destruct locals_user as [u |]; [| intros H; inversion H; subst; left; exact Hnil].
  destruct requestJson as [requestBody | e]; [| intros H; inversion H; subst; left; exact Hnil].
  destruct (safeParse flashcardsCreateCommandSchema requestBody) as [data | errors] eqn:Hv;
    [| intros H; inversion H; subst; left; exact Hnil].
  destruct (createFlashcards env (flashcards data) (id u) w) as [[created | e] w1] eqn:Hc;
    intros H; inversion H; subst;
    destruct (createFlashcards_events _ _ _ _ _ Hc) as [Hg | Hg].
  - left. exact Hg.
  - right. exists requestBody, data, (id u). repeat split; assumption.
  - left. exact Hg.
  - right. exists requestBody, data, (id u). repeat split; assumption.
Qed.

(** C3. (1) A flashcard-create request passes validation only if every
    flashcard of the batch satisfies the invariant. (2) A batch with a
    flashcard that violates it (manual with a generation, or AI without
    one) is rejected with an issue at that flashcard's [generation_id], and
    the handler answers without touching the world: no persistence call
    was made. (3) So every row the handler inserts satisfies the
    invariant. *)
Theorem flashcard_validation_guards_invariant :
  (forall requestBody data,
     safeParse flashcardsCreateCommandSchema requestBody = ParseSuccess data ->
     Forall (fun f => source_matches_generation (FlashcardCreateDto.source f)
                        (FlashcardCreateDto.generation_id f))
            (flashcards data)) /\
  (forall batch i f,
     nth_error batch i = Some f ->
     ~ source_matches_generation (FlashcardCreateDto.source f)
         (FlashcardCreateDto.generation_id f) ->
     exists errors,
       safeParse flashcardsCreateCommandSchema (json_of_command batch)
         = ParseFailure errors /\
       In (generation_id_issue i) errors /\
       forall locals_user w,
         snd (POST_flashcards env locals_user (Resolves (json_of_command batch)) w) = w) /\
  (forall locals_user requestJson w resp w',
     POST_flashcards env locals_user requestJson w = (resp, w') ->
     exists evs,
       gained w w' evs /\
       forall rows, In (EvInsertFlashcards rows) evs -> Forall row_invariant rows).
Proof.
  split; [| split].
  - intros requestBody data Hv.
    destruct (safeParse_flashcards_success _ _ Hv) as [_ Hall].
    eapply Forall_impl; [| exact Hall].
    intros f Hf. apply generation_id_consistent_iff. exact Hf.
  - intros batch i f Hnth Hbad.
    assert (Hc : generation_id_consistent f = false).
    { destruct (generation_id_consistent f) eqn:Hc; [| reflexivity].
      exfalso. apply Hbad. apply generation_id_consistent_iff. exact Hc. }
    destruct (safeParse_flashcards_inconsistent batch i f Hnth Hc) as (errors & Hv & Hin).
    exists errors. split; [exact Hv |]. split; [exact Hin |].
    intros locals_user w. unfold POST_flashcards.
    destruct locals_user; [| reflexivity]. rewrite Hv. reflexivity.
  - intros locals_user requestJson w resp w' Hrun.
    destruct (POST_flashcards_events _ _ _ _ _ Hrun)
      as [Hg | (requestBody & data & u & _ & Hv & Hg)].
    + exists []. split; [exact Hg |]. intros rows [].
    + eexists. split; [exact Hg |].
      intros rows [Hin | []]. inversion Hin; subst.
      destruct (safeParse_flashcards_success _ _ Hv) as [_ Hall].
      apply Forall_forall. intros r Hr. apply in_map_iff in Hr.
      destruct Hr as (f & <- & Hf).
      rewrite Forall_forall in Hall. specialize (Hall f Hf).
      apply generation_id_consistent_iff in Hall. exact Hall.
Qed.

(** C5. For a generation request whose [source_text] is the string [s]:
    validation fails exactly when the length of [s] is outside
    [1000, 10000], and passes otherwise; a failure is a single issue at the
    field [source_text] with the reason in words; and on a failure the
    handler answers (400 when a user is logged in) without touching the
    world, so no call of the model was attempted. *)
Theorem generation_request_validation props s :
  lookup "source_text" props = Some (JStr s) ->
  let requestBody := JObj props in
  ((exists errors,
      safeParse generateFlashcardsCommandSchema requestBody = ParseFailure errors)
   <-> (str_length s < 1000 \/ 10000 < str_length s)) /\
  (1000 <= str_length s <= 10000 ->
   safeParse generateFlashcardsCommandSchema requestBody
     = ParseSuccess (mkGenerateFlashcardsCommand s)) /\
  (forall errors,
     safeParse generateFlashcardsCommandSchema requestBody = ParseFailure errors ->
     (errors = [mkZodIssue [Key "source_text"]
                  "Source text must be at least 1000 characters long"] \/
      errors = [mkZodIssue [Key "source_text"]
                  "Source text cannot exceed 10000 characters"]) /\
     forall locals_user w,
       snd (POST_generations env locals_user (Resolves requestBody) w) = w /\
       (locals_user <> None ->
        fst (POST_generations env locals_user (Resolves requestBody) w)
          = validation_error_response errors)).
Proof.
  intros Hs requestBody.
  assert (Hparse :
    safeParse generateFlashcardsCommandSchema requestBody =
      if str_length s <? 1000 then
        ParseFailure [mkZodIssue [Key "source_text"]
                        "Source text must be at least 1000 characters long"]
      else if str_length s >? 10000 then
        ParseFailure [mkZodIssue [Key "source_text"]
                        "Source text cannot exceed 10000 characters"]
      else ParseSuccess (mkGenerateFlashcardsCommand s)).
  { unfold requestBody, safeParse, generateFlashcardsCommandSchema, z_string_min_max.
    rewrite Hs.
    destruct (str_length s <? 1000) eqn:Hlo, (str_length s >? 10000) eqn:Hhi;
      try reflexivity.
    apply Z.ltb_lt in Hlo. apply Z.gtb_lt in Hhi. lia. }
  split; [| split].
  - rewrite Hparse. split.
    + intros (errors & H).
      destruct (str_length s <? 1000) eqn:Hlo; [apply Z.ltb_lt in Hlo; lia |].
      destruct (str_length s >? 10000) eqn:Hhi; [apply Z.gtb_lt in Hhi; lia |].
      discriminate.
    + intros [Hlt | Hgt].
      * replace (str_length s <? 1000) with true by (symmetry; apply Z.ltb_lt; lia).
        eexists. reflexivity.
      * replace (str_length s >? 10000) with true by (symmetry; apply Z.gtb_lt; lia).
        destruct (str_length s <? 1000); eexists; reflexivity.
  - intros [Hlo Hhi]. rewrite Hparse.
    replace (str_length s <? 1000) with false by (symmetry; apply Z.ltb_ge; lia).
    replace (str_length s >? 10000) with false
      by (symmetry; rewrite Z.gtb_ltb; apply Z.ltb_ge; lia).
    reflexivity.
  - intros errors Hfail.
    split.
    + rewrite Hparse in Hfail.
      destruct (str_length s <? 1000); [inversion Hfail; auto |].
      destruct (str_length s >? 10000); [inversion Hfail; auto | discriminate].
    + intros locals_user w. unfold POST_generations.
      destruct locals_user as [u |].
      * rewrite Hfail. split; [reflexivity |]. intros _. reflexivity.
      * split; [reflexivity |]. intros H. congruence.
Qed.

End WriterFacts.

(** C2, where the code departs from it. Facing an endpoint that always
    answers 401 with the body [null], reading [errorData.error] raises a
    [TypeError] inside the [try] block; the [catch] block takes it for a
    transport failure: the client makes four attempts and raises
    NETWORK_ERROR, flagged retryable. *)
Theorem unauthorized_with_null_body_is_retried :
  let E := sample_env (unauthorized_endpoint JNull) (stored 7) logged in
  let run := executeRequest E sample_payload (mkState (sample_client None) world0) in
  fst run =
    Throw (OpenRouterError "Network error: Cannot read properties of null (reading 'error')"
             NETWORK_ERROR None
             (Some (TypeError "Cannot read properties of null (reading 'error')")) true) /\
  fetch_count (trace (world (snd run))) = 4%nat /\
  filter (fun ev => negb (is_fetch ev)) (trace (world (snd run)))
    = [EvSleep 1000; EvSleep 2000; EvSleep 4000].
Proof.
  vm_compute. repeat split.
Qed.

(** C9, where the code departs from it. A call that succeeds on its third
    attempt (two answers 429, then a completion) leaves metadata whose
    [attempt] is 1. *)
Theorem third_attempt_is_recorded_as_first :
  let E := sample_env flaky_endpoint (stored 7) logged in
  let run := sendChatMessage E (Some "hello?") (mkState (sample_client None) world0) in
  fst run = Ok (JStr "hello") /\
  fetch_count (trace (world (snd run))) = 3%nat /\
  option_map attempt (lastRequestMetadata (openRouter (snd run))) = Some 1 /\
  option_map success (lastRequestMetadata (openRouter (snd run))) = Some true.
Proof.
  vm_compute. repeat split.
Qed.

(** C3, at a batch whose second flashcard is manual with a generation. *)
Lemma flashcard_validation_guards_invariant_witness :
  let batch :=
    [FlashcardCreateDto.mk "front" "back" ai_full (Some 7) None;
     FlashcardCreateDto.mk "front" "back" manual (Some 7) None] in
  nth_error batch 1 = Some (FlashcardCreateDto.mk "front" "back" manual (Some 7) None) /\
  ~ source_matches_generation manual (Some 7) /\
  exists errors,
    safeParse flashcardsCreateCommandSchema (json_of_command batch) = ParseFailure errors /\
    In (generation_id_issue 1) errors.
Proof.
  intros batch.
  assert (Hn : nth_error batch 1
               = Some (FlashcardCreateDto.mk "front" "back" manual (Some 7) None))
    by reflexivity.
  assert (Hbad : ~ source_matches_generation manual (Some 7)).
  { intros [H _]. discriminate (H eq_refl). }
  split; [exact Hn |]. split; [exact Hbad |].
  destruct (proj1 (proj2 (flashcard_validation_guards_invariant
                            (sample_env busy_endpoint (stored 1) logged)))
              batch 1%nat _ Hn Hbad) as (errors & Hv & Hin & _).
  exists errors. split; [exact Hv | exact Hin].
Defined.

(** C5, at a source text of 999 characters. *)
Lemma generation_request_validation_witness :
  let props := [("source_text", JStr (repeat_string "a" 999))] in
  lookup "source_text" props = Some (JStr (repeat_string "a" 999)) /\
  exists errors,
    safeParse generateFlashcardsCommandSchema (JObj props) = ParseFailure errors.
Proof.
  intros props.
  assert (H : lookup "source_text" props = Some (JStr (repeat_string "a" 999)))
    by reflexivity.
  split; [exact H |].
  apply (proj1 (generation_request_validation
                  (sample_env busy_endpoint (stored 1) logged) props _ H)).
  left. vm_compute. reflexivity.
Defined.

(** C7, at two batches that differ in the [user_id] their flashcard
    carries. *)
Lemma createFlashcards_forces_user_id_witness :
  let E := sample_env busy_endpoint (stored 1) logged in
  let honest := [FlashcardCreateDto.mk "front" "back" manual None None] in
  let spoofed := [FlashcardCreateDto.mk "front" "back" manual None (Some "someone-else")] in
  map erase_user_id spoofed = map erase_user_id honest /\
  createFlashcards E spoofed "user-1" world0 = createFlashcards E honest "user-1" world0.
Proof.
  intros E honest spoofed.
  assert (H : map erase_user_id spoofed = map erase_user_id honest) by reflexivity.
  split; [exact H |].
  exact (proj2 (createFlashcards_forces_user_id E honest "user-1" world0) spoofed H).
Defined.

(** * Sample runs of the handlers *)

(** A request with a manual flashcard that names a generation is answered
    400, with the issue at [flashcards.1.generation_id], and nothing is
    stored. *)
Example POST_flashcards_rejects_inconsistent_batch :
  POST_flashcards (sample_env busy_endpoint (stored 1) logged)
    (Some (mkUser "user-1" None))
    (Resolves (json_of_command
                 [FlashcardCreateDto.mk "front" "back" ai_full (Some 7) None;
                  FlashcardCreateDto.mk "front" "back" manual (Some 7) None]))
    world0
  = (mkHttpResponse 400
       (JObj [("error", JStr "Validation Error");
              ("message", JStr "Invalid request data");
              ("details",
               JArr [JObj [("field", JStr "flashcards.1.generation_id");
                           ("message", JStr refinement_message)]])]),
     world0).
Proof. vm_compute. reflexivity. Qed.

(** A source text of 1000 characters passes validation; with three cards
    returned by the model and the generation row stored under id 7, the
    answer is 201 with three proposals, after one call of the endpoint and
    one insert. *)
Example POST_generations_three_cards :
  let run :=
    POST_generations (sample_env three_cards_endpoint (stored 7) logged)
      (Some (mkUser "user-1" None))
      (Resolves (JObj [("source_text", JStr (repeat_string "x" 1000))]))
      world0 in
  response_status (fst run) = 201 /\
  get_prop_opt (Some (response_body (fst run))) "generated_count" = Some (JNum 3) /\
  map (fun ev => match ev with
                 | EvFetch _ _ _ => "fetch"
                 | EvSleep _ => "sleep"
                 | EvInsertGeneration _ => "insert generation"
                 | EvInsertErrorLog _ => "insert error log"
                 | EvInsertFlashcards _ => "insert flashcards"
                 end) (trace (snd run))
  = ["fetch"; "insert generation"].
Proof. vm_compute. repeat split. Qed.

(** A source text of 999 characters is answered 400 at [source_text]
    without any effect. *)
Example POST_generations_short_text :
  POST_generations (sample_env three_cards_endpoint (stored 7) logged)
    (Some (mkUser "user-1" None))
    (Resolves (JObj [("source_text", JStr (repeat_string "x" 999))]))
    world0
  = (mkHttpResponse 400
       (JObj [("error", JStr "Validation Error");
              ("message", JStr "Invalid request data");
              ("details",
               JArr [JObj [("field", JStr "source_text");
                           ("message",
                            JStr "Source text must be at least 1000 characters long")]])]),
     world0).
Proof. vm_compute. reflexivity. Qed.

(** * Further properties of the remote model client *)

Section ClientMore.

Variable env : Env.

(** X1. The client cannot be built without a key: the constructor raises
    MISSING_API_KEY exactly when neither the configuration nor the
    environment gives a non-empty key; otherwise the key of the
    configuration is used, and that of the environment only when the
    configuration gives none. *)
Theorem new_OpenRouterService_needs_key config :
  let configured := OpenRouterConfig.apiKey config in
  let inherited := OPENROUTER_API_KEY env in
  (((configured = None \/ configured = Some "") /\
    (inherited = None \/ inherited = Some ""))
   <-> exists message,
         new_OpenRouterService env config
           = Throw (OpenRouterError message MISSING_API_KEY None None false)) /\
  (forall s,
     new_OpenRouterService env config = Ok s ->
     apiKey s <> "" /\
     (forall key, configured = Some key -> key <> "" -> apiKey s = key) /\
     (configured = None \/ configured = Some "" -> inherited = Some (apiKey s))).
Proof.
  intros configured inherited. unfold new_OpenRouterService.
  fold configured. fold inherited.
  destruct configured as [[| c k] |], inherited as [[| c' k'] |]; simpl;
    (split;
     [ split;
       [ intros [[H | H] [H' | H']]; try discriminate; eexists; reflexivity
       | intros [m H]; try discriminate; auto ]
     | intros s H; try discriminate; inversion H; subst; simpl;
       (split; [discriminate |]);
       (split; [intros key Hk Hne; try discriminate; inversion Hk; subst; congruence |]);
       intros [Hc | Hc]; try discriminate; reflexivity ]).
Qed.

(** X2. Without a message (none given or an empty one, and none set on the
    client) [sendChatMessage] raises MISSING_USER_MESSAGE without calling
    the endpoint: the world is untouched, and the metadata records the
    failure. *)
Theorem sendChatMessage_without_message userMessage st :
  userMessage = None \/ userMessage = Some "" ->
  currentUserMessage (openRouter st) = "" ->
  exists message st' m,
    sendChatMessage env userMessage st
      = (Throw (OpenRouterError message MISSING_USER_MESSAGE None None false), st') /\
    world st' = world st /\
    lastRequestMetadata (openRouter st') = Some m /\
    success m = false /\
    errorCode m = Some MISSING_USER_MESSAGE.
Proof.
  intros Hum Hcur.
  unfold sendChatMessage, bind, try_catch, Date_now, gets, throw, ret,
    setLastRequestMetadata, update_service, modify.
  simpl. rewrite Hcur.
  destruct Hum as [-> | ->]; simpl;
    eexists; eexists; eexists; repeat split.
Qed.

(** The attempt loop calls the endpoint with one and the same request, and
    the clock advances at least by the sleeps it asks for when no call
    takes negative time. *)
Lemma for_attempts_requests s payload :
  forall todo le st res st',
    openRouter st = s ->
    for_attempts env s payload le todo st = (res, st') ->
    exists evs,
      trace (world st') = trace (world st) ++ evs /\
      Forall (fun ev => ev = fetch_event s payload \/ exists d, ev = EvSleep d) evs /\
      ((forall n, 0 <= took (fetch_outcome env n)) ->
       now (world st) + total_sleep evs <= now (world st')).
Proof.
  induction todo as [| a todo IH]; intros le st res st' Hs Hrun.
  - cbn [for_attempts] in Hrun. unfold throw in Hrun. inversion Hrun; subst.
    exists []. rewrite app_nil_r. repeat split; [constructor | simpl; lia].
  - cbn [for_attempts] in Hrun. unfold bind in Hrun.
    rewrite (attempt_body_spec env s payload a st Hs) in Hrun. cbv zeta in Hrun.
    assert (Hone :
      exists evs,
        trace (world (mkState s (after_fetch env s payload (world st))))
          = trace (world st) ++ evs /\
        Forall (fun ev => ev = fetch_event s payload \/ exists d, ev = EvSleep d) evs /\
        ((forall n, 0 <= took (fetch_outcome env n)) ->
         now (world st) + total_sleep evs
         <= now (world (mkState s (after_fetch env s payload (world st)))))).
    { exists [fetch_event s payload]. split; [reflexivity |].
      split; [repeat constructor |].
      intros Htook. simpl. specialize (Htook (fetched (world st))). lia. }
    destruct (attempt_outcome (fetch_outcome env (fetched (world st)))) as [data | e].
    + unfold ret in Hrun. inversion Hrun; subst. exact Hone.
    + destruct (retryable_failure e && (a <? maxRetries s)).
      * apply IH in Hrun; [| reflexivity].
        destruct Hrun as (evs & Ht & Hev & Hnow).
        exists ([fetch_event s payload; EvSleep (backoff s a)] ++ evs).
        split; [rewrite Ht; simpl; rewrite <- !app_assoc; reflexivity |].
        split.
        -- constructor; [left; reflexivity |].
           constructor; [right; eexists; reflexivity | exact Hev].
        -- intros Htook. specialize (Hnow Htook). simpl in Hnow |- *.
           specialize (Htook (fetched (world st))). lia.
      * inversion Hrun; subst. exact Hone.
Qed.

(** X3. Every call of the endpoint that one [sendChatMessage] makes goes to
    [baseUrl/chat/completions] with the key of the client as bearer and
    carries the same request: the model and parameters set on the client,
    the system message (if one is set) followed by the message to send,
    and the JSON response format if it is enabled. *)
Theorem sendChatMessage_sends_one_request userMessage st res st' :
  sendChatMessage env userMessage st = (res, st') ->
  let s := openRouter st in
  exists evs,
    gained (world st) (world st') evs /\
    forall url bearer payload,
      In (EvFetch url bearer payload) evs ->
      url = (baseUrl s ++ "/chat/completions")%string /\
      bearer = apiKey s /\
      payload_model payload = currentModelName s /\
      payload_parameters payload = currentModelParameters s /\
      payload_response_format payload = currentResponseFormat s /\
      payload_messages payload =
        (if (currentSystemMessage s =? "")%string then []
         else [mkChatMessage system (currentSystemMessage s)])
        ++ [mkChatMessage user (messageToSend userMessage s)].
Proof.
  intros Hrun s. unfold gained.
  set (P := fun (m : string) (evs : list Event) =>
              forall url bearer payload,
                In (EvFetch url bearer payload) evs ->
                url = (baseUrl s ++ "/chat/completions")%string /\
                bearer = apiKey s /\
                payload_model payload = currentModelName s /\
                payload_parameters payload = currentModelParameters s /\
                payload_response_format payload = currentResponseFormat s /\
                payload_messages payload =
                  (if (currentSystemMessage s =? "")%string then []
                   else [mkChatMessage system (currentSystemMessage s)])
                  ++ [mkChatMessage user m]).
  change (exists evs,
            trace (world st') = trace (world st) ++ evs /\
            P (messageToSend userMessage s) evs).
  assert (Hnil : forall m, exists evs,
             trace (world st) = trace (world st) ++ evs /\ P m evs).
  { intros m. exists []. rewrite app_nil_r. split; [reflexivity |]. intros ? ? ? []. }
  revert Hrun.
  unfold sendChatMessage, bind, try_catch, Date_now, gets, throw, ret, lift,
    setLastRequestMetadata, update_service, modify.
  simpl. fold s. unfold messageToSend.
  destruct (or_string userMessage (Some (currentUserMessage s))) as [[| c msg] |]; simpl.
  - intros H. inversion H; subst. apply Hnil.
  - destruct (executeRequest env (buildRequestPayload s (String c msg)) st)
      as [r st1] eqn:Hexec.
    unfold executeRequest, bind, gets in Hexec. fold s in Hexec.
    apply (for_attempts_requests s) in Hexec; [| reflexivity].
    destruct Hexec as (evs & Ht & Hev & _).
    assert (Hevs : P (String c msg) evs).
    { intros url bearer payload Hin.
      rewrite Forall_forall in Hev. destruct (Hev _ Hin) as [Heq | [d Heq]];
        [| discriminate].
      unfold fetch_event in Heq. inversion Heq; subst. repeat split. }
    destruct r as [response | e]; simpl.
    + destruct (parseResponse env s response); simpl;
        intros H; inversion H; subst; simpl; exists evs; split; assumption.
    + intros H; inversion H; subst; simpl; exists evs; split; assumption.
  - intros H. inversion H; subst. apply Hnil.
Qed.

(** A first attempt that succeeds ends the call: one call of the endpoint,
    no sleep. *)
Lemma executeRequest_first_success payload st data :
  let s := openRouter st in
  0 <= maxRetries s ->
  attempt_outcome (fetch_outcome env (fetched (world st))) = Ok data ->
  exists st',
    executeRequest env payload st = (Ok data, st') /\
    openRouter st' = s /\
    trace (world st') = trace (world st) ++ [fetch_event s payload].
Proof.
  intros s Hmax Ho.
  destruct (executeRequest_run env payload st Hmax)
    as (j & res & st' & Hrun & _ & Hs' & _ & Ht & _ & Hall & Hend).
  destruct j as [| j].
  - rewrite Nat.add_0_r, Ho in Hend. subst res.
    exists st'. repeat split; assumption.
  - destruct (Hall 0%nat ltac:(lia)) as (e' & He' & _).
    rewrite Nat.add_0_r, Ho in He'. discriminate.
Qed.

End ClientMore.

Section ClientBackoff.

Variable env : Env.

Lemma total_sleep_schedule s payload :
  forall k a rest,
    total_sleep (schedule_from s payload a k ++ rest)
    = retryDelay s * 2 ^ Z.of_nat a * (2 ^ Z.of_nat k - 1) + total_sleep rest.
Proof.
  unfold schedule_from.
  induction k as [| k IH]; intros a rest.
  - simpl. lia.
  - cbn [seq flat_map app total_sleep fetch_event].
    rewrite IH. rewrite !Nat2Z.inj_succ, !Z.pow_succ_r by lia. ring.
Qed.

(** X4. The sleeps of one [executeRequest] add up to
    [retryDelay * (2^k - 1)], where [k] is the number of retries (one less
    than the number of calls of the endpoint); with a delay that is not
    negative this is at most [retryDelay * (2^maxRetries - 1)]: 7 seconds
    for the default configuration. *)
Theorem executeRequest_total_backoff payload st :
  let s := openRouter st in
  0 <= maxRetries s ->
  0 <= retryDelay s ->
  exists res st' evs (k : nat),
    executeRequest env payload st = (res, st') /\
    gained (world st) (world st') evs /\
    fetch_count evs = S k /\
    total_sleep evs = retryDelay s * (2 ^ Z.of_nat k - 1) /\
    total_sleep evs <= retryDelay s * (2 ^ maxRetries s - 1).
Proof.
  intros s Hmax Hdelay.
  destruct (executeRequest_run env payload st Hmax)
    as (k & res & st' & Hrun & Hk & _ & _ & Ht & _).
  fold s in Hk, Ht.
  exists res, st', (schedule_from s payload 0 k ++ [fetch_event s payload]), k.
  split; [exact Hrun |]. split; [exact Ht |].
  split.
  { rewrite fetch_count_schedule.
    change (fetch_count [fetch_event s payload]) with 1%nat. lia. }
  assert (Hsum : total_sleep (schedule_from s payload 0 k ++ [fetch_event s payload])
                 = retryDelay s * (2 ^ Z.of_nat k - 1)).
  { rewrite total_sleep_schedule. simpl. ring. }
  split; [exact Hsum |].
  rewrite Hsum. apply Z.mul_le_mono_nonneg_l; [exact Hdelay |].
  assert (2 ^ Z.of_nat k <= 2 ^ maxRetries s) by (apply Z.pow_le_mono_r; lia).
  lia.
Qed.

(** X5. An endpoint whose calls all time out is called [maxRetries + 1]
    times; the client then raises TIMEOUT_ERROR, flagged retryable, with the
    configured timeout in its message and the abort error as its cause. *)
Theorem executeRequest_exhausts_on_timeouts payload st :
  let s := openRouter st in
  0 <= maxRetries s ->
  (forall n, exists ms message,
      fetch_outcome env n = mkFetchOutcome ms (Rejected (Error "AbortError" message))) ->
  exists abort st' evs,
    executeRequest env payload st
      = (Throw (OpenRouterError
                  ("Request timed out after " ++ string_of_Z (timeout s) ++ "ms")
                  TIMEOUT_ERROR None (Some (Error "AbortError" abort)) true),
         st') /\
    gained (world st) (world st') evs /\
    Z.of_nat (fetch_count evs) = maxRetries s + 1 /\
    evs = schedule_from s payload 0 (Z.to_nat (maxRetries s)) ++ [fetch_event s payload].
Proof.
  intros s Hmax Hall.
  destruct (executeRequest_run env payload st Hmax)
    as (k & res & st' & Hrun & Hk & _ & _ & Ht & _ & _ & Hend).
  fold s in Hk, Ht, Hend.
  destruct (Hall (fetched (world st) + k)%nat) as (ms & abort & Ho).
  unfold attempt_outcome in Hend. rewrite Ho in Hend. simpl in Hend.
  destruct Hend as [Hres Hlast]. specialize (Hlast eq_refl).
  exists abort, st', (schedule_from s payload 0 k ++ [fetch_event s payload]).
  split; [rewrite Hrun, Hres; reflexivity |].
  split; [exact Ht |].
  split.
  - rewrite fetch_count_schedule.
    change (fetch_count [fetch_event s payload]) with 1%nat. lia.
  - replace (Z.to_nat (maxRetries s)) with k by lia. reflexivity.
Qed.

(** X6. When the endpoint fails retryably on its first [n] calls
    ([n <= maxRetries]) and succeeds on the next, the client returns that
    success after [n + 1] calls, and, no call taking negative time, at least
    [retryDelay * (2^n - 1)] milliseconds have passed. *)
Theorem executeRequest_waits_out_failures payload st (n : nat) data :
  let s := openRouter st in
  Z.of_nat n <= maxRetries s ->
  (forall i, (i < n)%nat ->
     exists e,
       attempt_outcome (fetch_outcome env (fetched (world st) + i)) = Throw e /\
       retryable_failure e = true) ->
  attempt_outcome (fetch_outcome env (fetched (world st) + n)) = Ok data ->
  (forall i, 0 <= took (fetch_outcome env i)) ->
  exists st' evs,
    executeRequest env payload st = (Ok data, st') /\
    gained (world st) (world st') evs /\
    fetch_count evs = S n /\
    now (world st) + retryDelay s * (2 ^ Z.of_nat n - 1) <= now (world st').
Proof.
  intros s Hn Hfail Hok Htook.
  assert (Hmax : 0 <= maxRetries s) by lia.
  destruct (executeRequest_run env payload st Hmax)
    as (k & res & st' & Hrun & Hk & _ & _ & Ht & _ & Hall & Hend).
  fold s in Hk, Ht, Hend.
  assert (Hkn : k = n).
  { destruct (Nat.lt_trichotomy k n) as [Hlt | [Heq | Hgt]]; [| exact Heq |].
    - destruct (Hfail k Hlt) as (e & He & Hr).
      rewrite He in Hend. destruct Hend as [_ Hlast]. specialize (Hlast Hr). lia.
    - destruct (Hall n Hgt) as (e & He & _). rewrite Hok in He. discriminate. }
  subst k. rewrite Hok in Hend. subst res.
  exists st', (schedule_from s payload 0 n ++ [fetch_event s payload]).
  split; [exact Hrun |]. split; [exact Ht |].
  split.
  { rewrite fetch_count_schedule.
    change (fetch_count [fetch_event s payload]) with 1%nat. lia. }
  pose proof Hrun as Hrun'.
  unfold executeRequest, bind, gets in Hrun'. fold s in Hrun'.
  apply (for_attempts_requests env s) in Hrun'; [| reflexivity].
  destruct Hrun' as (evs & Ht' & _ & Hnow).
  specialize (Hnow Htook).
  assert (Hevs : evs = schedule_from s payload 0 n ++ [fetch_event s payload]).
  { rewrite Ht in Ht'. apply app_inv_head in Ht'. symmetry. exact Ht'. }
  rewrite Hevs, total_sleep_schedule in Hnow. simpl in Hnow.
  replace (retryDelay s * 1 * (2 ^ Z.of_nat n - 1) + 0)
    with (retryDelay s * (2 ^ Z.of_nat n - 1)) in Hnow by ring.
  exact Hnow.
Qed.


End ClientBackoff.

Section ClientParsing.

Variable env : Env.

Lemma parseResponse_completion s response text :
  completion_with response text ->
  parseResponse env s response =
    if (text =? "")%string then
      Throw (OpenRouterError "Invalid API response: empty content"
               EMPTY_RESPONSE None None false)
    else
      match currentResponseFormat s with
      | Some _ =>
          match JSON_parse env text with
          | Parsed v => Ok v
          | SyntaxError m =>
              Throw (OpenRouterError ("Failed to parse JSON response: " ++ m)
                       JSON_PARSE_ERROR None (Some (Error "SyntaxError" m)) false)
          end
      | None => Ok (JStr text)
      end.
Proof.
  intros (props & first & rest & mprops & -> & Hc & Hm & Ht).
  unfold parseResponse. simpl. rewrite Hc. simpl. rewrite Hm. simpl. rewrite Ht. simpl.
  destruct (text =? "")%string; reflexivity.
Qed.

(** X8. What [parseResponse] makes of a response: without choices (the
    field missing, or an empty array) it raises INVALID_RESPONSE; with a
    first choice of empty content, EMPTY_RESPONSE; otherwise, in JSON mode,
    it returns what [JSON.parse] makes of the content of the first choice
    and raises JSON_PARSE_ERROR when that fails, and out of JSON mode it
    returns the content as it is. None of these errors is retryable. *)
Theorem parseResponse_cases s response :
  (forall props,
     response = JObj props ->
     lookup "choices" props = None \/ lookup "choices" props = Some (JArr []) ->
     parseResponse env s response
       = Throw (OpenRouterError "Invalid API response: no choices returned"
                  INVALID_RESPONSE None None false)) /\
  (completion_with response "" ->
   parseResponse env s response
     = Throw (OpenRouterError "Invalid API response: empty content"
                EMPTY_RESPONSE None None false)) /\
  (forall text,
     completion_with response text -> text <> "" ->
     (currentResponseFormat s = None -> parseResponse env s response = Ok (JStr text)) /\
     (currentResponseFormat s <> None ->
      (forall v, JSON_parse env text = Parsed v -> parseResponse env s response = Ok v) /\
      (forall m, JSON_parse env text = SyntaxError m ->
                 parseResponse env s response
                 = Throw (OpenRouterError ("Failed to parse JSON response: " ++ m)
                            JSON_PARSE_ERROR None (Some (Error "SyntaxError" m)) false)))).
Proof.
  split; [| split].
  - intros props -> [Hc | Hc]; unfold parseResponse; simpl; rewrite Hc; reflexivity.
  - intros Hc. rewrite (parseResponse_completion s response "" Hc). reflexivity.
  - intros text Hc Hne.
    rewrite (parseResponse_completion s response text Hc).
    replace (text =? "")%string with false by (symmetry; apply String.eqb_neq; exact Hne).
    split.
    + intros ->. reflexivity.
    + intros Hfmt. destruct (currentResponseFormat s); [| congruence].
      split; intros ? ->; reflexivity.
Qed.

(** X9. A reply that cannot be used is not asked for again: when the first
    call of the endpoint yields a response body, [sendChatMessage] makes
    that one call only and ends as [parseResponse] does on the body, be it
    with a value or with an error. *)
Theorem sendChatMessage_parses_without_retry userMessage st data :
  let s := openRouter st in
  0 <= maxRetries s ->
  messageToSend userMessage s <> "" ->
  attempt_outcome (fetch_outcome env (fetched (world st))) = Ok data ->
  exists st',
    sendChatMessage env userMessage st = (parseResponse env s data, st') /\
    gained (world st) (world st')
      [fetch_event s (buildRequestPayload s (messageToSend userMessage s))].
Proof.
  intros s Hmax Hmsg Ho.
  unfold sendChatMessage, bind, try_catch, Date_now, gets, throw, ret, lift,
    setLastRequestMetadata, update_service, modify.
  simpl. fold s. unfold messageToSend in *.
  destruct (or_string userMessage (Some (currentUserMessage s))) as [[| c msg] |];
    try congruence.
  destruct (executeRequest_first_success env (buildRequestPayload s (String c msg)) st data
              Hmax Ho) as (st1 & Hrun & Hs1 & Ht1).
  fold s in Hrun, Hs1, Ht1. rewrite Hrun. simpl.
  destruct (parseResponse env s data) as [v | e]; simpl;
    eexists; (split; [reflexivity | exact Ht1]).
Qed.

(** X10. Every call of [sendChatMessage] replaces the metadata of the
    client and touches no other field: the new metadata names the model set
    on the client, the time the call began and ended and their difference,
    and on a failure (whose error is raised as it is) the code and message
    of the error, the code being UNKNOWN_ERROR for an error that is not an
    [OpenRouterError]. *)
Theorem sendChatMessage_metadata userMessage st res st' :
  sendChatMessage env userMessage st = (res, st') ->
  exists m,
    openRouter st' = with_lastRequestMetadata m (openRouter st) /\
    model m = currentModelName (openRouter st) /\
    requestStartTime m = now (world st) /\
    requestEndTime m = Some (now (world st')) /\
    duration m = Some (now (world st') - now (world st)) /\
    match res with
    | Ok _ => success m = true /\ errorCode m = None /\ errorMessage m = None
    | Throw e =>
        success m = false /\
        errorCode m = Some (match error_code e with Some c => c | None => UNKNOWN_ERROR end) /\
        errorMessage m
          = Some (if instanceof_Error e then error_message e else "Unknown error")
    end.
Proof.
  unfold sendChatMessage, bind, try_catch, Date_now, gets, throw, ret, lift,
    setLastRequestMetadata, update_service, modify.
  simpl.
  destruct (or_string userMessage (Some (currentUserMessage (openRouter st))))
    as [[| c msg] |]; simpl.
  - intros H. inversion H; subst. simpl. eexists. repeat split.
  - destruct (executeRequest env _ st) as [[response | e] st1] eqn:Hexec;
      unfold executeRequest, bind, gets in Hexec;
      apply (for_attempts_events env (openRouter st)) in Hexec; try reflexivity;
      destruct Hexec as (Hs1 & _); simpl.
    + destruct (parseResponse env (openRouter st) response) as [v | e]; simpl;
        intros H; inversion H; subst; simpl; rewrite Hs1; eexists; repeat split.
    + intros H; inversion H; subst; simpl; rewrite Hs1; eexists; repeat split.
  - intros H. inversion H; subst. simpl. eexists. repeat split.
Qed.

End ClientParsing.

(** * Further properties of the generation orchestrator *)

Section GenerationMore.

Variable env : Env.

Lemma to_proposal_Ok c p :
  to_proposal c = Ok p ->
  exists f b, card_strings c = Some (f, b) /\ p = proposal_of f b.
Proof.
  unfold to_proposal, card_strings, proposal_of.
  destruct c as [| | | | | props]; simpl; try discriminate.
  destruct (lookup "front" props) as [[| | | sf | |] |]; simpl; try discriminate.
  destruct (lookup "back" props) as [[| | | sb | |] |]; simpl; try discriminate.
  intros H. inversion H; subst. exists sf, sb. split; reflexivity.
Qed.

Lemma map_proposals_Ok :
  forall cards ps,
    map_proposals cards = Ok ps ->
    Forall2 (fun c p => exists f b, card_strings c = Some (f, b) /\ p = proposal_of f b)
            cards ps.
Proof.
  induction cards as [| c cards IH]; intros ps H.
  - simpl in H. inversion H. constructor.
  - cbn [map_proposals] in H.
    destruct (to_proposal c) as [p | e] eqn:Hp; [| discriminate].
    destruct (map_proposals cards) as [ps' | e]; [| discriminate].
    inversion H; subst. constructor; [exact (to_proposal_Ok c p Hp) | exact (IH ps' eq_refl)].
Qed.

Lemma map_proposals_Throw :
  forall cards e, map_proposals cards = Throw e -> instanceof_TypeError e = true.
Proof.
  induction cards as [| c cards IH]; intros e H.
  - discriminate.
  - cbn [map_proposals] in H.
    destruct (to_proposal c) as [p | e'] eqn:Hp.
    + destruct (map_proposals cards) as [ps' | e'']; [discriminate |].
      inversion H; subst. exact (IH e eq_refl).
    + inversion H; subst. clear H. revert Hp.
      unfold to_proposal, get_prop, substring_to.
      destruct c as [| | | | | props]; simpl;
        try (intros H; inversion H; reflexivity).
      destruct (lookup "front" props) as [[| | | sf | |] |]; simpl;
        try (intros H; inversion H; reflexivity).
      destruct (lookup "back" props) as [[| | | sb | |] |]; simpl;
        intros H; inversion H; reflexivity.
Qed.

(** What [callAIService] does after the client has answered. *)
Lemma callAIService_after_send sourceText st :
  callAIService env sourceText st =
    match sendChatMessage env (Some (userMessage_for sourceText)) st with
    | (Ok response, st1) =>
        match get_prop (Some response) "flashcards" with
        | Ok (Some (JArr cards)) =>
            match map_proposals cards with
            | Ok ps =>
                (Ok ps,
                 if Z.of_nat (List.length cards) =? 5 then st1
                 else mkState (openRouter st1)
                        (print console_warn
                           [Text ("Expected 5 flashcards, got "
                                  ++ string_of_Z (Z.of_nat (List.length cards))
                                  ++ ". Using available flashcards.")%string]
                           (world st1)))
            | Throw e =>
                (Throw e,
                 if Z.of_nat (List.length cards) =? 5 then st1
                 else mkState (openRouter st1)
                        (print console_warn
                           [Text ("Expected 5 flashcards, got "
                                  ++ string_of_Z (Z.of_nat (List.length cards))
                                  ++ ". Using available flashcards.")%string]
                           (world st1)))
            end
        | Ok _ => (Throw (Error "Error" "Invalid response format from AI service"), st1)
        | Throw e => (Throw e, st1)
        end
    | (Throw (OpenRouterError message code sc oe rt), st1) =>
        (Throw (Error "Error" (friendly_message code message)),
         mkState (openRouter st1)
           (print console_error
              [Text ("[GenerationService] OpenRouter error [" ++ code_string code ++ "]:")%string;
               Text message] (world st1)))
    | (Throw e, st1) => (Throw e, st1)
    end.
Proof.
  unfold callAIService, try_catch, bind.
  destruct (sendChatMessage env (Some (userMessage_for sourceText)) st)
    as [[response | e] st1].
  - unfold lift, throw, ret, in_world, console_log, modify.
    destruct response as [| b | n | t | items | props]; try reflexivity.
    simpl get_prop.
    destruct (lookup "flashcards" props) as [[| | | | cards |] |]; try reflexivity.
    destruct (Z.of_nat (List.length cards) =? 5); simpl.
    + destruct (map_proposals cards) as [ps | e] eqn:Hm; [reflexivity |].
      apply map_proposals_Throw in Hm. destruct e; try discriminate. reflexivity.
    + destruct (map_proposals cards) as [ps | e] eqn:Hm; [destruct st1; reflexivity |].
      apply map_proposals_Throw in Hm. destruct e; try discriminate. reflexivity.
  - destruct e; reflexivity.
Qed.

(** The shape of the [try] block of [generateFlashcards]: calls of the
    endpoint, then, if the model call gave proposals, one insert of the
    generation row of the request. *)
Lemma try_generate_shape sourceText userId t st res st1 :
  try_generate env sourceText userId t st = (res, st1) ->
  exists cevs,
    Forall client_event cevs /\
    ((gained (world st) (world st1) cevs /\
      exists e st0, callAIService env sourceText st = (Throw e, st0) /\ res = Throw e) \/
     (exists row ps st0,
        callAIService env sourceText st = (Ok ps, st0) /\
        gained (world st) (world st1) (cevs ++ [EvInsertGeneration row]) /\
        generation_row_of env sourceText userId row /\
        GenerationInsert.generated_count row = Z.of_nat (List.length ps) /\
        match res with
        | Ok r =>
            insert_generation env row = Reply (Some (generation_id r)) None /\
            flashcards_proposals r = ps /\
            generated_count r = Z.of_nat (List.length ps)
        | Throw e =>
            (exists d err,
               insert_generation env row = Reply d (Some err) /\
               e = Error "Error" "Failed to save generation metadata" /\
               In (mkConsoleEntry console_error
                     [Text "Failed to save generation metadata:"; StoreError err])
                  (console (world st1))) \/
            (insert_generation env row = Reply None None /\
             e = TypeError "Cannot read properties of null (reading 'id')") \/
            insert_generation env row = Throws e
        end)).
Proof.
  unfold try_generate, bind, gained.
  destruct (callAIService env sourceText st) as [[ps | e] st0] eqn:Hcall;
    pose proof Hcall as Hev;
    apply callAIService_events in Hev; destruct Hev as (cevs & Ht & Hev).
  - unfold getLastRequestMetadata, Date_now, gets, in_world, store_call, throw, ret,
      console_log, modify.
    simpl.
    match goal with
    | |- context [insert_generation env ?r] =>
        set (row := r); destruct (insert_generation env row) as [data err | e] eqn:Hins
    end.
    + intros H. exists cevs. split; [exact Hev |]. right.
      exists row, ps, st0. split; [reflexivity |].
      destruct data as [gid |], err as [err |]; simpl in H; inversion H; subst; simpl;
        (split; [rewrite Ht, <- app_assoc; reflexivity |]);
        (split; [repeat split |]);
        (split; [reflexivity |]).
      * left. exists (Some gid), err.
        split; [exact Hins |]. split; [reflexivity |].
        apply in_or_app. right. left. reflexivity.
      * split; [exact Hins |]. split; reflexivity.
      * left. exists None, err.
        split; [exact Hins |]. split; [reflexivity |].
        apply in_or_app. right. left. reflexivity.
      * right. left. split; [exact Hins | reflexivity].
    + intros H. inversion H; subst. simpl.
      exists cevs. split; [exact Hev |]. right.
      exists row, ps, st0. split; [reflexivity |].
      split; [rewrite Ht, <- app_assoc; reflexivity |].
      split; [repeat split |]. split; [reflexivity |].
      right. right. exact Hins.
  - intros H. inversion H; subst. exists cevs. split; [exact Hev |].
    left. split; [exact Ht |]. exists e, st1. split; reflexivity.
Qed.

(** X11. When [generateFlashcards] returns, it has inserted one generation
    row and no error-log row: after its calls of the endpoint the only
    store call is the insert of the row of this request (owner, model, hash
    and length of the source text) with [generated_count] the number of
    proposals returned; the returned [generation_id] is the id the store
    gave to that row. *)
Theorem generateFlashcards_success sourceText userId st r st' :
  generateFlashcards env sourceText userId st = (Ok r, st') ->
  exists cevs row,
    Forall client_event cevs /\
    gained (world st) (world st') (cevs ++ [EvInsertGeneration row]) /\
    generation_row_of env sourceText userId row /\
    insert_generation env row = Reply (Some (generation_id r)) None /\
    GenerationInsert.generated_count row = generated_count r /\
    generated_count r = Z.of_nat (List.length (flashcards_proposals r)).
Proof.
  unfold generateFlashcards, bind, try_catch, Date_now, gets, throw.
  destruct (try_generate env sourceText userId (now (world st)) st) as [[r1 | e] st1] eqn:Htry.
  - intros H. inversion H; subst.
    destruct (try_generate_shape _ _ _ _ _ _ Htry)
      as (cevs & Hev & [(_ & e & st0 & _ & Hres) | (row & ps & st0 & _ & Hg & Hrow & Hcnt & Hok)]);
      [discriminate |].
    destruct Hok as (Hins & Hps & Hgc).
    exists cevs, row. repeat split; try assumption; try apply Hrow.
    + congruence.
    + rewrite Hps. exact Hgc.
  - destruct (logGenerationError_spec env (insert_generation_error_log env) e sourceText
                MODEL_NAME userId (now (world st1) - now (world st)) st1)
      as (st2 & Hlog & _).
    change (logGenerationError (with_error_log env (insert_generation_error_log env)))
      with (logGenerationError env) in Hlog.
    rewrite Hlog. discriminate.
Qed.

(** X12. When [generateFlashcards] fails with [e], its last store call is
    the insert of one error-log row: owner, model, hash and length of the
    request, the name of [e] as [error_code] and its message as
    [error_message]. Before it there are only calls of the endpoint and, if
    the model call gave proposals, the insert of the generation row. *)
Theorem generateFlashcards_failure sourceText userId st e st' :
  generateFlashcards env sourceText userId st = (Throw e, st') ->
  exists cevs,
    Forall client_event cevs /\
    (gained (world st) (world st')
       (cevs ++ [EvInsertErrorLog (error_row_of env sourceText userId e)]) \/
     exists row,
       generation_row_of env sourceText userId row /\
       gained (world st) (world st')
         (cevs ++ [EvInsertGeneration row;
                   EvInsertErrorLog (error_row_of env sourceText userId e)])).
Proof.
  unfold generateFlashcards, bind, try_catch, Date_now, gets, throw.
  destruct (try_generate env sourceText userId (now (world st)) st) as [[r1 | e1] st1] eqn:Htry;
    [discriminate |].
  destruct (logGenerationError_spec env (insert_generation_error_log env) e1 sourceText
              MODEL_NAME userId (now (world st1) - now (world st)) st1)
    as (st2 & Hlog & _ & Htl).
  change (logGenerationError (with_error_log env (insert_generation_error_log env)))
    with (logGenerationError env) in Hlog.
  rewrite Hlog. intros H. inversion H; subst.
  destruct (try_generate_shape _ _ _ _ _ _ Htry)
    as (cevs & Hev & [(Hg & _) | (row & ps & st0 & _ & Hg & Hrow & _)]);
    exists cevs; (split; [exact Hev |]); unfold gained in *.
  - left. rewrite Htl, Hg, <- app_assoc. reflexivity.
  - right. exists row. split; [exact Hrow |].
    rewrite Htl, Hg, <- !app_assoc. reflexivity.
Qed.

(** X13. When the store refuses the generation row, the attempt fails with
    the fixed message 'Failed to save generation metadata', whatever the
    model returned; the error of the store goes to the console only. When
    the store replies with neither a row nor an error, reading the id of the
    row raises a [TypeError]. *)
Theorem generateFlashcards_store_failure sourceText userId st ps st0 :
  callAIService env sourceText st = (Ok ps, st0) ->
  (forall d err,
     (forall row, insert_generation env row = Reply d (Some err)) ->
     exists st',
       generateFlashcards env sourceText userId st
         = (Throw (Error "Error" "Failed to save generation metadata"), st') /\
       In (mkConsoleEntry console_error
             [Text "Failed to save generation metadata:"; StoreError err])
          (console (world st'))) /\
  ((forall row, insert_generation env row = Reply None None) ->
   exists st',
     generateFlashcards env sourceText userId st
       = (Throw (TypeError "Cannot read properties of null (reading 'id')"), st')).
Proof.
  intros Hcall.
  split.
  - intros d err Hstore.
    destruct (try_generate env sourceText userId (now (world st)) st) as [res st1] eqn:Htry.
    destruct (try_generate_shape _ _ _ _ _ _ Htry)
      as (cevs & _ & [(_ & e & st0' & Hc & _) | (row & ps' & st0' & _ & _ & _ & _ & Hres)]);
      [congruence |].
    assert (Hres' : res = Throw (Error "Error" "Failed to save generation metadata") /\
                    In (mkConsoleEntry console_error
                          [Text "Failed to save generation metadata:"; StoreError err])
                       (console (world st1))).
    { rewrite Hstore in Hres. destruct res as [r | e].
      - destruct Hres as (Habs & _). discriminate.
      - destruct Hres as [(d' & err' & Hr & -> & Hin) | [(Hr & _) | Hr]]; try discriminate.
        inversion Hr; subst. split; [reflexivity | exact Hin]. }
    destruct Hres' as [-> Hin].
    set (e := Error "Error" "Failed to save generation metadata") in *.
    pose proof (logGenerationError_spec env (insert_generation_error_log env) e sourceText
                  MODEL_NAME userId (now (world st1) - now (world st)) st1) as Hspec.
    change (logGenerationError (with_error_log env (insert_generation_error_log env)))
      with (logGenerationError env) in Hspec.
    unfold generateFlashcards, bind, try_catch, Date_now, gets, throw.
    rewrite Htry.
    revert Hspec.
    unfold logGenerationError, try_catch, bind, in_world, store_call, ret, console_log,
      modify, print. simpl.
    match goal with
    | |- context [insert_generation_error_log env ?r] =>
        destruct (insert_generation_error_log env r) as [data lerr | le]
    end; simpl; intros _; eexists; (split; [reflexivity |]); simpl.
    + exact Hin.
    + apply in_or_app. left. apply in_or_app. left. exact Hin.
  - intros Hstore.
    destruct (try_generate env sourceText userId (now (world st)) st) as [res st1] eqn:Htry.
    destruct (try_generate_shape _ _ _ _ _ _ Htry)
      as (cevs & _ & [(_ & e & st0' & Hc & _) | (row & ps' & st0' & _ & _ & _ & _ & Hres)]);
      [congruence |].
    assert (Hres' : res = Throw (TypeError "Cannot read properties of null (reading 'id')")).
    { rewrite Hstore in Hres. destruct res as [r | e].
      - destruct Hres as (Habs & _). discriminate.
      - destruct Hres as [(d' & err' & Hr & _) | [(_ & ->) | Hr]]; try discriminate.
        reflexivity. }
    subst res.
    destruct (logGenerationError_spec env (insert_generation_error_log env)
                (TypeError "Cannot read properties of null (reading 'id')") sourceText
                MODEL_NAME userId (now (world st1) - now (world st)) st1)
      as (st2 & Hlog & _).
    change (logGenerationError (with_error_log env (insert_generation_error_log env)))
      with (logGenerationError env) in Hlog.
    unfold generateFlashcards, bind, try_catch, Date_now, gets, throw.
    rewrite Htry, Hlog. eexists. reflexivity.
Qed.

End GenerationMore.

Section GenerationErrors.

Variable env : Env.

Lemma get_prop_Throw v k e :
  get_prop v k = Throw e -> instanceof_TypeError e = true.
Proof.
  unfold get_prop. destruct v as [[| | | | |] |]; intros H; inversion H; reflexivity.
Qed.

(** X14. An [OpenRouterError] never leaves [callAIService]: a failure of
    the client is raised as a plain [Error], whose message, for a code other
    than the four with a text of their own, is 'AI service error: ' followed
    by the message of the client. *)
Theorem callAIService_hides_client_errors sourceText st :
  (forall e st', callAIService env sourceText st = (Throw e, st') ->
                 instanceof_OpenRouterError e = false) /\
  (forall message code sc oe rt st1,
     sendChatMessage env (Some (userMessage_for sourceText)) st
       = (Throw (OpenRouterError message code sc oe rt), st1) ->
     ~ In code remapped_codes ->
     exists st',
       callAIService env sourceText st
         = (Throw (Error "Error" ("AI service error: " ++ message)), st')).
Proof.
  split.
  - intros e st'. rewrite callAIService_after_send.
    destruct (sendChatMessage env (Some (userMessage_for sourceText)) st)
      as [[response | e1] st1].
    + destruct (get_prop (Some response) "flashcards") as [[[| | | | cards |] |] | e2] eqn:Hg;
        try (intros H; inversion H; reflexivity).
      * destruct (map_proposals cards) as [ps | e3] eqn:Hm; [discriminate |].
        intros H. inversion H; subst.
        apply map_proposals_Throw in Hm. destruct e; try discriminate. reflexivity.
      * intros H. inversion H; subst.
        apply get_prop_Throw in Hg. destruct e; try discriminate. reflexivity.
    + destruct e1; intros H; inversion H; reflexivity.
  - intros message code sc oe rt st1 Hsend Hcode.
    rewrite callAIService_after_send, Hsend.
    eexists. f_equal. f_equal. f_equal.
    unfold remapped_codes in Hcode. simpl in Hcode.
    destruct code; try reflexivity; exfalso; apply Hcode; auto.
Qed.

(** X15. [callAIService] returns proposals only for a payload that is an
    object with an array [flashcards] whose cards all have a string front
    and a string back; the proposals are then those cards, in order, cut to
    200 and 500 characters: every proposal it ever returns is within these
    limits and has source 'ai-full'. *)
Theorem callAIService_returns_only_typed_cards sourceText st ps st' :
  callAIService env sourceText st = (Ok ps, st') ->
  exists payload st1 props cards,
    sendChatMessage env (Some (userMessage_for sourceText)) st = (Ok payload, st1) /\
    payload = JObj props /\
    lookup "flashcards" props = Some (JArr cards) /\
    Forall2 (fun c p => exists f b, card_strings c = Some (f, b) /\ p = proposal_of f b)
            cards ps /\
    Forall (fun p => str_length (proposal_front p) <= 200 /\
                     str_length (proposal_back p) <= 500 /\
                     proposal_source p = ai_full) ps.
Proof.
  rewrite callAIService_after_send.
  destruct (sendChatMessage env (Some (userMessage_for sourceText)) st)
    as [[response | e1] st1]; [| destruct e1; discriminate].
  destruct response as [| b | n | t | items | props]; simpl get_prop; try discriminate.
  destruct (lookup "flashcards" props) as [[| | | | cards |] |] eqn:Hl; try discriminate.
  destruct (map_proposals cards) as [ps' | e] eqn:Hm; [| discriminate].
  intros H. inversion H; subst.
  apply map_proposals_Ok in Hm.
  exists (JObj props), st1, props, cards.
  repeat split; try assumption.
  clear - Hm. induction Hm as [| c p cards ps (f & b & _ & ->) _ IH]; constructor.
  - unfold proposal_of, str_length. simpl.
    pose proof (substring_length 200 f). pose proof (substring_length 500 b).
    repeat split; lia.
  - exact IH.
Qed.

(** X16. A decoded payload that is an object without an array [flashcards]
    (the field missing or of another type) makes [callAIService] fail with
    'Invalid response format from AI service'; [generateFlashcards] then
    fails with that error and stores no generation row: its only store call
    is the insert of the error-log row. *)
Theorem generateFlashcards_rejects_shapeless_payload sourceText userId st props st1 :
  sendChatMessage env (Some (userMessage_for sourceText)) st = (Ok (JObj props), st1) ->
  (forall cards, lookup "flashcards" props <> Some (JArr cards)) ->
  let e := Error "Error" "Invalid response format from AI service" in
  exists st',
    generateFlashcards env sourceText userId st = (Throw e, st') /\
    trace (world st') =
      trace (world st1) ++ [EvInsertErrorLog (error_row_of env sourceText userId e)].
Proof.
  intros Hsend Hshape e.
  assert (Hcall : callAIService env sourceText st = (Throw e, st1)).
  { rewrite callAIService_after_send, Hsend. simpl get_prop.
    destruct (lookup "flashcards" props) as [[| | | | cards |] |]; try reflexivity.
    exfalso. apply (Hshape cards). reflexivity. }
  assert (Htry : try_generate env sourceText userId (now (world st)) st = (Throw e, st1)).
  { unfold try_generate, bind. rewrite Hcall. reflexivity. }
  destruct (logGenerationError_spec env (insert_generation_error_log env) e sourceText
              MODEL_NAME userId (now (world st1) - now (world st)) st1)
    as (st2 & Hlog & _ & Htl).
  change (logGenerationError (with_error_log env (insert_generation_error_log env)))
    with (logGenerationError env) in Hlog.
  exists st2. split; [| exact Htl].
  unfold generateFlashcards, bind, try_catch, Date_now, gets, throw.
  rewrite Htry, Hlog. reflexivity.
Qed.

End GenerationErrors.

(** * Further properties of the request schemas *)

Section ValidationMore.

Lemma safeParse_checked {A : Type} (schema : Schema A) input (a : A) issues :
  schema [] (Some input) = checked a issues ->
  safeParse schema input =
    match issues with [] => ParseSuccess a | i :: rest => ParseFailure (i :: rest) end.
Proof.
  unfold safeParse. intros ->. destruct issues; reflexivity.
Qed.

(** X17. A generation request passes validation exactly when its body is an
    object whose [source_text] is a string of 1000 to 10000 characters; the
    validated command carries that string. *)
Theorem generateFlashcardsCommandSchema_accepts requestBody data :
  safeParse generateFlashcardsCommandSchema requestBody = ParseSuccess data <->
  exists props,
    requestBody = JObj props /\
    lookup "source_text" props = Some (JStr (source_text data)) /\
    1000 <= str_length (source_text data) <= 10000.
Proof.
  unfold safeParse, generateFlashcardsCommandSchema, z_string_min_max.
  split.
  - destruct requestBody as [| | | | | props]; try discriminate.
    destruct (lookup "source_text" props) as [[| | | s | |] |] eqn:Hl; try discriminate.
    destruct (str_length s <? 1000) eqn:Hlo, (str_length s >? 10000) eqn:Hhi;
      try discriminate.
    simpl. intros H. inversion H; subst. simpl.
    exists props. split; [reflexivity |]. split; [exact Hl |]. split.
    + apply Z.ltb_ge. exact Hlo.
    + rewrite Z.gtb_ltb in Hhi. apply Z.ltb_ge. exact Hhi.
  - intros (props & -> & Hl & Hlo & Hhi). rewrite Hl.
    replace (str_length (source_text data) <? 1000) with false
      by (symmetry; apply Z.ltb_ge; lia).
    replace (str_length (source_text data) >? 10000) with false
      by (symmetry; rewrite Z.gtb_ltb; apply Z.ltb_ge; lia).
    destruct data. reflexivity.
Qed.

Lemma flashcardCreateDtoSchema_issues p f :
  flashcardCreateDtoSchema p (Some (json_of_flashcard f))
    = checked (erase_user_id f) (flashcard_issues p f).
Proof.
  destruct f as [front back src gid uid].
  unfold flashcardCreateDtoSchema, refine, flashcardCreateDtoObject, json_of_flashcard,
    z_string_min_max, erase_user_id, flashcard_issues, refinement_message.
  simpl.
  destruct (str_length front <? 1), (str_length front >? 200),
    (str_length back <? 1), (str_length back >? 500);
    destruct src, gid; reflexivity.
Qed.

Lemma z_items_issues p :
  forall batch i0,
    z_items flashcardCreateDtoSchema p i0 (map json_of_flashcard batch)
      = checked (map erase_user_id batch) (batch_issues p i0 batch).
Proof.
  induction batch as [| f batch IH]; intros i0; [reflexivity |].
  cbn [map z_items batch_issues].
  rewrite flashcardCreateDtoSchema_issues, IH. apply merge_checked.
Qed.

(** The result of validation on a batch of flashcards of the declared
    type. *)
Lemma safeParse_typed_batch batch :
  safeParse flashcardsCreateCommandSchema (json_of_command batch) =
    match (match batch with [] => [empty_batch_issue] | _ => [] end)
          ++ batch_issues [Key "flashcards"] 0 batch with
    | [] => ParseSuccess (mkFlashcardsCreateCommand (map erase_user_id batch))
    | issues => ParseFailure issues
    end.
Proof.
  apply safeParse_checked.
  unfold flashcardsCreateCommandSchema, json_of_command, z_array_min1.
  cbn [lookup String.eqb Ascii.eqb Bool.eqb].
  simpl lookup. rewrite z_items_issues.
  rewrite merge_checked.
  change (Valid tt) with (checked tt (@nil ZodIssue)).
  rewrite merge_checked. simpl.
  destruct batch; reflexivity.
Qed.

Lemma flashcard_issues_nil p f :
  flashcard_issues p f = [] <->
  within_limits (FlashcardCreateDto.front f) (FlashcardCreateDto.back f) /\
  generation_id_consistent f = true.
Proof.
  unfold flashcard_issues, within_limits.
  destruct (Z.ltb_spec (str_length (FlashcardCreateDto.front f)) 1);
    destruct (Z.ltb_spec 200 (str_length (FlashcardCreateDto.front f)));
    destruct (Z.ltb_spec (str_length (FlashcardCreateDto.back f)) 1);
    destruct (Z.ltb_spec 500 (str_length (FlashcardCreateDto.back f)));
    rewrite !Z.gtb_ltb;
    repeat match goal with
           | H : ?a < ?b |- context [?a <? ?b] =>
               replace (a <? b) with true by (symmetry; apply Z.ltb_lt; exact H)
           | H : ?b <= ?a |- context [?a <? ?b] =>
               replace (a <? b) with false by (symmetry; apply Z.ltb_ge; exact H)
           end;
    destruct (generation_id_consistent f); simpl;
    (split;
     [ intros Hx; try discriminate; repeat split; lia
     | intros [[[? ?] [? ?]] ?]; try lia; try discriminate; reflexivity ]).
Qed.

Lemma batch_issues_nil p :
  forall batch i,
    batch_issues p i batch = [] <->
    Forall (fun f => within_limits (FlashcardCreateDto.front f) (FlashcardCreateDto.back f) /\
                     generation_id_consistent f = true) batch.
Proof.
  induction batch as [| f batch IH]; intros i; simpl.
  - split; [constructor | reflexivity].
  - split.
    + intros H. apply app_eq_nil in H. destruct H as [Hf Hr].
      constructor; [apply (flashcard_issues_nil (p ++ [Index i])); exact Hf
                   | apply (IH (S i)); exact Hr].
    + intros H. inversion H as [| ? ? Hf Hr]; subst.
      apply (flashcard_issues_nil (p ++ [Index i])) in Hf. apply (IH (S i)) in Hr.
      rewrite Hf, Hr. reflexivity.
Qed.

(** X18. A batch of flashcards of the declared type passes validation
    exactly when it is not empty and each flashcard has a front of 1 to 200
    characters, a back of 1 to 500 and a generation consistent with its
    source; the validated batch is then the batch itself, in order, with
    every property outside the four declared ones (a [user_id]) dropped. *)
Theorem flashcardsCreateCommandSchema_accepts batch :
  ((exists data,
      safeParse flashcardsCreateCommandSchema (json_of_command batch) = ParseSuccess data)
   <-> (batch <> [] /\
        Forall (fun f =>
                  within_limits (FlashcardCreateDto.front f) (FlashcardCreateDto.back f) /\
                  source_matches_generation (FlashcardCreateDto.source f)
                    (FlashcardCreateDto.generation_id f)) batch)) /\
  (forall data,
     safeParse flashcardsCreateCommandSchema (json_of_command batch) = ParseSuccess data ->
     flashcards data = map erase_user_id batch).
Proof.
  rewrite safeParse_typed_batch.
  assert (Hiff :
    (match batch with [] => [empty_batch_issue] | _ => [] end)
      ++ batch_issues [Key "flashcards"] 0 batch = [] <->
    (batch <> [] /\
     Forall (fun f =>
               within_limits (FlashcardCreateDto.front f) (FlashcardCreateDto.back f) /\
               source_matches_generation (FlashcardCreateDto.source f)
                 (FlashcardCreateDto.generation_id f)) batch)).
  { split.
    - intros H. apply app_eq_nil in H. destruct H as [Hmin Hb].
      split; [destruct batch; [discriminate | discriminate] |].
      apply batch_issues_nil in Hb.
      eapply Forall_impl; [| exact Hb].
      intros f [Hl Hc]. split; [exact Hl | apply generation_id_consistent_iff; exact Hc].
    - intros [Hne Hall].
      assert (Hb : batch_issues [Key "flashcards"] 0 batch = []).
      { apply batch_issues_nil. eapply Forall_impl; [| exact Hall].
        intros f [Hl Hc]. split; [exact Hl | apply generation_id_consistent_iff; exact Hc]. }
      rewrite Hb. destruct batch; [congruence | reflexivity]. }
  destruct ((match batch with [] => [empty_batch_issue] | _ => [] end)
            ++ batch_issues [Key "flashcards"] 0 batch) as [| i more].
  - split.
    + split; [intros _; apply Hiff; reflexivity | intros _; eexists; reflexivity].
    + intros data H. inversion H. reflexivity.
  - split.
    + split; [intros [data H]; discriminate |].
      intros H. apply Hiff in H. discriminate.
    + intros data H. discriminate.
Qed.

End ValidationMore.

Section ValidationSound.

Lemma z_string_Valid lo tooShort hi tooLong p v s :
  z_string_min_max lo tooShort hi tooLong p v = Valid s ->
  v = Some (JStr s) /\ lo <= str_length s <= hi.
Proof.
  unfold z_string_min_max.
  destruct v as [[| | | t | |] |]; try discriminate.
  destruct (str_length t <? lo) eqn:Hlo, (str_length t >? hi) eqn:Hhi; try discriminate.
  simpl. intros H. inversion H; subst.
  split; [reflexivity |]. split.
  - apply Z.ltb_ge. exact Hlo.
  - rewrite Z.gtb_ltb in Hhi. apply Z.ltb_ge. exact Hhi.
Qed.

Lemma z_enum_source_Valid p v src :
  z_enum_source p v = Valid src -> v = Some (JStr (source_string src)).
Proof.
  unfold z_enum_source.
  destruct v as [[| | | t | |] |]; try discriminate.
  destruct (t =? "ai-full")%string eqn:H1.
  { apply String.eqb_eq in H1. intros H. inversion H; subst. reflexivity. }
  destruct (t =? "ai-edited")%string eqn:H2.
  { apply String.eqb_eq in H2. intros H. inversion H; subst. reflexivity. }
  destruct (t =? "manual")%string eqn:H3; [| discriminate].
  apply String.eqb_eq in H3. intros H. inversion H; subst. reflexivity.
Qed.

Lemma z_number_nullable_Valid p v g :
  z_number_nullable p v = Valid g -> v = Some (json_of_option_number g).
Proof.
  unfold z_number_nullable.
  destruct v as [[| | n | | |] |]; try discriminate;
    intros H; inversion H; subst; reflexivity.
Qed.

Lemma flashcardCreateDtoSchema_sound p item f :
  flashcardCreateDtoSchema p (Some item) = Valid f ->
  spells item f /\
  within_limits (FlashcardCreateDto.front f) (FlashcardCreateDto.back f) /\
  FlashcardCreateDto.user_id f = None.
Proof.
  intros H.
  assert (Hobj : flashcardCreateDtoObject p (Some item) = Valid f).
  { revert H. unfold flashcardCreateDtoSchema, refine.
    destruct (flashcardCreateDtoObject p (Some item)) as [a | a issues | issues];
      try discriminate.
    - destruct (generation_id_consistent a); intros H; inversion H; reflexivity.
    - destruct (generation_id_consistent a); discriminate. }
  unfold flashcardCreateDtoObject in Hobj.
  destruct item as [| | | | | props]; try discriminate.
  apply merge_Valid_inv in Hobj. destruct Hobj as (k3 & g & H3 & Hg & ->).
  apply merge_Valid_inv in H3. destruct H3 as (k2 & src & H2 & Hsrc & ->).
  apply merge_Valid_inv in H2. destruct H2 as (k1 & b & H1 & Hb & ->).
  apply merge_Valid_inv in H1. destruct H1 as (u & fr & _ & Hf & ->).
  apply z_string_Valid in Hf. destruct Hf as [Hf Hfl].
  apply z_string_Valid in Hb. destruct Hb as [Hb Hbl].
  apply z_enum_source_Valid in Hsrc. apply z_number_nullable_Valid in Hg.
  simpl. split; [| split; [split; assumption | reflexivity]].
  exists props. simpl. repeat split; assumption.
Qed.

Lemma z_items_sound p :
  forall elements i l,
    z_items flashcardCreateDtoSchema p i elements = Valid l ->
    Forall2 spells elements l /\
    Forall (fun f =>
              within_limits (FlashcardCreateDto.front f) (FlashcardCreateDto.back f) /\
              FlashcardCreateDto.user_id f = None) l.
Proof.
  induction elements as [| e rest IH]; intros i l H.
  - simpl in H. inversion H. split; constructor.
  - cbn [z_items] in H. apply merge_Valid_inv in H.
    destruct H as (a & b & Ha & Hb & ->).
    apply flashcardCreateDtoSchema_sound in Ha. destruct Ha as (Hs & Hl & Hu).
    destruct (IH _ _ Hb) as [IH1 IH2].
    split; constructor; auto.
Qed.

(** X19. What passes [flashcardsCreateCommandSchema] is what the body
    says: validation succeeds only on an object whose [flashcards] is an
    array, not empty, of objects with a string front of 1 to 200 characters,
    a string back of 1 to 500, one of the three sources and a
    [generation_id] that is a number or null; the validated flashcards are
    these, in order, with exactly those four fields. *)
Theorem flashcardsCreateCommandSchema_sound requestBody data :
  safeParse flashcardsCreateCommandSchema requestBody = ParseSuccess data ->
  exists props items,
    requestBody = JObj props /\
    lookup "flashcards" props = Some (JArr items) /\
    items <> [] /\
    Forall2 spells items (flashcards data) /\
    Forall (fun f =>
              within_limits (FlashcardCreateDto.front f) (FlashcardCreateDto.back f) /\
              FlashcardCreateDto.user_id f = None) (flashcards data).
Proof.
  unfold safeParse, flashcardsCreateCommandSchema.
  destruct requestBody as [| | | | | props]; try discriminate.
  destruct (merge _ (Valid tt) _) as [a | |] eqn:Hm; try discriminate.
  intros H. inversion H; subst. clear H.
  apply merge_Valid_inv in Hm. destruct Hm as (u & l & _ & Hl & ->). simpl.
  unfold z_array_min1 in Hl.
  destruct (lookup "flashcards" props) as [[| | | | elements |] |] eqn:Hlook;
    try discriminate.
  apply merge_Valid_inv in Hl. destruct Hl as (u' & l' & Hmin & Hitems & ->).
  destruct (z_items_sound _ _ _ _ Hitems) as [Hsp Hlim].
  exists props, elements.
  split; [reflexivity |]. split; [exact Hlook |].
  split; [| split; assumption].
  destruct elements; [discriminate | discriminate].
Qed.

End ValidationSound.

(** * Further properties of the flashcard writer and of the handlers *)

Section HandlersMore.

Variable env : Env.

(** X20. [createFlashcards] never reports a success it did not have: an
    empty batch is refused before any store call; a result is returned only
    when the store replied with rows, at least one, and no error, and it is
    those rows; an error of the store is raised with its message after
    'Failed to create flashcards: ', and a reply without rows as 'No
    flashcards were created'. *)
Theorem createFlashcards_outcomes batch userId w :
  let rows := map (to_insert userId) batch in
  (batch = [] ->
   createFlashcards env batch userId w
     = (Throw (Error "Error" "At least one flashcard is required"), w)) /\
  (forall data w',
     createFlashcards env batch userId w = (Ok data, w') ->
     data <> [] /\
     insert_flashcards env rows = Reply (Some data) None /\
     w' = emit (EvInsertFlashcards rows) w) /\
  (batch <> [] ->
   (forall d err,
      insert_flashcards env rows = Reply d (Some err) ->
      exists w',
        createFlashcards env batch userId w
          = (Throw (Error "Error" ("Failed to create flashcards: " ++ pg_message err)), w') /\
        gained w w' [EvInsertFlashcards rows]) /\
   (insert_flashcards env rows = Reply None None \/
    insert_flashcards env rows = Reply (Some []) None ->
    createFlashcards env batch userId w
      = (Throw (Error "Error" "No flashcards were created"),
         emit (EvInsertFlashcards rows) w))).
Proof.
  intros rows. unfold createFlashcards.
  split; [| split].
  - intros ->. reflexivity.
  - intros data w'. destruct batch as [| f batch]; [discriminate |].
    fold rows. unfold bind, store_call, throw, ret, console_log, modify.
    destruct (insert_flashcards env rows) as [[[| d0 data0] |] [err |] | e];
      simpl; intros H; inversion H; subst.
    repeat split. discriminate.
  - intros Hne. destruct batch as [| f batch]; [congruence |].
    fold rows. unfold bind, store_call, throw, ret, console_log, modify, gained.
    split.
    + intros d err ->. destruct d as [[| d0 data0] |]; simpl; eexists; split; reflexivity.
    + intros [-> | ->]; reflexivity.
Qed.

Lemma validated_within_limits requestBody data :
  safeParse flashcardsCreateCommandSchema requestBody = ParseSuccess data ->
  Forall (fun f => within_limits (FlashcardCreateDto.front f) (FlashcardCreateDto.back f))
         (flashcards data).
Proof.
  unfold safeParse, flashcardsCreateCommandSchema.
  destruct requestBody as [| | | | | props]; try discriminate.
  destruct (merge _ (Valid tt) _) as [a | |] eqn:Hm; try discriminate.
  intros H. inversion H; subst. clear H.
  apply merge_Valid_inv in Hm. destruct Hm as (u & l & _ & Hl & ->). simpl.
  unfold z_array_min1 in Hl.
  destruct (lookup "flashcards" props) as [[| | | | elements |] |]; try discriminate.
  apply merge_Valid_inv in Hl. destruct Hl as (u' & l' & _ & Hitems & ->).
  destruct (z_items_sound _ _ _ _ Hitems) as [_ Hlim].
  eapply Forall_impl; [| exact Hlim]. intros f [Hf _]. exact Hf.
Qed.

(** X21. The handler of flashcard creation touches the store only for a
    logged-in user whose request passed validation; the rows it inserts are
    then the validated flashcards, each owned by that user, with a front of
    1 to 200 characters and a back of 1 to 500, as the columns of the
    table allow. *)
Theorem POST_flashcards_inserts_for_the_caller locals_user requestJson w resp w' :
  POST_flashcards env locals_user requestJson w = (resp, w') ->
  exists evs,
    gained w w' evs /\
    forall rows,
      In (EvInsertFlashcards rows) evs ->
      exists u requestBody data,
        locals_user = Some u /\
        requestJson = Resolves requestBody /\
        safeParse flashcardsCreateCommandSchema requestBody = ParseSuccess data /\
        rows = map (to_insert (id u)) (flashcards data) /\
        Forall (fun r => FlashcardInsert.user_id r = id u /\
                         within_limits (FlashcardInsert.front r) (FlashcardInsert.back r))
               rows.
Proof.
  unfold POST_flashcards.
  assert (Hnil : exists evs,
             gained w w evs /\
             forall rows,
               In (EvInsertFlashcards rows) evs ->
               exists u requestBody data,
                 locals_user = Some u /\
                 requestJson = Resolves requestBody /\
                 safeParse flashcardsCreateCommandSchema requestBody = ParseSuccess data /\
                 rows = map (to_insert (id u)) (flashcards data) /\
                 Forall (fun r => FlashcardInsert.user_id r = id u /\
                                  within_limits (FlashcardInsert.front r)
                                    (FlashcardInsert.back r))
                        rows).
  { exists []. split; [unfold gained; rewrite app_nil_r; reflexivity | intros ? []]. }
  destruct locals_user as [u |]; [| intros H; inversion H; subst; exact Hnil].
  destruct requestJson as [requestBody | e]; [| intros H; inversion H; subst; exact Hnil].
  destruct (safeParse flashcardsCreateCommandSchema requestBody) as [data | errors] eqn:Hv;
    [| intros H; inversion H; subst; exact Hnil].
  assert (Hown : Forall (fun r => FlashcardInsert.user_id r = id u /\
                                  within_limits (FlashcardInsert.front r)
                                    (FlashcardInsert.back r))
                   (map (to_insert (id u)) (flashcards data))).
  { pose proof (validated_within_limits _ _ Hv) as Hlim. rewrite Forall_forall in Hlim.
    apply Forall_forall. intros r Hin. apply in_map_iff in Hin.
    destruct Hin as (f & <- & Hf). split; [reflexivity | exact (Hlim f Hf)]. }
  destruct (createFlashcards env (flashcards data) (id u) w) as [[created | e] w1] eqn:Hc;
    intros H; inversion H; subst;
    destruct (createFlashcards_events _ _ _ _ _ _ Hc) as [Hg | Hg].
  - exists []. split; [exact Hg | intros ? []].
  - eexists. split; [exact Hg |].
    intros rows [Hin | []]. inversion Hin; subst.
    exists u, requestBody, data. repeat split; assumption.
  - exists []. split; [exact Hg | intros ? []].
  - eexists. split; [exact Hg |].
    intros rows [Hin | []]. inversion Hin; subst.
    exists u, requestBody, data. repeat split; assumption.
Qed.

Lemma validated_nonempty requestBody data :
  safeParse flashcardsCreateCommandSchema requestBody = ParseSuccess data ->
  flashcards data <> [].
Proof.
  unfold safeParse, flashcardsCreateCommandSchema.
  destruct requestBody as [| | | | | props]; try discriminate.
  destruct (merge _ (Valid tt) _) as [a | |] eqn:Hm; try discriminate.
  intros H. inversion H; subst. clear H.
  apply merge_Valid_inv in Hm. destruct Hm as (u & l & _ & Hl & ->). simpl.
  unfold z_array_min1 in Hl.
  destruct (lookup "flashcards" props) as [[| | | | elements |] |]; try discriminate.
  apply merge_Valid_inv in Hl. destruct Hl as (u' & l' & Hmin & Hitems & ->).
  destruct (z_items_sound _ _ _ _ Hitems) as [Hsp _].
  destruct elements as [| e elements]; [discriminate |].
  inversion Hsp; subst. discriminate.
Qed.

(** X22. The answers of the handler of flashcard creation, case by case.
    Without a user it answers 401, to a body that is not JSON 400, to a
    body that fails validation 400 with the issues, and in none of these
    cases does it touch the world. For a valid body it inserts the rows of
    the caller and answers by the reply of the store: 201 with the rows the
    store created, when there is at least one and no error; otherwise, be it
    an error of the store, a reply without rows or an exception, one and
    the same 500 with a fixed text, the error going to the console. *)
Theorem POST_flashcards_answers requestJson w :
  POST_flashcards env None requestJson w = (unauthorized, w) /\
  forall u,
    (forall e, POST_flashcards env (Some u) (Rejects e) w = (invalid_json, w)) /\
    (forall requestBody errors,
       safeParse flashcardsCreateCommandSchema requestBody = ParseFailure errors ->
       POST_flashcards env (Some u) (Resolves requestBody) w
         = (validation_error_response errors, w)) /\
    (forall requestBody data,
       safeParse flashcardsCreateCommandSchema requestBody = ParseSuccess data ->
       let rows := map (to_insert (id u)) (flashcards data) in
       let run := POST_flashcards env (Some u) (Resolves requestBody) w in
       let inserted := emit (EvInsertFlashcards rows) w in
       let failed e w' :=
         (flashcards_failed,
          print console_error
            (handler_error_entry "[POST /api/flashcards] Error:" (Some u) e) w') in
       (forall created,
          created <> [] ->
          insert_flashcards env rows = Reply (Some created) None ->
          run = (mkHttpResponse 201
                   (JObj [("flashcards", JArr (map json_of_FlashcardDto created))]),
                 inserted)) /\
       (forall d err,
          insert_flashcards env rows = Reply d (Some err) ->
          run = failed (Error "Error" ("Failed to create flashcards: " ++ pg_message err))
                  (print console_error
                     [Text "Database error while creating flashcards:"; StoreError err]
                     inserted)) /\
       (insert_flashcards env rows = Reply None None \/
        insert_flashcards env rows = Reply (Some []) None ->
        run = failed (Error "Error" "No flashcards were created") inserted) /\
       (forall e,
          insert_flashcards env rows = Throws e ->
          run = failed e inserted)).
Proof.
  split; [reflexivity |].
  intros u. split; [reflexivity |]. split.
  - intros requestBody errors Hv. unfold POST_flashcards. rewrite Hv. reflexivity.
  - intros requestBody data Hv rows run inserted failed.
    pose proof (validated_nonempty _ _ Hv) as Hne.
    unfold run, POST_flashcards. rewrite Hv.
    unfold createFlashcards.
    destruct (flashcards data) as [| f batch] eqn:Hf; [congruence |].
    fold rows.
    unfold bind, store_call, throw, ret, console_log, modify.
    split; [| split; [| split]].
    + intros created Hc ->. destruct created; [congruence | reflexivity].
    + intros d err ->. destruct d as [[| d0 data0] |]; reflexivity.
    + intros [-> | ->]; reflexivity.
    + intros e ->. reflexivity.
Qed.

(** The events of [generateFlashcards] are events of its request. *)
Lemma generateFlashcards_events sourceText userId st res st' :
  generateFlashcards env sourceText userId st = (res, st') ->
  exists evs,
    gained (world st) (world st') evs /\
    Forall (generation_event env sourceText userId) evs.
Proof.
  assert (Hclient : forall cevs, Forall client_event cevs ->
                      Forall (generation_event env sourceText userId) cevs).
  { intros cevs H. eapply Forall_impl; [| exact H].
    intros ev Hev. destruct ev; simpl in *; auto; contradiction. }
  unfold generateFlashcards, bind, try_catch, Date_now, gets, throw.
  destruct (try_generate env sourceText userId (now (world st)) st) as [[r | e] st1] eqn:Htry;
    destruct (try_generate_shape _ _ _ _ _ _ _ Htry)
      as (cevs & Hev & [(Hg & _) | (row & ps & st0 & _ & Hg & Hrow & _)]).
  - intros H. inversion H; subst. exists cevs. split; [exact Hg | auto].
  - intros H. inversion H; subst. exists (cevs ++ [EvInsertGeneration row]).
    split; [exact Hg |]. apply Forall_app. split; [auto |].
    constructor; [exact Hrow | constructor].
  - destruct (logGenerationError_spec env (insert_generation_error_log env) e sourceText
                MODEL_NAME userId (now (world st1) - now (world st)) st1)
      as (st2 & Hlog & _ & Htl).
    change (logGenerationError (with_error_log env (insert_generation_error_log env)))
      with (logGenerationError env) in Hlog.
    rewrite Hlog. intros H. inversion H; subst.
    exists (cevs ++ [EvInsertErrorLog (error_row_of env sourceText userId e)]).
    unfold gained in *. split; [rewrite Htl, Hg, <- app_assoc; reflexivity |].
    apply Forall_app. split; [auto |].
    constructor; [exists e; reflexivity | constructor].
  - destruct (logGenerationError_spec env (insert_generation_error_log env) e sourceText
                MODEL_NAME userId (now (world st1) - now (world st)) st1)
      as (st2 & Hlog & _ & Htl).
    change (logGenerationError (with_error_log env (insert_generation_error_log env)))
      with (logGenerationError env) in Hlog.
    rewrite Hlog. intros H. inversion H; subst.
    exists ((cevs ++ [EvInsertGeneration row])
            ++ [EvInsertErrorLog (error_row_of env sourceText userId e)]).
    unfold gained in *. split; [rewrite Htl, Hg, <- !app_assoc; reflexivity |].
    apply Forall_app. split.
    + apply Forall_app. split; [auto |]. constructor; [exact Hrow | constructor].
    + constructor; [exists e; reflexivity | constructor].
Qed.

(** What [POST /api/generations] does once a user is known and the body is
    read. *)
Lemma POST_generations_run u requestBody w :
  POST_generations env (Some u) (Resolves requestBody) w =
    match safeParse generateFlashcardsCommandSchema requestBody with
    | ParseFailure errors => (validation_error_response errors, w)
    | ParseSuccess data =>
        match new_GenerationService env with
        | Throw error =>
            (generations_failed,
             print console_error
               (handler_error_entry "[POST /api/generations] Error:" (Some u) error) w)
        | Ok client =>
            match generateFlashcards env (source_text data) (id u) (mkState client w) with
            | (Ok result, st) => (mkHttpResponse 201 (json_of_generation result), world st)
            | (Throw error, st) =>
                (generations_failed,
                 print console_error
                   (handler_error_entry "[POST /api/generations] Error:" (Some u) error)
                   (world st))
            end
        end
    end.
Proof. reflexivity. Qed.

(** X23. The handler of generation calls the model and the store only for a
    logged-in user whose request passed validation, and every row it writes,
    generation row or error-log row, is owned by that user, names the model
    of the service and has a [source_text_length] between 1000 and 10000, as
    the tables require; it never writes flashcards. *)
Theorem POST_generations_rows locals_user requestJson w resp w' :
  POST_generations env locals_user requestJson w = (resp, w') ->
  exists evs,
    gained w w' evs /\
    (evs <> [] ->
     exists u requestBody data,
       locals_user = Some u /\
       requestJson = Resolves requestBody /\
       safeParse generateFlashcardsCommandSchema requestBody = ParseSuccess data) /\
    (forall g,
       In (EvInsertGeneration g) evs ->
       exists u,
         locals_user = Some u /\
         GenerationInsert.user_id g = id u /\
         GenerationInsert.model g = MODEL_NAME /\
         1000 <= GenerationInsert.source_text_length g <= 10000) /\
    (forall l,
       In (EvInsertErrorLog l) evs ->
       exists u,
         locals_user = Some u /\
         ErrorLogInsert.user_id l = id u /\
         ErrorLogInsert.model l = MODEL_NAME /\
         1000 <= ErrorLogInsert.source_text_length l <= 10000) /\
    (forall rows, ~ In (EvInsertFlashcards rows) evs).
Proof.
  assert (Hnil : forall w0 : World,
    exists evs,
      gained w0 w0 evs /\
      (evs <> [] ->
       exists u requestBody data,
         locals_user = Some u /\
         requestJson = Resolves requestBody /\
         safeParse generateFlashcardsCommandSchema requestBody = ParseSuccess data) /\
      (forall g,
         In (EvInsertGeneration g) evs ->
         exists u,
           locals_user = Some u /\
           GenerationInsert.user_id g = id u /\
           GenerationInsert.model g = MODEL_NAME /\
           1000 <= GenerationInsert.source_text_length g <= 10000) /\
      (forall l,
         In (EvInsertErrorLog l) evs ->
         exists u,
           locals_user = Some u /\
           ErrorLogInsert.user_id l = id u /\
           ErrorLogInsert.model l = MODEL_NAME /\
           1000 <= ErrorLogInsert.source_text_length l <= 10000) /\
      (forall rows, ~ In (EvInsertFlashcards rows) evs)).
  { intros w0. exists []. unfold gained. rewrite app_nil_r.
    split; [reflexivity |]. split; [congruence |].
    repeat split; intros ? []. }
  destruct locals_user as [u |];
    [| unfold POST_generations; intros H; inversion H; subst; apply Hnil].
  destruct requestJson as [requestBody | e];
    [| unfold POST_generations; intros H; inversion H; subst; apply Hnil].
  rewrite POST_generations_run.
  destruct (safeParse generateFlashcardsCommandSchema requestBody) as [data | errors] eqn:Hv;
    [| intros H; inversion H; subst; apply Hnil].
  assert (Hlen : 1000 <= str_length (source_text data) <= 10000).
  { revert Hv. unfold safeParse, generateFlashcardsCommandSchema, z_string_min_max.
    destruct requestBody as [| | | | | props]; try discriminate.
    destruct (lookup "source_text" props) as [[| | | s | |] |]; try discriminate.
    destruct (str_length s <? 1000) eqn:Hlo, (str_length s >? 10000) eqn:Hhi;
      try discriminate.
    simpl. intros H. inversion H; subst. simpl. split.
    - apply Z.ltb_ge. exact Hlo.
    - rewrite Z.gtb_ltb in Hhi. apply Z.ltb_ge. exact Hhi. }
  destruct (new_GenerationService env) as [client | e];
    [| intros H; inversion H; subst; apply (Hnil w)].
  destruct (generateFlashcards env (source_text data) (id u) (mkState client w))
    as [res st] eqn:Hgen.
  apply generateFlashcards_events in Hgen. destruct Hgen as (evs & Hg & Hev).
  simpl in Hg. rewrite Forall_forall in Hev.
  intros H.
  assert (Hw : gained w w' evs).
  { destruct res; inversion H; subst; exact Hg. }
  exists evs. split; [exact Hw |].
  split; [intros _; exists u, requestBody, data; repeat split; assumption |].
  split; [| split].
  - intros g Hin. destruct (Hev _ Hin) as (Hu & Hm & _ & Hl).
    exists u. split; [reflexivity |]. split; [exact Hu |]. split; [exact Hm |].
    rewrite Hl. exact Hlen.
  - intros l Hin. destruct (Hev _ Hin) as (e & ->).
    exists u. split; [reflexivity |]. simpl. repeat split; apply Hlen.
  - intros rows Hin. exact (Hev _ Hin).
Qed.

(** X24. Without an API key in the environment the generation service
    cannot be built: every valid request of a logged-in user is answered
    500 with the fixed text, and neither the model nor the store is called,
    not even for an error-log row. *)
Theorem POST_generations_without_key locals_user requestJson w :
  OPENROUTER_API_KEY env = None \/ OPENROUTER_API_KEY env = Some "" ->
  trace (snd (POST_generations env locals_user requestJson w)) = trace w /\
  (forall u requestBody data,
     locals_user = Some u ->
     requestJson = Resolves requestBody ->
     safeParse generateFlashcardsCommandSchema requestBody = ParseSuccess data ->
     fst (POST_generations env locals_user requestJson w) = generations_failed).
Proof.
  intros Hkey.
  assert (Hnew : exists e, new_GenerationService env = Throw e).
  { unfold new_GenerationService, new_OpenRouterService. simpl.
    destruct Hkey as [-> | ->]; eexists; reflexivity. }
  destruct Hnew as (e & Hnew).
  split.
  - destruct locals_user as [u |]; [| reflexivity].
    destruct requestJson as [requestBody | e']; [| reflexivity].
    rewrite POST_generations_run, Hnew.
    destruct (safeParse generateFlashcardsCommandSchema requestBody); reflexivity.
  - intros u requestBody data -> -> Hv.
    rewrite POST_generations_run, Hv, Hnew. reflexivity.
Qed.

(** X25. The answers of the handler of generation, case by case. Without
    a user it answers 401, to a body that is not JSON 400, to a body that
    fails validation 400 with the issues, and in none of these cases does it
    touch the world. For a valid body it answers 201 with the result of
    [generateFlashcards], run for the validated text and the caller on the
    client that [new_GenerationService] builds, when that returns; when the
    client cannot be built or the generation fails, it answers one and the
    same 500 with a fixed text, whatever the error, which goes to the
    console: the texts [callAIService] words for the user do not reach the
    client. *)
Theorem POST_generations_answers requestJson w :
  POST_generations env None requestJson w = (unauthorized, w) /\
  forall u,
    (forall e, POST_generations env (Some u) (Rejects e) w = (invalid_json, w)) /\
    (forall requestBody errors,
       safeParse generateFlashcardsCommandSchema requestBody = ParseFailure errors ->
       POST_generations env (Some u) (Resolves requestBody) w
         = (validation_error_response errors, w)) /\
    (forall requestBody data,
       safeParse generateFlashcardsCommandSchema requestBody = ParseSuccess data ->
       let run := POST_generations env (Some u) (Resolves requestBody) w in
       let failed e w' :=
         (generations_failed,
          print console_error
            (handler_error_entry "[POST /api/generations] Error:" (Some u) e) w') in
       (forall e, new_GenerationService env = Throw e -> run = failed e w) /\
       (forall client,
          new_GenerationService env = Ok client ->
          let generation :=
            generateFlashcards env (source_text data) (id u) (mkState client w) in
          (forall result st,
             generation = (Ok result, st) ->
             run = (mkHttpResponse 201 (json_of_generation result), world st)) /\
          (forall e st,
             generation = (Throw e, st) ->
             run = failed e (world st)))).
Proof.
  split; [reflexivity |].
  intros u. split; [reflexivity |]. split.
  - intros requestBody errors Hv. rewrite POST_generations_run, Hv. reflexivity.
  - intros requestBody data Hv run failed.
    unfold run. rewrite POST_generations_run, Hv.
    split.
    + intros e ->. reflexivity.
    + intros client Hnew. rewrite Hnew. cbv zeta.
      split; [intros result st -> | intros e st ->]; reflexivity.
Qed.

End HandlersMore.

(** * Properties of the generation view *)

Section ViewFacts.

(** X26. The view posts a generation request only for a text of 1000 to
    10000 characters and while no request is running, and every request it
    posts passes the validation of the server, with the text as typed. *)
Theorem handleGenerate_request_is_valid textValue isLoading :
  (generate_request textValue isLoading = None <->
   str_length textValue < 1000 \/ 10000 < str_length textValue \/ isLoading = true) /\
  (forall body,
     generate_request textValue isLoading = Some body ->
     safeParse generateFlashcardsCommandSchema body
       = ParseSuccess (mkGenerateFlashcardsCommand textValue)).
Proof.
  unfold generate_request, canGenerate, isTextValid.
  rewrite Z.geb_leb.
  destruct (Z.leb_spec 1000 (str_length textValue)) as [Hlo | Hlo];
    destruct (Z.leb_spec (str_length textValue) 10000) as [Hhi | Hhi];
    destruct isLoading; simpl;
    (split;
     [ split; [intros H; try discriminate; lia | intros H; try reflexivity]
     | intros body H; try discriminate ]).
  - destruct H as [H | [H | H]]; [lia | lia | discriminate].
  - inversion H; subst.
    unfold safeParse, generateFlashcardsCommandSchema, z_string_min_max.
    cbn [lookup String.eqb Ascii.eqb Bool.eqb]. simpl lookup.
    replace (str_length textValue <? 1000) with false
      by (symmetry; apply Z.ltb_ge; lia).
    replace (str_length textValue >? 10000) with false
      by (symmetry; rewrite Z.gtb_ltb; apply Z.ltb_ge; lia).
    reflexivity.
Qed.

Lemma save_flashcard_consistent g cards :
  Forall (fun f => generation_id_consistent f = true) (map (save_flashcard g) cards).
Proof.
  apply Forall_forall. intros f Hin. apply in_map_iff in Hin.
  destruct Hin as (card & <- & _).
  unfold generation_id_consistent, save_flashcard. simpl.
  destruct (edited card); reflexivity.
Qed.

Lemma flashcard_issues_message p f iss :
  generation_id_consistent f = true ->
  In iss (flashcard_issues p f) ->
  issue_message iss <> refinement_message.
Proof.
  intros Hc. unfold flashcard_issues. rewrite Hc.
  destruct (str_length (FlashcardCreateDto.front f) <? 1),
    (str_length (FlashcardCreateDto.front f) >? 200),
    (str_length (FlashcardCreateDto.back f) <? 1),
    (str_length (FlashcardCreateDto.back f) >? 500);
    simpl; intros H;
    repeat match goal with
           | H : _ \/ _ |- _ => destruct H as [H | H]
           | H : False |- _ => destruct H
           end;
    subst; unfold refinement_message; simpl; discriminate.
Qed.

Lemma batch_issues_message p :
  forall batch i iss,
    Forall (fun f => generation_id_consistent f = true) batch ->
    In iss (batch_issues p i batch) ->
    issue_message iss <> refinement_message.
Proof.
  induction batch as [| f batch IH]; intros i iss Hall; simpl; [intros [] |].
  inversion Hall as [| ? ? Hf Hr]; subst.
  intros Hin. apply in_app_or in Hin. destruct Hin as [Hin | Hin].
  - eapply flashcard_issues_message; eassumption.
  - eapply IH; eassumption.
Qed.

(** The verdict of the server on the batch made of the cards [sent]. *)
Lemma save_batch_verdict g sent :
  (forall errors,
     safeParse flashcardsCreateCommandSchema (json_of_command (map (save_flashcard g) sent))
       = ParseFailure errors ->
     forall i, ~ In (generation_id_issue i) errors) /\
  ((exists data,
      safeParse flashcardsCreateCommandSchema (json_of_command (map (save_flashcard g) sent))
        = ParseSuccess data) <->
   sent <> [] /\
   Forall (fun card => within_limits (view_front card) (view_back card)) sent).
Proof.
  rewrite safeParse_typed_batch.
  pose proof (save_flashcard_consistent g sent) as Hcons.
  split.
  - intros errors H i Hin.
    assert (Hin' : In (generation_id_issue i)
                     ((match map (save_flashcard g) sent with
                       | [] => [empty_batch_issue] | _ => [] end)
                      ++ batch_issues [Key "flashcards"] 0 (map (save_flashcard g) sent))).
    { destruct (_ ++ _); [discriminate |]. inversion H; subst. exact Hin. }
    apply in_app_or in Hin'. destruct Hin' as [Hin' | Hin'].
    + destruct (map (save_flashcard g) sent); [| destruct Hin'].
      destruct Hin' as [Hin' | []]. discriminate.
    + eapply batch_issues_message in Hin'; [| exact Hcons].
      apply Hin'. reflexivity.
  - assert (Hiff : batch_issues [Key "flashcards"] 0 (map (save_flashcard g) sent) = [] <->
                   Forall (fun card => within_limits (view_front card) (view_back card)) sent).
    { rewrite batch_issues_nil. rewrite Forall_map. split.
      - intros H. eapply Forall_impl; [| exact H]. intros card [Hl _]. exact Hl.
      - intros H. apply Forall_forall. intros card Hin.
        rewrite Forall_forall in H. split; [exact (H card Hin) |].
        unfold generation_id_consistent, save_flashcard. simpl.
        destruct (edited card); reflexivity. }
    destruct sent as [| card sent].
    + simpl. split; [intros [data H]; discriminate | intros [H _]; congruence].
    + change (match map (save_flashcard g) (card :: sent) with
              | [] => [empty_batch_issue] | _ => [] end) with (@nil ZodIssue).
      rewrite app_nil_l.
      destruct (batch_issues [Key "flashcards"] 0 (map (save_flashcard g) (card :: sent)))
        as [| i more] eqn:Hb.
      * split; [intros _; split; [discriminate | apply Hiff; reflexivity]
               | intros _; eexists; reflexivity].
      * split; [intros [data H]; discriminate |].
        intros [_ H]. apply Hiff in H. discriminate.
Qed.

(** X27. [handleSaveAll] posts a save request exactly when a generation
    with a non-zero id is known, and the request then carries all the cards
    of the view; [handleSaveAccepted] posts one exactly when, besides, at
    least one card is accepted, and the request then carries the accepted
    cards and no other. Whatever the cards, such a request never fails the
    rule of the server that ties the source to the generation; it passes
    validation exactly when at least one card is sent and every card sent
    has a front of 1 to 200 characters and a back of 1 to 500. *)
Theorem save_requests_validation generationId cards :
  (save_all_request generationId cards = None <->
   generationId = None \/ generationId = Some 0) /\
  (save_accepted_request generationId cards = None <->
   generationId = None \/ generationId = Some 0 \/ filter accepted cards = []) /\
  (forall body,
     save_all_request generationId cards = Some body ->
     exists g,
       generationId = Some g /\ g <> 0 /\
       save_verdict g cards body) /\
  (forall body,
     save_accepted_request generationId cards = Some body ->
     exists g,
       generationId = Some g /\ g <> 0 /\
       filter accepted cards <> [] /\
       (forall card, In card (filter accepted cards) <->
                     In card cards /\ accepted card = true) /\
       save_verdict g (filter accepted cards) body).
Proof.
  unfold save_all_request, save_accepted_request, save_verdict.
  destruct generationId as [g |].
  - destruct (Z.eqb_spec g 0) as [Hz | Hz].
    + subst g. split; [split; auto |]. split; [split; auto |].
      split; intros body H; discriminate.
    + split; [| split; [| split]].
      * split; [discriminate |]. intros [H | H]; [discriminate | congruence].
      * destruct (filter accepted cards) as [| card acceptedCards].
        -- split; auto.
        -- split; [discriminate |].
           intros [H | [H | H]]; [discriminate | congruence | discriminate].
      * intros body H. inversion H; subst. exists g.
        split; [reflexivity |]. split; [exact Hz |].
        split; [reflexivity |]. apply save_batch_verdict.
      * intros body H.
        destruct (filter accepted cards) as [| card acceptedCards] eqn:Hf; [discriminate |].
        inversion H; subst. exists g.
        split; [reflexivity |]. split; [exact Hz |]. split; [discriminate |].
        split; [intros c; rewrite <- Hf; apply filter_In |].
        split; [reflexivity |].
        exact (save_batch_verdict g (card :: acceptedCards)).
  - split; [split; auto |]. split; [split; auto |].
    split; intros body H; discriminate.
Qed.

Lemma string_of_Z_inj a b : string_of_Z a = string_of_Z b -> a = b.
Proof.
  assert (Hround : forall d,
            option_map Z.of_int (NilZero.int_of_string (NilZero.string_of_int d))
              = Some (Z.of_int d)).
  { intros [[| u | u | u | u | u | u | u | u | u | u] | [| u | u | u | u | u | u | u | u | u | u]];
      try (rewrite NilZero.isi; [reflexivity | discriminate | discriminate]).
    - rewrite NilZero.isi_posnil. reflexivity.
    - rewrite NilZero.isi_negnil. reflexivity. }
  unfold string_of_Z. intros H.
  pose proof (Hround (Z.to_int a)) as Ha. pose proof (Hround (Z.to_int b)) as Hb.
  rewrite H in Ha. rewrite Ha in Hb. rewrite !DecimalZ.of_to in Hb. congruence.
Qed.

Lemma append_inj_l (s a b : string) : (s ++ a = s ++ b)%string -> a = b.
Proof.
  induction s as [| c s IH]; simpl; intros H; [exact H |].
  inversion H. apply IH. assumption.
Qed.

Lemma view_models_from_ids generation :
  forall proposals index card,
    In card (view_models_from generation index proposals) ->
    exists j, (index <= j)%nat /\
              view_id card
                = (string_of_Z generation ++ "-" ++ string_of_Z (Z.of_nat j))%string.
Proof.
  induction proposals as [| p proposals IH]; intros index card; simpl; [intros [] |].
  intros [<- | Hin].
  - exists index. split; [lia | reflexivity].
  - destruct (IH _ _ Hin) as (j & Hj & Hid). exists j. split; [lia | exact Hid].
Qed.

Lemma view_models_from_NoDup generation :
  forall proposals index,
    NoDup (map view_id (view_models_from generation index proposals)).
Proof.
  induction proposals as [| p proposals IH]; intros index; simpl; constructor.
  - intros Hin. apply in_map_iff in Hin. destruct Hin as (card & Hid & Hin).
    destruct (view_models_from_ids _ _ _ _ Hin) as (j & Hj & Hid').
    rewrite Hid' in Hid. apply append_inj_l in Hid.
    change ("-" ++ string_of_Z (Z.of_nat j))%string
      with (String "-" (string_of_Z (Z.of_nat j))) in Hid.
    change ("-" ++ string_of_Z (Z.of_nat index))%string
      with (String "-" (string_of_Z (Z.of_nat index))) in Hid.
    inversion Hid as [Heq]. apply string_of_Z_inj in Heq. lia.
  - apply IH.
Qed.

Lemma view_models_from_length generation :
  forall proposals index,
    List.length (view_models_from generation index proposals) = List.length proposals.
Proof.
  induction proposals as [| p proposals IH]; intros index; simpl; [reflexivity |].
  rewrite IH. reflexivity.
Qed.

Lemma NoDup_map_filter {A B : Type} (f : A -> B) (keep : A -> bool) :
  forall l, NoDup (map f l) -> NoDup (map f (filter keep l)).
Proof.
  induction l as [| a l IH]; simpl; intros H; [constructor |].
  inversion H as [| ? ? Hnot Hrest]; subst.
  destruct (keep a); simpl; [constructor |]; [| apply IH; exact Hrest | apply IH; exact Hrest].
  intros Hin. apply Hnot. apply in_map_iff in Hin. destruct Hin as (x & Hx & Hin).
  apply filter_In in Hin. apply in_map_iff. exists x. split; [exact Hx | apply Hin].
Qed.

(** Every step of the view keeps the ids distinct, the source in line with
    the [edited] flag, and the number of cards from growing. *)
Lemma view_step_invariant cards action :
  NoDup (map view_id cards) ->
  Forall source_tracks_edits cards ->
  NoDup (map view_id (view_step cards action)) /\
  Forall source_tracks_edits (view_step cards action) /\
  (List.length (view_step cards action) <= List.length cards)%nat.
Proof.
  intros Hnd Hsrc. destruct action as [i | i front back | i]; simpl.
  - unfold handleAccept. split; [| split].
    + rewrite map_map.
      erewrite map_ext; [exact Hnd |].
      intros card. simpl. destruct (view_id card =? i)%string; reflexivity.
    + apply Forall_map. eapply Forall_impl; [| exact Hsrc].
      intros card H. destruct (view_id card =? i)%string; exact H.
    + rewrite length_map. lia.
  - unfold handleEdit. split; [| split].
    + rewrite map_map.
      erewrite map_ext; [exact Hnd |].
      intros card. simpl. destruct (view_id card =? i)%string; reflexivity.
    + apply Forall_map. eapply Forall_impl; [| exact Hsrc].
      intros card H. destruct (view_id card =? i)%string; [reflexivity | exact H].
    + rewrite length_map. lia.
  - unfold handleReject. split; [| split].
    + apply NoDup_map_filter. exact Hnd.
    + apply Forall_forall. intros card Hin. apply filter_In in Hin.
      rewrite Forall_forall in Hsrc. apply Hsrc. apply Hin.
    + apply filter_length_le.
Qed.

Lemma view_run_invariant actions :
  forall cards,
    NoDup (map view_id cards) ->
    Forall source_tracks_edits cards ->
    NoDup (map view_id (view_run actions cards)) /\
    Forall source_tracks_edits (view_run actions cards) /\
    (List.length (view_run actions cards) <= List.length cards)%nat.
Proof.
  induction actions as [| action actions IH]; intros cards Hnd Hsrc; simpl.
  - split; [exact Hnd |]. split; [exact Hsrc | lia].
  - destruct (view_step_invariant cards action Hnd Hsrc) as (Hnd' & Hsrc' & Hlen').
    destruct (IH _ Hnd' Hsrc') as (Hnd2 & Hsrc2 & Hlen2).
    split; [exact Hnd2 |]. split; [exact Hsrc2 |].
    unfold view_run in *. lia.
Qed.

Lemma cards_with_id_NoDup id' :
  forall cards,
    NoDup (map view_id cards) -> (List.length (cards_with_id id' cards) <= 1)%nat.
Proof.
  assert (Hnone : forall cards, ~ In id' (map view_id cards) -> cards_with_id id' cards = []).
  { induction cards as [| card cards IH]; simpl; intros Hnot; [reflexivity |].
    destruct (String.eqb_spec (view_id card) id') as [Heq | Hne].
    - exfalso. apply Hnot. left. exact Heq.
    - apply IH. intros Hin. apply Hnot. right. exact Hin. }
  induction cards as [| card cards IH]; simpl; intros Hnd; [lia |].
  inversion Hnd as [| ? ? Hnot Hrest]; subst.
  destruct (String.eqb_spec (view_id card) id') as [Heq | Hne].
  - subst. simpl. fold (cards_with_id (view_id card) cards).
    rewrite (Hnone cards Hnot). simpl. lia.
  - apply IH. exact Hrest.
Qed.

(** X28. Whatever the user accepts, edits and rejects after a generation,
    the view holds no more cards than the server proposed, their ids stay
    distinct, so that a handler given an id acts on one card at most, and
    every card is saved under the source the view shows for it: 'ai-edited'
    once edited, 'ai-full' before. *)
Theorem view_cards_invariant generation proposals actions :
  Forall (fun p => proposal_source p = ai_full) proposals ->
  let cards := view_run actions (view_models_from generation 0 proposals) in
  (List.length cards <= List.length proposals)%nat /\
  NoDup (map view_id cards) /\
  (forall id', (List.length (cards_with_id id' cards) <= 1)%nat) /\
  Forall (fun card =>
            FlashcardCreateDto.source (save_flashcard generation card) = view_source card /\
            (edited card = true <-> view_source card = ai_edited))
         cards.
Proof.
  intros Hfull cards.
  assert (Hsrc0 : Forall source_tracks_edits (view_models_from generation 0 proposals)).
  { generalize 0%nat. induction Hfull as [| p ps Hp _ IH]; intros index; simpl; constructor.
    - unfold source_tracks_edits. simpl. exact Hp.
    - apply IH. }
  destruct (view_run_invariant actions _ (view_models_from_NoDup generation proposals 0) Hsrc0)
    as (Hnd & Hsrc & Hlen).
  rewrite view_models_from_length in Hlen.
  split; [exact Hlen |]. split; [exact Hnd |].
  split; [intros id'; apply cards_with_id_NoDup; exact Hnd |].
  eapply Forall_impl; [| exact Hsrc].
  intros card H. unfold source_tracks_edits in H. unfold save_flashcard. simpl.
  rewrite H. destruct (edited card); split; try reflexivity;
    split; intros H'; try reflexivity; discriminate.
Qed.

End ViewFacts.

(** * Properties of the middleware and of the cookie header *)

Section MiddlewareFacts.

Variable env : Env.

(** X29. Behind the middleware the two API handlers never answer 401: both
    routes are protected, so a request without a session is redirected to
    the login page, which is public and so never redirected again, before
    the handler runs; with a session the handler runs as the user of that
    session. *)
Theorem api_routes_behind_middleware pathname handler session requestJson w :
  (pathname = "/api/flashcards" /\ handler = POST_flashcards env) \/
  (pathname = "/api/generations" /\ handler = POST_generations env) ->
  match onRequest pathname session (fun u => handler u requestJson w) with
  | Redirected location =>
      session = None /\
      location = "/auth/login" /\
      forall (B : Type) session' (next' : option User -> B),
        onRequest location session' next' = Passed (next' None)
  | Passed answer =>
      exists u,
        session = Some u /\
        answer = handler (Some (mkUser (session_id u) (session_email u))) requestJson w /\
        response_status (fst answer) <> 401
  end.
Proof.
  intros Hroute.
  assert (Hpath : includes PUBLIC_PATHS pathname = false).
  { destruct Hroute as [[-> _] | [-> _]]; reflexivity. }
  unfold onRequest. rewrite Hpath.
  destruct session as [u |].
  - exists u. split; [reflexivity |]. split; [reflexivity |].
    destruct Hroute as [[_ ->] | [_ ->]].
    + unfold POST_flashcards.
      destruct requestJson as [requestBody | e]; [| simpl; lia].
      destruct (safeParse flashcardsCreateCommandSchema requestBody); [| simpl; lia].
      destruct (createFlashcards env _ _ w) as [[created | e] w1]; simpl; lia.
    + destruct requestJson as [requestBody | e]; [| simpl; lia].
      rewrite POST_generations_run.
      destruct (safeParse generateFlashcardsCommandSchema requestBody); [| simpl; lia].
      destruct (new_GenerationService env); [| simpl; lia].
      destruct (generateFlashcards env _ _ _) as [[result | e] st]; simpl; lia.
  - split; [reflexivity |]. split; [reflexivity |].
    intros B session' next'. reflexivity.
Qed.

End MiddlewareFacts.

Section CookieFacts.

Lemma has_char_app c a b :
  has_char c (a ++ b) = has_char c a || has_char c b.
Proof.
  induction a as [| d a IH]; simpl; [reflexivity |].
  rewrite IH. apply orb_assoc.
Qed.

Lemma split_on_whole sep s :
  has_char sep s = false -> split_on sep s = [s].
Proof.
  induction s as [| c s IH]; simpl; [reflexivity |].
  intros H. apply orb_false_iff in H. destruct H as [Hc Hs].
  rewrite Hc, (IH Hs). reflexivity.
Qed.

Lemma split_on_first sep a b :
  has_char sep a = false ->
  split_on sep (a ++ String sep b) = a :: split_on sep b.
Proof.
  induction a as [| c a IH]; simpl.
  - intros _. rewrite Ascii.eqb_refl. reflexivity.
  - intros H. apply orb_false_iff in H. destruct H as [Hc Ha].
    rewrite Hc, (IH Ha). reflexivity.
Qed.

Lemma split_on_cons sep s : exists first others, split_on sep s = first :: others.
Proof.
  destruct s as [| c s]; simpl; [eexists; eexists; reflexivity |].
  destruct (Ascii.eqb c sep); [eexists; eexists; reflexivity |].
  destruct (split_on sep s); eexists; eexists; reflexivity.
Qed.

(** Splitting and joining again gives the string back. *)
Lemma join_split_on sep s : join (String sep "") (split_on sep s) = s.
Proof.
  induction s as [| c s IH]; [reflexivity |].
  cbn [split_on].
  destruct (split_on_cons sep s) as (first & others & Hs). rewrite Hs in *.
  destruct (Ascii.eqb_spec c sep) as [-> | Hne].
  - change (join (String sep "") ("" :: first :: others))
      with (String sep (join (String sep "") (first :: others))).
    rewrite IH. reflexivity.
  - destruct others as [| o others].
    + simpl in *. rewrite IH. reflexivity.
    + change (join (String sep "") (String c first :: o :: others))
        with (String c (join (String sep "") (first :: o :: others))).
      rewrite IH. reflexivity.
Qed.

Lemma append_assoc (a b c : string) : ((a ++ b) ++ c = a ++ (b ++ c))%string.
Proof.
  induction a as [| x a IH]; simpl; [reflexivity |]. rewrite IH. reflexivity.
Qed.

Lemma has_char_pair c :
  sendable c -> has_char ";" (cookie_pair c) = false.
Proof.
  intros (Hn & _ & Hv & _). unfold cookie_pair.
  rewrite !has_char_app, Hn, Hv. reflexivity.
Qed.

(** The cookies read in a header, after white space [lead] of a separator. *)
Lemma parseCookieHeader_pieces :
  forall cookies c lead,
    lead = "" \/ lead = " " ->
    Forall sendable (c :: cookies) ->
    parseCookieHeader (lead ++ cookie_header (c :: cookies)) = c :: cookies.
Proof.
  assert (Hone : forall c lead,
            lead = "" \/ lead = " " -> sendable c ->
            match split_on "=" (trim (lead ++ cookie_pair c)) with
            | name :: rest => (name, join "=" rest)
            | [] => ("", "")
            end = c).
  { intros c lead Hlead Hc.
    assert (Ht : trim (lead ++ cookie_pair c) = cookie_pair c).
    { destruct Hc as (_ & _ & _ & Ht). destruct Hlead as [-> | ->]; exact Ht. }
    rewrite Ht. destruct Hc as (_ & Hn & _ & _). destruct c as [n v].
    unfold cookie_pair. simpl fst. simpl snd.
    change ("=" ++ v)%string with (String "=" v).
    rewrite (split_on_first "=" n v Hn).
    rewrite (join_split_on "=" v). reflexivity. }
  assert (Hlead_char : forall lead, lead = "" \/ lead = " " -> has_char ";" lead = false).
  { intros lead [-> | ->]; reflexivity. }
  unfold parseCookieHeader.
  induction cookies as [| c' cookies IH]; intros c lead Hlead Hall.
  - inversion Hall as [| ? ? Hc _]; subst.
    unfold cookie_header. cbn [map join].
    rewrite split_on_whole
      by (rewrite has_char_app, (Hlead_char lead Hlead), (has_char_pair c Hc); reflexivity).
    cbn [map]. rewrite (Hone c lead Hlead Hc). reflexivity.
  - inversion Hall as [| ? ? Hc Hrest]; subst.
    change (cookie_header (c :: c' :: cookies))
      with (cookie_pair c ++ "; " ++ cookie_header (c' :: cookies))%string.
    change ("; " ++ cookie_header (c' :: cookies))%string
      with (String ";" (" " ++ cookie_header (c' :: cookies)))%string.
    rewrite <- append_assoc.
    rewrite split_on_first
      by (rewrite has_char_app, (Hlead_char lead Hlead), (has_char_pair c Hc); reflexivity).
    cbn [map]. rewrite (Hone c lead Hlead Hc).
    rewrite (IH c' " " (or_intror eq_refl) Hrest). reflexivity.
Qed.

(** X30. [parseCookieHeader] reads back the cookies of a [Cookie] header:
    every cookie in order, with its name and its value, a value with
    equals signs in it kept whole. For a request without cookies it does
    not return an empty list but one cookie with an empty name and an
    empty value. *)
Theorem parseCookieHeader_round_trip cookies :
  Forall sendable cookies ->
  parseCookieHeader (cookie_header cookies)
    = match cookies with
      | [] => [("", "")]
      | _ => cookies
      end.
Proof.
  intros Hall. destruct cookies as [| c cookies]; [reflexivity |].
  exact (parseCookieHeader_pieces cookies c "" (or_introl eq_refl) Hall).
Qed.

End CookieFacts.

(** * Sample runs of the further properties *)

Lemma sendChatMessage_without_message_witness :
  let S0 := mkState (sample_client None) world0 in
  (@None string = None \/ @None string = Some "") /\
  currentUserMessage (openRouter S0) = "" /\
  exists message st',
    sendChatMessage (sample_env three_cards_endpoint (stored 7) logged) None S0
      = (Throw (OpenRouterError message MISSING_USER_MESSAGE None None false), st') /\
    world st' = world S0.
Proof.
  intros S0.
  assert (H1 : @None string = None \/ @None string = Some "") by (left; reflexivity).
  assert (H2 : currentUserMessage (openRouter S0) = "") by reflexivity.
  split; [exact H1 |]. split; [exact H2 |].
  destruct (sendChatMessage_without_message
              (sample_env three_cards_endpoint (stored 7) logged) None S0 H1 H2)
    as (message & st' & m & Hrun & Hw & _).
  exists message, st'. split; [exact Hrun | exact Hw].
Defined.

Lemma sendChatMessage_sends_one_request_witness :
  let E := sample_env flaky_endpoint (stored 7) logged in
  let S0 := mkState (sample_client None) world0 in
  sendChatMessage E (Some "hello?") S0
    = (Ok (JStr "hello"), snd (sendChatMessage E (Some "hello?") S0)) /\
  exists evs,
    gained (world S0) (world (snd (sendChatMessage E (Some "hello?") S0))) evs /\
    forall url bearer payload,
      In (EvFetch url bearer payload) evs ->
      url = "https://openrouter.ai/api/v1/chat/completions" /\ bearer = "sk-test".
Proof.
  intros E S0.
  assert (H : sendChatMessage E (Some "hello?") S0
              = (Ok (JStr "hello"), snd (sendChatMessage E (Some "hello?") S0)))
    by (vm_compute; reflexivity).
  split; [exact H |].
  destruct (sendChatMessage_sends_one_request E (Some "hello?") S0 _ _ H)
    as (evs & Hg & Hev).
  exists evs. split; [exact Hg |].
  intros url bearer payload Hin.
  destruct (Hev url bearer payload Hin) as (Hu & Hb & _).
  split; [exact Hu | exact Hb].
Defined.

Lemma executeRequest_total_backoff_witness :
  let E := sample_env busy_endpoint (stored 7) logged in
  let S0 := mkState (sample_client None) world0 in
  0 <= maxRetries (openRouter S0) /\
  0 <= retryDelay (openRouter S0) /\
  exists res st' evs,
    executeRequest E sample_payload S0 = (res, st') /\
    gained (world S0) (world st') evs /\
    total_sleep evs <= 7000.
Proof.
  intros E S0.
  assert (H1 : 0 <= maxRetries (openRouter S0)) by (simpl; lia).
  assert (H2 : 0 <= retryDelay (openRouter S0)) by (simpl; lia).
  split; [exact H1 |]. split; [exact H2 |].
  destruct (executeRequest_total_backoff E sample_payload S0 H1 H2)
    as (res & st' & evs & k & Hrun & Hg & _ & _ & Hmax).
  exists res, st', evs. split; [exact Hrun |]. split; [exact Hg | exact Hmax].
Defined.

Lemma executeRequest_exhausts_on_timeouts_witness :
  let E := sample_env aborting_endpoint (stored 7) logged in
  let S0 := mkState (sample_client None) world0 in
  0 <= maxRetries (openRouter S0) /\
  (forall n, exists ms message,
      fetch_outcome E n = mkFetchOutcome ms (Rejected (Error "AbortError" message))) /\
  exists st' evs,
    gained (world S0) (world st') evs /\
    Z.of_nat (fetch_count evs) = 4.
Proof.
  intros E S0.
  assert (H1 : 0 <= maxRetries (openRouter S0)) by (simpl; lia).
  assert (H2 : forall n, exists ms message,
               fetch_outcome E n = mkFetchOutcome ms (Rejected (Error "AbortError" message)))
    by (intros n; eexists; eexists; reflexivity).
  split; [exact H1 |]. split; [exact H2 |].
  destruct (executeRequest_exhausts_on_timeouts E sample_payload S0 H1 H2)
    as (abort & st' & evs & _ & Hg & Hn & _).
  exists st', evs. split; [exact Hg | exact Hn].
Defined.

Lemma executeRequest_waits_out_failures_witness :
  let E := sample_env flaky_endpoint (stored 7) logged in
  let S0 := mkState (sample_client None) world0 in
  Z.of_nat 2 <= maxRetries (openRouter S0) /\
  (forall i, (i < 2)%nat ->
     exists e,
       attempt_outcome (fetch_outcome E (fetched (world S0) + i)) = Throw e /\
       retryable_failure e = true) /\
  attempt_outcome (fetch_outcome E (fetched (world S0) + 2)) = Ok (completion "hello") /\
  (forall i, 0 <= took (fetch_outcome E i)) /\
  exists st',
    executeRequest E sample_payload S0 = (Ok (completion "hello"), st') /\
    3000 <= now (world st').
Proof.
  intros E S0.
  assert (H1 : Z.of_nat 2 <= maxRetries (openRouter S0)) by (simpl; lia).
  assert (H2 : forall i, (i < 2)%nat ->
               exists e,
                 attempt_outcome (fetch_outcome E (fetched (world S0) + i)) = Throw e /\
                 retryable_failure e = true).
  { intros i Hi. destruct i as [| [| i]]; [| | lia];
      eexists; split; vm_compute; reflexivity. }
  assert (H3 : attempt_outcome (fetch_outcome E (fetched (world S0) + 2))
               = Ok (completion "hello")) by reflexivity.
  assert (H4 : forall i, 0 <= took (fetch_outcome E i)).
  { intros i. simpl. unfold flaky_endpoint. destruct (i <? 2)%nat; simpl; lia. }
  split; [exact H1 |]. split; [exact H2 |]. split; [exact H3 |]. split; [exact H4 |].
  destruct (executeRequest_waits_out_failures E sample_payload S0 2 _ H1 H2 H3 H4)
    as (st' & evs & Hrun & _ & _ & Hnow).
  exists st'. split; [exact Hrun | exact Hnow].
Defined.


Lemma sendChatMessage_parses_without_retry_witness :
  let E := sample_env three_cards_endpoint (stored 7) logged in
  let S0 := mkState generation_client world0 in
  0 <= maxRetries (openRouter S0) /\
  messageToSend (Some "hello?") (openRouter S0) <> "" /\
  attempt_outcome (fetch_outcome E (fetched (world S0))) = Ok (completion three_cards_text) /\
  exists st',
    sendChatMessage E (Some "hello?") S0 = (Ok three_cards, st').
Proof.
  intros E S0.
  assert (H1 : 0 <= maxRetries (openRouter S0)) by (simpl; lia).
  assert (H2 : messageToSend (Some "hello?") (openRouter S0) <> "") by discriminate.
  assert (H3 : attempt_outcome (fetch_outcome E (fetched (world S0)))
               = Ok (completion three_cards_text)) by reflexivity.
  split; [exact H1 |]. split; [exact H2 |]. split; [exact H3 |].
  destruct (sendChatMessage_parses_without_retry E (Some "hello?") S0 _ H1 H2 H3)
    as (st' & Hrun & _).
  exists st'. exact Hrun.
Defined.

Lemma sendChatMessage_metadata_witness :
  let E := sample_env (unauthorized_endpoint (JObj [])) (stored 7) logged in
  let S0 := mkState (sample_client None) world0 in
  sendChatMessage E (Some "hello?") S0
    = (Throw (OpenRouterError "HTTP 401: Unauthorized" AUTHENTICATION_ERROR (Some 401)
                (Some (Value (JObj []))) false),
       snd (sendChatMessage E (Some "hello?") S0)) /\
  exists m,
    lastRequestMetadata (openRouter (snd (sendChatMessage E (Some "hello?") S0))) = Some m /\
    success m = false /\
    errorCode m = Some AUTHENTICATION_ERROR.
Proof.
  intros E S0.
  assert (H : sendChatMessage E (Some "hello?") S0
              = (Throw (OpenRouterError "HTTP 401: Unauthorized" AUTHENTICATION_ERROR
                          (Some 401) (Some (Value (JObj []))) false),
                 snd (sendChatMessage E (Some "hello?") S0)))
    by (vm_compute; reflexivity).
  split; [exact H |].
  destruct (sendChatMessage_metadata E (Some "hello?") S0 _ _ H)
    as (m & Hs & _ & _ & _ & _ & Hok & Hcode & _).
  exists m. rewrite Hs. split; [reflexivity |]. split; [exact Hok | exact Hcode].
Defined.

Lemma generateFlashcards_success_witness :
  let E := sample_env three_cards_endpoint (stored 7) logged in
  let S0 := mkState generation_client world0 in
  let r := mkGenerationCreateResponseDto 7 sample_proposals 3 in
  generateFlashcards E "source text" "user-1" S0
    = (Ok r, snd (generateFlashcards E "source text" "user-1" S0)) /\
  exists cevs row,
    gained (world S0) (world (snd (generateFlashcards E "source text" "user-1" S0)))
      (cevs ++ [EvInsertGeneration row]) /\
    GenerationInsert.user_id row = "user-1" /\
    GenerationInsert.generated_count row = 3.
Proof.
  intros E S0 r.
  assert (H : generateFlashcards E "source text" "user-1" S0
              = (Ok r, snd (generateFlashcards E "source text" "user-1" S0)))
    by (vm_compute; reflexivity).
  split; [exact H |].
  destruct (generateFlashcards_success E "source text" "user-1" S0 r _ H)
    as (cevs & row & _ & Hg & (Hu & _) & _ & Hc & _).
  exists cevs, row. split; [exact Hg |]. split; [exact Hu | exact Hc].
Defined.

Lemma generateFlashcards_failure_witness :
  let E := sample_env three_cards_endpoint store_down logged in
  let S0 := mkState generation_client world0 in
  let e := Error "Error" "Failed to save generation metadata" in
  generateFlashcards E "source text" "user-1" S0
    = (Throw e, snd (generateFlashcards E "source text" "user-1" S0)) /\
  exists cevs,
    Forall client_event cevs /\
    (gained (world S0) (world (snd (generateFlashcards E "source text" "user-1" S0)))
       (cevs ++ [EvInsertErrorLog (error_row_of E "source text" "user-1" e)]) \/
     exists row,
       generation_row_of E "source text" "user-1" row /\
       gained (world S0) (world (snd (generateFlashcards E "source text" "user-1" S0)))
         (cevs ++ [EvInsertGeneration row;
                   EvInsertErrorLog (error_row_of E "source text" "user-1" e)])).
Proof.
  intros E S0 e.
  assert (H : generateFlashcards E "source text" "user-1" S0
              = (Throw e, snd (generateFlashcards E "source text" "user-1" S0)))
    by (vm_compute; reflexivity).
  split; [exact H |].
  exact (generateFlashcards_failure E "source text" "user-1" S0 e _ H).
Defined.

Lemma generateFlashcards_store_failure_witness :
  let E := sample_env three_cards_endpoint store_down logged in
  let S0 := mkState generation_client world0 in
  callAIService E "source text" S0
    = (Ok sample_proposals, snd (callAIService E "source text" S0)) /\
  exists st',
    generateFlashcards E "source text" "user-1" S0
      = (Throw (Error "Error" "Failed to save generation metadata"), st').
Proof.
  intros E S0.
  assert (H : callAIService E "source text" S0
              = (Ok sample_proposals, snd (callAIService E "source text" S0)))
    by (vm_compute; reflexivity).
  split; [exact H |].
  destruct (proj1 (generateFlashcards_store_failure E "source text" "user-1" S0 _ _ H)
              None (mkPostgrestError "connection refused") (fun _ => eq_refl))
    as (st' & Hrun & _).
  exists st'. exact Hrun.
Defined.

Lemma callAIService_returns_only_typed_cards_witness :
  let E := sample_env three_cards_endpoint (stored 7) logged in
  let S0 := mkState generation_client world0 in
  callAIService E "source text" S0
    = (Ok sample_proposals, snd (callAIService E "source text" S0)) /\
  Forall (fun p => str_length (proposal_front p) <= 200 /\
                   str_length (proposal_back p) <= 500 /\
                   proposal_source p = ai_full) sample_proposals.
Proof.
  intros E S0.
  assert (H : callAIService E "source text" S0
              = (Ok sample_proposals, snd (callAIService E "source text" S0)))
    by (vm_compute; reflexivity).
  split; [exact H |].
  destruct (callAIService_returns_only_typed_cards E "source text" S0 _ _ H)
    as (payload & st1 & props & cards & _ & _ & _ & _ & Hall).
  exact Hall.
Defined.

Lemma generateFlashcards_rejects_shapeless_payload_witness :
  let S0 := mkState generation_client world0 in
  let props := [("cards", JArr [])] in
  sendChatMessage shapeless_env (Some (userMessage_for "source text")) S0
    = (Ok (JObj props),
       snd (sendChatMessage shapeless_env (Some (userMessage_for "source text")) S0)) /\
  (forall cards, lookup "flashcards" props <> Some (JArr cards)) /\
  exists st',
    generateFlashcards shapeless_env "source text" "user-1" S0
      = (Throw (Error "Error" "Invalid response format from AI service"), st').
Proof.
  intros S0 props.
  assert (H : sendChatMessage shapeless_env (Some (userMessage_for "source text")) S0
              = (Ok (JObj props),
                 snd (sendChatMessage shapeless_env
                        (Some (userMessage_for "source text")) S0)))
    by (vm_compute; reflexivity).
  assert (H2 : forall cards, lookup "flashcards" props <> Some (JArr cards))
    by (intros cards; discriminate).
  split; [exact H |]. split; [exact H2 |].
  destruct (generateFlashcards_rejects_shapeless_payload shapeless_env "source text"
              "user-1" S0 props _ H H2) as (st' & Hrun & _).
  exists st'. exact Hrun.
Defined.

Lemma flashcardsCreateCommandSchema_sound_witness :
  safeParse flashcardsCreateCommandSchema (json_of_command sample_batch)
    = ParseSuccess (mkFlashcardsCreateCommand sample_batch) /\
  Forall (fun f =>
            within_limits (FlashcardCreateDto.front f) (FlashcardCreateDto.back f) /\
            FlashcardCreateDto.user_id f = None) sample_batch.
Proof.
  assert (H : safeParse flashcardsCreateCommandSchema (json_of_command sample_batch)
              = ParseSuccess (mkFlashcardsCreateCommand sample_batch))
    by (vm_compute; reflexivity).
  split; [exact H |].
  destruct (flashcardsCreateCommandSchema_sound _ _ H)
    as (props & items & _ & _ & _ & _ & Hall).
  exact Hall.
Defined.

Lemma POST_flashcards_inserts_for_the_caller_witness :
  let E := sample_env busy_endpoint (stored 7) logged in
  let run := POST_flashcards E (Some sample_user)
               (Resolves (json_of_command sample_batch)) world0 in
  run = (fst run, snd run) /\
  exists evs,
    gained world0 (snd run) evs /\
    forall rows,
      In (EvInsertFlashcards rows) evs ->
      Forall (fun r => FlashcardInsert.user_id r = "user-1") rows.
Proof.
  intros E run.
  assert (H : run = (fst run, snd run)) by (vm_compute; reflexivity).
  split; [exact H |].
  destruct (POST_flashcards_inserts_for_the_caller E (Some sample_user)
              (Resolves (json_of_command sample_batch)) world0 _ _ H) as (evs & Hg & Hev).
  exists evs. split; [exact Hg |].
  intros rows Hin.
  destruct (Hev rows Hin) as (u & requestBody & data & Hu & _ & _ & _ & Hall).
  inversion Hu; subst.
  eapply Forall_impl; [| exact Hall]. intros r [Hr _]. exact Hr.
Defined.

Lemma POST_generations_rows_witness :
  let E := sample_env three_cards_endpoint (stored 7) logged in
  let run := POST_generations E (Some sample_user)
               (Resolves sample_generation_request) world0 in
  run = (fst run, snd run) /\
  exists evs,
    gained world0 (snd run) evs /\
    forall g,
      In (EvInsertGeneration g) evs ->
      GenerationInsert.user_id g = "user-1" /\
      1000 <= GenerationInsert.source_text_length g <= 10000.
Proof.
  intros E run.
  assert (H : run = (fst run, snd run)) by (vm_compute; reflexivity).
  split; [exact H |].
  destruct (POST_generations_rows E (Some sample_user)
              (Resolves sample_generation_request) world0 _ _ H)
    as (evs & Hg & _ & Hgen & _).
  exists evs. split; [exact Hg |].
  intros g Hin.
  destruct (Hgen g Hin) as (u & Hu & Hid & _ & Hlen).
  inversion Hu; subst. split; [exact Hid | exact Hlen].
Defined.

Lemma POST_generations_without_key_witness :
  (OPENROUTER_API_KEY keyless_env = None \/ OPENROUTER_API_KEY keyless_env = Some "") /\
  trace (snd (POST_generations keyless_env (Some sample_user)
                (Resolves sample_generation_request) world0)) = [] /\
  fst (POST_generations keyless_env (Some sample_user)
         (Resolves sample_generation_request) world0) = generations_failed.
Proof.
  assert (H : OPENROUTER_API_KEY keyless_env = None \/ OPENROUTER_API_KEY keyless_env = Some "")
    by (left; reflexivity).
  split; [exact H |].
  destruct (POST_generations_without_key keyless_env (Some sample_user)
              (Resolves sample_generation_request) world0 H) as (Htrace & Hresp).
  split; [exact Htrace |].
  apply (Hresp sample_user sample_generation_request
           (mkGenerateFlashcardsCommand (repeat_string "x" 1000)) eq_refl eq_refl).
  vm_compute. reflexivity.
Defined.

Lemma save_requests_validation_witness :
  let cards := view_run sample_actions sample_view in
  let body := json_of_command (map (save_flashcard 7) (filter accepted cards)) in
  save_accepted_request (Some 7) cards = Some body /\
  exists data, safeParse flashcardsCreateCommandSchema body = ParseSuccess data.
Proof.
  intros cards body.
  assert (H : save_accepted_request (Some 7) cards = Some body)
    by (vm_compute; reflexivity).
  split; [exact H |].
  destruct (proj2 (proj2 (proj2 (save_requests_validation (Some 7) cards))) body H)
    as (g & _ & _ & Hne & _ & _ & _ & Hiff).
  apply Hiff. split; [exact Hne |].
  vm_compute. repeat constructor; discriminate.
Defined.

Lemma view_cards_invariant_witness :
  Forall (fun p => proposal_source p = ai_full) sample_proposals /\
  (List.length (view_run sample_actions sample_view) <= 3)%nat /\
  NoDup (map view_id (view_run sample_actions sample_view)).
Proof.
  assert (H : Forall (fun p => proposal_source p = ai_full) sample_proposals)
    by (repeat constructor).
  split; [exact H |].
  destruct (view_cards_invariant 7 sample_proposals sample_actions H)
    as (Hlen & Hnd & _).
  split; [exact Hlen | exact Hnd].
Defined.

Lemma api_routes_behind_middleware_witness :
  let E := sample_env three_cards_endpoint (stored 7) logged in
  let body := Resolves sample_generation_request in
  (("/api/generations" = "/api/flashcards" /\ POST_generations E = POST_flashcards E) \/
   ("/api/generations" = "/api/generations" /\ POST_generations E = POST_generations E)) /\
  onRequest "/api/generations" None (fun u => POST_generations E u body world0)
    = Redirected "/auth/login" /\
  exists answer,
    onRequest "/api/generations" (Some sample_session)
      (fun u => POST_generations E u body world0) = Passed answer /\
    response_status (fst answer) <> 401.
Proof.
  intros E body.
  assert (H : ("/api/generations" = "/api/flashcards" /\
               POST_generations E = POST_flashcards E) \/
              ("/api/generations" = "/api/generations" /\
               POST_generations E = POST_generations E))
    by (right; split; reflexivity).
  split; [exact H |]. split; [reflexivity |].
  pose proof (api_routes_behind_middleware E "/api/generations" (POST_generations E)
                (Some sample_session) body world0 H) as Hm.
  destruct (onRequest "/api/generations" (Some sample_session)
              (fun u => POST_generations E u body world0)) as [answer | location].
  - exists answer. split; [reflexivity |].
    destruct Hm as (u & _ & _ & Hst). exact Hst.
  - destruct Hm as (Hs & _). discriminate.
Defined.

Lemma parseCookieHeader_round_trip_witness :
  Forall sendable sample_cookies /\
  parseCookieHeader
    "sb-access-token=eyJhbGciOi==; theme=dark; sb-refresh-token=v1.token"
    = sample_cookies.
Proof.
  assert (H : Forall sendable sample_cookies)
    by (repeat constructor; vm_compute; reflexivity).
  split; [exact H |].
  exact (parseCookieHeader_round_trip sample_cookies H).
Defined.
